(** * Cart, order placement and cancellation: a shallow embedding

    The development follows the Express back end of the shop: the cart
    controller (getCart, addToCart, updateCartItem, removeFromCart,
    clearCart), the order controller (placeOrder, getOrderById,
    cancelOrder, updateOrderStatus and the paging of the order lists),
    the product controller (updateProduct, deleteProduct, addReview and
    the average rating) and the authentication middleware with the order
    routes.  The Prisma store is an explicit value of type [Store]
    threaded through every handler; a handler maps a store to an HTTP
    outcome and the store it leaves behind.

    Conventions.
    - Identifiers (cuid strings in the database) are [positive]s; the
      database's id generator is [new_id], which returns an id that occurs
      nowhere in the store.
    - Integer columns and JSON integers are [Z].  Prices and totals are
      JavaScript numbers, that is IEEE 754 binary64 values, with the
      arithmetic of [SpecFloat] (module [Double]).
    - Strings are the UTF-8 bytes of the JavaScript strings.
    - [prisma.$transaction] runs its body on the store and keeps the
      original store when the body throws. *)

From Stdlib Require Import ZArith QArith Qround String Ascii Lia Lqa SpecFloat.
From stdpp Require Import gmap strings list fin_maps fin_sets.

Local Open Scope Z_scope.

Abbreviation Id := positive.

(** ** JavaScript numbers *)

Module Double.

(** A JavaScript number: an IEEE 754 binary64 value. *)
Definition double := spec_float.

(** The number a whole number converts to, the nearest double. *)
Definition of_Z (z : Z) : double := binary_normalize 53 1024 z 0 false.

(** [x + y], [x * y] and [x / y], rounded to the nearest double, ties
    to even. *)
Definition add : double -> double -> double := SFadd 53 1024.
Definition mul : double -> double -> double := SFmul 53 1024.
Definition div : double -> double -> double := SFdiv 53 1024.

(** [x < y] *)
Definition ltb : double -> double -> bool := SFltb.

(** The double a decimal literal denotes: the double nearest to [n / d],
    for whole numbers [n] and [d] below 2^53; 19.99 is [decimal 1999 100]. *)
Definition decimal (n d : Z) : double := div (of_Z n) (of_Z d).

(** Neither NaN nor an infinity. *)
Definition is_finite (x : double) : bool :=
  match x with
  | S754_zero _ | S754_finite _ _ _ => true
  | _ => false
  end.

(** The rational number a finite double stands for. *)
Definition to_Q (x : double) : Q :=
  match x with
  | S754_finite s m e => inject_Z (cond_Zopp s (Zpos m)) * Qpower 2 e
  | _ => 0
  end.

(** [Math.round(x)]: the integer nearest to [x], a tie going to the
    larger one; NaN, the infinities and the zeros are returned as they
    are, and a result of zero keeps the sign of [x].  The integer is
    found on the exact value of [x]. *)
Definition round (x : double) : double :=
  match x with
  | S754_finite s m e =>
      let k := Qfloor (to_Q x + (1 # 2)) in
      if k =? 0 then S754_zero s else of_Z k
  | _ => x
  end.

(** The whole number a double is, when it is one. *)
Definition to_Z (x : double) : option Z :=
  match x with
  | S754_zero _ => Some 0
  | S754_finite _ _ _ =>
      let q := to_Q x in
      if Qeq_bool q (inject_Z (Qfloor q)) then Some (Qfloor q) else None
  | _ => None
  end.

End Double.

Abbreviation double := Double.double.

(** ** Data model *)

Inductive Role := USER | ADMIN.

(** [req.user], as attached by the authentication middleware. *)
Record User := { userId : Id; role : Role }.

Inductive OrderStatus :=
  PENDING | CONFIRMED | PROCESSING | SHIPPED | DELIVERED | CANCELLED | REFUNDED.

Record Product := {
  p_name : string;
  p_price : double;
  p_stock : Z;
  p_isActive : bool
}.

Record CartItem := {
  ci_id : Id;
  ci_cartId : Id;
  ci_productId : Id;
  ci_quantity : Z;
  ci_customDesign : option string
}.

Record OrderItem := {
  oi_productId : Id;
  oi_quantity : Z;
  oi_price : double;
  oi_customDesign : option string
}.

Record Order := {
  o_userId : Id;
  o_total : double;
  o_status : OrderStatus;
  o_paymentStatus : option string;   (* [None]: the column default *)
  o_shippingAddress : string;
  o_paymentMethod : string;
  o_notes : option string;
  o_items : list OrderItem
}.

(** The tables.  [carts] is keyed by the owner: the cart table is looked
    up by its unique [userId] only, and the value is the cart's own id.
    [cartItems] keeps the rows in creation order. *)
Record Store := {
  products : gmap positive Product;
  carts : gmap positive positive;
  cartItems : list CartItem;
  orders : gmap positive Order
}.

(** ** Outcomes *)

(** The failure responses of the handlers, named after the error
    taxonomy; the HTTP status each one is sent with is [http_status]. *)
Inductive Error :=
  | InvalidArgument                      (* 400, a required or malformed field *)
  | EmptyCart                            (* 400 'Cart is empty' *)
  | ProductUnavailable (name : string)   (* 400 'Product ... is no longer available' *)
  | InsufficientStock (available : Z)    (* 400 'Insufficient stock ... Available: n' *)
  | NotFound                             (* 404 sent by the handler *)
  | Forbidden                            (* 403 'Not authorized' *)
  | InvalidState                         (* 400 'Order cannot be cancelled at this stage' *)
  | RecordNotFound                       (* Prisma P2025, 404 from errorHandler *)
  | InternalError.                       (* any other exception, 500 from errorHandler *)

Definition http_status (e : Error) : Z :=
  match e with
  | InvalidArgument | EmptyCart | ProductUnavailable _
  | InsufficientStock _ | InvalidState => 400
  | NotFound | RecordNotFound => 404
  | Forbidden => 403
  | InternalError => 500
  end.

Inductive result (A : Type) :=
  | Ok (a : A)
  | Err (e : Error).
Arguments Ok {A} a.
Arguments Err {A} e.

(** A handler leaves a response and a store. *)
Definition Handler (A : Type) := Store -> result A * Store.

(** ** JavaScript helpers *)

(** Truthiness of an optional string: [undefined], [null] and the empty
    string are falsy. *)
Definition truthy (v : option string) : bool :=
  match v with
  | Some (String _ _) => true
  | _ => false
  end.

(** [v || null] *)
Definition or_null (v : option string) : option string :=
  if truthy v then v else None.

(** [v || d] *)
Definition or_default (v : option string) (d : string) : string :=
  match v with
  | Some (String a r) => String a r
  | _ => d
  end.

Definition is_null (v : option string) : bool :=
  match v with None => true | Some _ => false end.

(** [c.toUpperCase()] on an ASCII character. *)
Definition upper_ascii (c : ascii) : ascii :=
  let n := N_of_ascii c in
  if ((97 <=? n) && (n <=? 122))%N then ascii_of_N (n - 32) else c.

(** The byte [c] has the value [n]. *)
Definition byte_is (c : ascii) (n : N) : bool := (N_of_ascii c =? n)%N.

(** [s.toUpperCase()].  Besides the letters a to z, the code points
    whose upper-case form is made of the letters A to Z are U+0131
    (dotless i, to I), U+017F (long s, to S), U+00DF (sharp s, to SS) and
    the ligatures U+FB00 to U+FB06 (to FF, FI, FL, FFI, FFL, ST, ST);
    they are recognised by their bytes.  The other code points outside
    ASCII are left as they are: their upper-case forms have a character
    outside ASCII too, so they can make no difference to a comparison
    with an ASCII name. *)
Fixpoint toUpperCase (s : string) : string :=
  match s with
  | EmptyString => EmptyString
  | String c1 r1 =>
      let plain := String (upper_ascii c1) (toUpperCase r1) in
      match r1 with
      | EmptyString => plain
      | String c2 r2 =>
          if byte_is c1 195 && byte_is c2 159 then String "S" (String "S" (toUpperCase r2))
          else if byte_is c1 196 && byte_is c2 177 then String "I" (toUpperCase r2)
          else if byte_is c1 197 && byte_is c2 191 then String "S" (toUpperCase r2)
          else
            match r2 with
            | EmptyString => plain
            | String c3 r3 =>
                if byte_is c1 239 && byte_is c2 172 then
                  if byte_is c3 128 then String "F" (String "F" (toUpperCase r3))
                  else if byte_is c3 129 then String "F" (String "I" (toUpperCase r3))
                  else if byte_is c3 130 then String "F" (String "L" (toUpperCase r3))
                  else if byte_is c3 131
                  then String "F" (String "F" (String "I" (toUpperCase r3)))
                  else if byte_is c3 132
                  then String "F" (String "F" (String "L" (toUpperCase r3)))
                  else if byte_is c3 133 || byte_is c3 134
                  then String "S" (String "T" (toUpperCase r3))
                  else plain
                else plain
            end
      end
  end.

(** [Math.round] on the exact quotient of two whole numbers: nearest
    integer, ties towards positive infinity. *)
Definition math_round (x : Q) : Z := Qfloor (x + (1 # 2)).

(** [Math.round(x * 100) / 100] *)
Definition round2 (x : double) : double :=
  Double.div (Double.round (Double.mul x (Double.of_Z 100))) (Double.of_Z 100).

(** ** The store's primitives *)

Definition set_stock (p : Product) (n : Z) : Product :=
  {| p_name := p_name p; p_price := p_price p; p_stock := n; p_isActive := p_isActive p |}.

Definition set_quantity (it : CartItem) (q : Z) : CartItem :=
  {| ci_id := ci_id it; ci_cartId := ci_cartId it; ci_productId := ci_productId it;
     ci_quantity := q; ci_customDesign := ci_customDesign it |}.

Definition set_status (o : Order) (st : OrderStatus) : Order :=
  {| o_userId := o_userId o; o_total := o_total o; o_status := st;
     o_paymentStatus := o_paymentStatus o; o_shippingAddress := o_shippingAddress o;
     o_paymentMethod := o_paymentMethod o; o_notes := o_notes o; o_items := o_items o |}.

Definition set_paymentStatus (o : Order) (ps : option string) : Order :=
  {| o_userId := o_userId o; o_total := o_total o; o_status := o_status o;
     o_paymentStatus := ps; o_shippingAddress := o_shippingAddress o;
     o_paymentMethod := o_paymentMethod o; o_notes := o_notes o; o_items := o_items o |}.

Definition with_products (s : Store) (m : gmap positive Product) : Store :=
  {| products := m; carts := carts s; cartItems := cartItems s; orders := orders s |}.

Definition with_carts (s : Store) (m : gmap positive positive) : Store :=
  {| products := products s; carts := m; cartItems := cartItems s; orders := orders s |}.

Definition with_cartItems (s : Store) (l : list CartItem) : Store :=
  {| products := products s; carts := carts s; cartItems := l; orders := orders s |}.

Definition with_orders (s : Store) (m : gmap positive Order) : Store :=
  {| products := products s; carts := carts s; cartItems := cartItems s; orders := m |}.

(** Every id that occurs in the store, as a key or as a reference. *)
Definition used_ids (s : Store) : gset positive :=
  dom (products s) ∪ dom (orders s) ∪ map_img (carts s)
  ∪ list_to_set (ci_id <$> cartItems s)
  ∪ list_to_set (ci_cartId <$> cartItems s).

(** The id the database gives to a row created in store [s]. *)
Definition new_id (s : Store) : positive := fresh (used_ids s).

(** *** Transactions *)

(** The body of an interactive transaction: it either throws or returns
    a value and the store it has written. *)
Definition Tx (A : Type) := Store -> result (A * Store).

Definition tx_ret {A} (a : A) : Tx A := fun s => Ok (a, s).

Definition tx_bind {A B} (m : Tx A) (k : A -> Tx B) : Tx B :=
  fun s => match m s with
           | Ok (a, s') => k a s'
           | Err e => Err e
           end.

Notation "'let*' x ':=' m 'in' k" := (tx_bind m (fun x => k))
  (at level 10, x pattern, m at level 100, k at level 200).

(** [for (const x of l) await body(x)] *)
Fixpoint tx_for {A} (l : list A) (body : A -> Tx unit) : Tx unit :=
  match l with
  | [] => tx_ret tt
  | x :: rest => let* _ := body x in tx_for rest body
  end.

(** [prisma.$transaction(body)]: commit on return, roll back on throw. *)
Definition transaction {A} (body : Tx A) : Handler A :=
  fun s => match body s with
           | Ok (a, s') => (Ok a, s')
           | Err e => (Err e, s)
           end.

(** [product.update({ where: { id }, data: { stock: f } })]; Prisma throws
    P2025 when no row has the id. *)
Definition product_update_stock (id : Id) (f : Z -> Z) : Tx unit :=
  fun s => match products s !! id with
           | Some p => Ok (tt, with_products s (<[id := set_stock p (f (p_stock p))]> (products s)))
           | None => Err RecordNotFound
           end.

(** [{ decrement: n }] and [{ increment: n }] *)
Definition decrement (n : Z) : Z -> Z := fun stock => stock - n.
Definition increment (n : Z) : Z -> Z := fun stock => stock + n.

(** [order.update({ where: { id }, data: { status } })] *)
Definition order_update_status (id : Id) (st : OrderStatus) : Tx unit :=
  fun s => match orders s !! id with
           | Some o => Ok (tt, with_orders s (<[id := set_status o st]> (orders s)))
           | None => Err RecordNotFound
           end.

(** [order.create({ data })]: the row is stored under a new id. *)
Definition order_create (o : Order) : Tx (Id * Order) :=
  fun s => let id := new_id s in
           Ok ((id, o), with_orders s (<[id := o]> (orders s))).

(** [cartItem.deleteMany({ where: { cartId } })] *)
Definition cartItem_deleteMany (cartId : Id) : Tx unit :=
  fun s => Ok (tt, with_cartItems s
                     (List.filter (fun it => negb (ci_cartId it =? cartId)%positive) (cartItems s))).

(** [cart.create({ data: { userId } })] *)
Definition cart_create (uid : Id) (s : Store) : Id * Store :=
  let id := new_id s in (id, with_carts s (<[uid := id]> (carts s))).

(** [cartItem.create({ data })] *)
Definition cartItem_create (cartId productId : Id) (quantity : Z)
    (customDesign : option string) (s : Store) : CartItem * Store :=
  let it := {| ci_id := new_id s; ci_cartId := cartId; ci_productId := productId;
               ci_quantity := quantity; ci_customDesign := customDesign |} in
  (it, with_cartItems s (cartItems s ++ [it])).

(** [cartItem.findFirst({ where })] *)
Definition cartItem_findFirst (where_ : CartItem -> bool) (s : Store) : option CartItem :=
  List.find where_ (cartItems s).

(** [cartItem.update({ where: { id }, data: { quantity } })] *)
Definition cartItem_update (id : Id) (quantity : Z) : Handler CartItem :=
  fun s => match List.find (fun it => (ci_id it =? id)%positive) (cartItems s) with
           | Some it =>
               (Ok (set_quantity it quantity),
                with_cartItems s
                  (List.map (fun it => if (ci_id it =? id)%positive
                                       then set_quantity it quantity else it)
                            (cartItems s)))
           | None => (Err RecordNotFound, s)
           end.

(** [cartItem.delete({ where: { id } })] *)
Definition cartItem_delete (id : Id) : Handler unit :=
  fun s => match List.find (fun it => (ci_id it =? id)%positive) (cartItems s) with
           | Some _ =>
               (Ok tt, with_cartItems s
                         (List.filter (fun it => negb (ci_id it =? id)%positive) (cartItems s)))
           | None => (Err RecordNotFound, s)
           end.

(** The rows of one cart, in table order. *)
Definition cart_items (s : Store) (cartId : Id) : list CartItem :=
  List.filter (fun it => (ci_cartId it =? cartId)%positive) (cartItems s).

(** [include: { product: true }] on a list of cart rows.  The relation is
    required: a row whose product is missing makes the query throw. *)
Fixpoint include_product (m : gmap positive Product) (items : list CartItem)
    : option (list (CartItem * Product)) :=
  match items with
  | [] => Some []
  | it :: rest =>
      match m !! ci_productId it, include_product m rest with
      | Some p, Some r => Some ((it, p) :: r)
      | _, _ => None
      end
  end.

(** ** Cart controller *)

Module CartController.

(** "Ensure cart exists": the customer's cart, created when there is
    none. *)
Definition ensure_cart (u : User) (s : Store) : Id * Store :=
  match carts s !! userId u with
  | Some cartId => (cartId, s)
  | None => cart_create (userId u) s
  end.

(** [POST /api/cart/items].  [productId], [quantity] and [customDesign]
    are the fields of the request body; [quantity] defaults to 1.  The
    quantity is a whole number here, so that every write is accepted;
    [addToCart_number] below is the handler on any number. *)
Definition addToCart (u : User) (productId : option Id) (quantity : option Z)
    (customDesign : option string) : Handler CartItem :=
  fun s =>
  match productId with
  | None => (Err InvalidArgument, s)
  | Some productId =>
  match products s !! productId with
  | None => (Err NotFound, s)
  | Some product =>
  if negb (p_isActive product) then (Err NotFound, s) else
  let quantity := default 1 quantity in
  if p_stock product <? quantity then (Err (InsufficientStock (p_stock product)), s) else
  let '(cartId, s) := ensure_cart u s in
  (* an existing line is looked for only when no custom design is given *)
  let existingItem :=
    if negb (truthy customDesign)
    then cartItem_findFirst
           (fun it => (ci_cartId it =? cartId)%positive
                      && (ci_productId it =? productId)%positive
                      && is_null (ci_customDesign it)) s
    else None in
  match existingItem with
  | Some existingItem =>
      let newQty := ci_quantity existingItem + quantity in
      if newQty >? p_stock product
      then (Err (InsufficientStock (p_stock product)), s)
      else cartItem_update (ci_id existingItem) newQty s
  | None =>
      let '(cartItem, s) :=
        cartItem_create cartId productId quantity (or_null customDesign) s in
      (Ok cartItem, s)
  end
  end
  end.

(** [POST /api/cart/items] with the quantity as the JavaScript number it
    is: the comparisons and the sum are those of doubles, and the
    quantity column, an integer column, takes a whole number only; the
    write of any other number is refused and the handler answers with the
    exception.  The cart row created before that write is not in a
    transaction with it.  ([addToCart] is this handler on whole numbers,
    in integer arithmetic, which doubles follow exactly below 2^53.) *)
Definition addToCart_number (u : User) (productId : option Id) (quantity : option double)
    (customDesign : option string) : Handler CartItem :=
  fun s =>
  match productId with
  | None => (Err InvalidArgument, s)
  | Some productId =>
  match products s !! productId with
  | None => (Err NotFound, s)
  | Some product =>
  if negb (p_isActive product) then (Err NotFound, s) else
  let quantity := default (Double.of_Z 1) quantity in
  if Double.ltb (Double.of_Z (p_stock product)) quantity
  then (Err (InsufficientStock (p_stock product)), s) else
  let '(cartId, s) := ensure_cart u s in
  let existingItem :=
    if negb (truthy customDesign)
    then cartItem_findFirst
           (fun it => (ci_cartId it =? cartId)%positive
                      && (ci_productId it =? productId)%positive
                      && is_null (ci_customDesign it)) s
    else None in
  match existingItem with
  | Some existingItem =>
      let newQty := Double.add (Double.of_Z (ci_quantity existingItem)) quantity in
      if Double.ltb (Double.of_Z (p_stock product)) newQty
      then (Err (InsufficientStock (p_stock product)), s)
      else match Double.to_Z newQty with
           | Some q => cartItem_update (ci_id existingItem) q s
           | None => (Err InternalError, s)
           end
  | None =>
      match Double.to_Z quantity with
      | Some q =>
          let '(cartItem, s) :=
            cartItem_create cartId productId q (or_null customDesign) s in
          (Ok cartItem, s)
      | None => (Err InternalError, s)
      end
  end
  end
  end.

(** [PUT /api/cart/items/:itemId] *)
Definition updateCartItem (u : User) (itemId : Id) (quantity : option Z)
    : Handler CartItem :=
  fun s =>
  match quantity with
  | None => (Err InvalidArgument, s)
  | Some quantity =>
  if (quantity =? 0) || (quantity <? 1) then (Err InvalidArgument, s) else
  match carts s !! userId u with
  | None => (Err NotFound, s)
  | Some cartId =>
  match cartItem_findFirst
          (fun it => (ci_id it =? itemId)%positive && (ci_cartId it =? cartId)%positive) s with
  | None => (Err NotFound, s)
  | Some cartItem =>
  match products s !! ci_productId cartItem with
  | None => (Err InternalError, s)
  | Some product =>
  if quantity >? p_stock product
  then (Err (InsufficientStock (p_stock product)), s)
  else cartItem_update itemId quantity s
  end
  end
  end
  end.

(** [DELETE /api/cart/items/:itemId] *)
Definition removeFromCart (u : User) (itemId : Id) : Handler unit :=
  fun s =>
  match carts s !! userId u with
  | None => (Err NotFound, s)
  | Some cartId =>
  match cartItem_findFirst
          (fun it => (ci_id it =? itemId)%positive && (ci_cartId it =? cartId)%positive) s with
  | None => (Err NotFound, s)
  | Some _ => cartItem_delete itemId s
  end
  end.

(** [DELETE /api/cart] *)
Definition clearCart (u : User) : Handler unit :=
  fun s =>
  match carts s !! userId u with
  | None => (Err NotFound, s)
  | Some cartId =>
      match cartItem_deleteMany cartId s with
      | Ok (_, s') => (Ok tt, s')
      | Err e => (Err e, s)
      end
  end.

(** The response of [GET /api/cart]: the cart with its lines and their
    products, the rounded subtotal and the number of items. *)
Record CartView := {
  cv_cartId : Id;
  cv_items : list (CartItem * Product);
  cv_subtotal : double;
  cv_itemCount : Z
}.

Definition cart_view (cartId : Id) (items : list (CartItem * Product)) : CartView :=
  let subtotal :=
    fold_left (fun sum '(item, product) =>
                 Double.add sum (Double.mul (p_price product)
                                            (Double.of_Z (ci_quantity item))))
              items (Double.of_Z 0) in
  {| cv_cartId := cartId;
     cv_items := items;
     cv_subtotal := round2 subtotal;
     cv_itemCount := fold_left (fun sum ip => sum + ci_quantity (fst ip)) items 0 |}.

(** [GET /api/cart]: the cart is created when the customer has none. *)
Definition getCart (u : User) : Handler CartView :=
  fun s =>
  let '(cartId, s) := ensure_cart u s in
  match include_product (products s) (cart_items s cartId) with
  | None => (Err InternalError, s)
  | Some items => (Ok (cart_view cartId items), s)
  end.

End CartController.

(** ** Order controller *)

Module OrderController.

(** The body of [POST /api/orders]. *)
Record PlaceOrderBody := {
  shippingAddress : option string;
  paymentMethod : option string;
  notes : option string
}.

(** Modelled from the spec: the default of the [status] column, set by
    the Prisma schema, which is not among the sources.  [placeOrder]
    passes no status to [order.create]; the spec creates the order with
    status [PENDING]. *)
Definition default_status : OrderStatus := PENDING.

(** The stock validation loop: the first offending line decides the
    response. *)
Fixpoint validate_stock (items : list (CartItem * Product)) : option Error :=
  match items with
  | [] => None
  | (item, product) :: rest =>
      if negb (p_isActive product)
      then Some (ProductUnavailable (p_name product))
      else if p_stock product <? ci_quantity item
      then Some (InsufficientStock (p_stock product))
      else validate_stock rest
  end.

(** [cart.items.reduce((sum, item) => sum + item.product.price * item.quantity, 0)] *)
Definition cart_total (items : list (CartItem * Product)) : double :=
  fold_left (fun sum '(item, product) =>
               Double.add sum (Double.mul (p_price product)
                                          (Double.of_Z (ci_quantity item))))
            items (Double.of_Z 0).

(** [cart.items.map(...)]: the order lines created with the order. *)
Definition order_line (ip : CartItem * Product) : OrderItem :=
  {| oi_productId := ci_productId (fst ip);
     oi_quantity := ci_quantity (fst ip);
     oi_price := p_price (snd ip);
     oi_customDesign := ci_customDesign (fst ip) |}.

(** What [placeOrder] holds once validation has passed: the cart row and
    its lines, read before the transaction starts. *)
Record Snapshot := {
  snap_cartId : Id;
  snap_items : list (CartItem * Product);
  snap_address : string
}.

(** Everything [placeOrder] does before [prisma.$transaction]: it only
    reads the store.  The query asks for the lines in no particular
    order; they are taken in table order here, and which of several
    offending lines decides the error depends on that order. *)
Definition placeOrder_validate (u : User) (body : PlaceOrderBody) (s : Store)
    : result Snapshot :=
  match shippingAddress body with
  | Some (String a r) =>
      match carts s !! userId u with
      | None => Err EmptyCart
      | Some cartId =>
          match include_product (products s) (cart_items s cartId) with
          | None => Err InternalError
          | Some items =>
              if (length items =? 0)%nat then Err EmptyCart else
              match validate_stock items with
              | Some e => Err e
              | None => Ok {| snap_cartId := cartId; snap_items := items;
                              snap_address := String a r |}
              end
          end
      end
  | _ => Err InvalidArgument
  end.

(** The transaction of [placeOrder]: create the order, decrement the
    stock of every line, empty the cart. *)
Definition placeOrder_tx (u : User) (body : PlaceOrderBody) (snap : Snapshot)
    : Tx (Id * Order) :=
  let total := cart_total (snap_items snap) in
  let* newOrder := order_create
      {| o_userId := userId u;
         o_total := round2 total;
         o_status := default_status;
         o_paymentStatus := None;
         o_shippingAddress := snap_address snap;
         o_paymentMethod := or_default (paymentMethod body) "cod";
         o_notes := notes body;
         o_items := List.map order_line (snap_items snap) |} in
  let* _ := tx_for (snap_items snap)
      (fun item => product_update_stock (ci_productId (fst item))
                                        (decrement (ci_quantity (fst item)))) in
  let* _ := cartItem_deleteMany (snap_cartId snap) in
  tx_ret newOrder.

(** [POST /api/orders] *)
Definition placeOrder (u : User) (body : PlaceOrderBody) : Handler (Id * Order) :=
  fun s =>
  match placeOrder_validate u body s with
  | Err e => (Err e, s)
  | Ok snap => transaction (placeOrder_tx u body snap) s
  end.

(** [['PENDING', 'CONFIRMED'].includes(status)] *)
Definition cancellable (st : OrderStatus) : bool :=
  match st with
  | PENDING | CONFIRMED => true
  | _ => false
  end.

Definition is_admin (r : Role) : bool :=
  match r with ADMIN => true | USER => false end.

(** The transaction of [cancelOrder]. *)
Definition cancelOrder_tx (id : Id) (order : Order) : Tx unit :=
  let* _ := tx_for (o_items order)
      (fun item => product_update_stock (oi_productId item)
                                        (increment (oi_quantity item))) in
  order_update_status id CANCELLED.

(** [PUT /api/orders/:id/cancel] *)
Definition cancelOrder (u : User) (id : Id) : Handler unit :=
  fun s =>
  match orders s !! id with
  | None => (Err NotFound, s)
  | Some order =>
      if negb (o_userId order =? userId u)%positive && negb (is_admin (role u))
      then (Err Forbidden, s)
      else if negb (cancellable (o_status order))
      then (Err InvalidState, s)
      else transaction (cancelOrder_tx id order) s
  end.

Definition validStatuses : list string :=
  ["PENDING"; "CONFIRMED"; "PROCESSING"; "SHIPPED"; "DELIVERED"; "CANCELLED"; "REFUNDED"].

(** [l.includes(x)] *)
Definition includes (l : list string) (x : string) : bool :=
  existsb (String.eqb x) l.

(** The value of the [OrderStatus] enumeration a string denotes when it
    is written to the [status] column. *)
Definition status_of_string (x : string) : option OrderStatus :=
  if String.eqb x "PENDING" then Some PENDING
  else if String.eqb x "CONFIRMED" then Some CONFIRMED
  else if String.eqb x "PROCESSING" then Some PROCESSING
  else if String.eqb x "SHIPPED" then Some SHIPPED
  else if String.eqb x "DELIVERED" then Some DELIVERED
  else if String.eqb x "CANCELLED" then Some CANCELLED
  else if String.eqb x "REFUNDED" then Some REFUNDED
  else None.

(** [order.update({ where: { id }, data: { status?, paymentStatus? } })]:
    a field absent from [data] keeps its value; a status outside the
    enumeration is refused by the client.  The payment status is taken as
    free text. *)
Definition order_update (id : Id) (status paymentStatus : option string)
    : Handler Order :=
  fun s =>
  match orders s !! id with
  | None => (Err RecordNotFound, s)
  | Some order =>
      let with_status :=
        match status with
        | Some x => option_map (set_status order) (status_of_string x)
        | None => Some order
        end in
      match with_status with
      | None => (Err InternalError, s)
      | Some o1 =>
          let updated := match paymentStatus with
                         | Some ps => set_paymentStatus o1 (Some ps)
                         | None => o1
                         end in
          (Ok updated, with_orders s (<[id := updated]> (orders s)))
      end
  end.

(** [PUT /api/orders/admin/:id/status] *)
Definition updateOrderStatus (id : Id) (status paymentStatus : option string)
    : Handler Order :=
  fun s =>
  let upper := toUpperCase (default EmptyString status) in
  if truthy status && negb (includes validStatuses upper)
  then (Err InvalidArgument, s) else
  match orders s !! id with
  | None => (Err NotFound, s)
  | Some _ =>
      order_update id
        (if truthy status then Some upper else None)
        (if truthy paymentStatus then paymentStatus else None) s
  end.

(** *** Two requests in flight

    A [placeOrder] handler is suspended twice: at the query that reads
    the cart, and at [prisma.$transaction].  Between the two, another
    request may run.  A request is followed through these points; the
    transaction itself is taken as one indivisible step. *)
Inductive Request :=
  | Received                                (* nothing read yet *)
  | Checked (snap : Snapshot)               (* cart read and validated *)
  | Answered (r : result (Id * Order)).     (* response sent *)

Definition placeOrder_step (u : User) (body : PlaceOrderBody) (st : Request)
    (s : Store) : Request * Store :=
  match st with
  | Received =>
      match placeOrder_validate u body s with
      | Ok snap => (Checked snap, s)
      | Err e => (Answered (Err e), s)
      end
  | Checked snap =>
      let '(r, s') := transaction (placeOrder_tx u body snap) s in
      (Answered r, s')
  | Answered r => (Answered r, s)
  end.

Inductive Who := First | Second.

(** Two [placeOrder] requests advanced in the order a schedule gives. *)
Fixpoint run_schedule (u1 u2 : User) (b1 b2 : PlaceOrderBody) (sched : list Who)
    (r1 r2 : Request) (s : Store) : Request * Request * Store :=
  match sched with
  | [] => (r1, r2, s)
  | First :: rest =>
      let '(r1', s') := placeOrder_step u1 b1 r1 s in
      run_schedule u1 u2 b1 b2 rest r1' r2 s'
  | Second :: rest =>
      let '(r2', s') := placeOrder_step u2 b2 r2 s in
      run_schedule u1 u2 b1 b2 rest r1 r2' s'
  end.

(** [GET /api/orders/:id]: the order, for its owner or an
    administrator.  The joined display columns of the response are
    outside the model. *)
Definition getOrderById (u : User) (id : Id) : Handler Order :=
  fun s =>
  match orders s !! id with
  | None => (Err NotFound, s)
  | Some order =>
      if negb (is_admin (role u)) && negb (o_userId order =? userId u)%positive
      then (Err Forbidden, s)
      else (Ok order, s)
  end.

(** *** Paging

    [getUserOrders] and [getAllOrders] (and the list handlers of the
    other controllers) page their result the same way.  [rows] are the
    rows that satisfy the filter, in the requested order; [page] and
    [limit] are the query parameters after [Number(...)]. *)

(** [findMany({ skip, take })] on [rows]: a negative [skip] is refused
    by the client, a negative [take] counts from the end. *)
Definition findMany_window {A} (rows : list A) (skip take : Z) : result (list A) :=
  if skip <? 0 then Err InternalError
  else if take <? 0
  then Ok (rev (firstn (Z.to_nat (- take)) (skipn (Z.to_nat skip) (rev rows))))
  else Ok (firstn (Z.to_nat take) (skipn (Z.to_nat skip) rows)).

(** [(Number(page) - 1) * Number(limit)] *)
Definition page_skip (page limit : Z) : Z := (page - 1) * limit.

(** [Math.ceil(total / Number(limit))]; [None] when the quotient is not a
    finite number ([limit] is 0) and is sent as [null]. *)
Definition totalPages (total limit : Z) : option Z :=
  if limit =? 0 then None
  else Some (Qceiling (inject_Z total / inject_Z limit)).

Record Page (A : Type) := {
  pg_rows : list A;
  pg_total : Z;
  pg_page : Z;
  pg_limit : Z;
  pg_totalPages : option Z
}.
Arguments pg_rows {A} _.
Arguments pg_total {A} _.
Arguments pg_page {A} _.
Arguments pg_limit {A} _.
Arguments pg_totalPages {A} _.

Definition list_page {A} (rows : list A) (page limit : Z) : result (Page A) :=
  match findMany_window rows (page_skip page limit) limit with
  | Err e => Err e
  | Ok window =>
      let total := Z.of_nat (length rows) in
      Ok {| pg_rows := window; pg_total := total; pg_page := page;
            pg_limit := limit; pg_totalPages := totalPages total limit |}
  end.

End OrderController.

(** ** Product controller *)

Module ProductController.

Definition set_isActive (p : Product) (b : bool) : Product :=
  {| p_name := p_name p; p_price := p_price p; p_stock := p_stock p; p_isActive := b |}.

(** [DELETE /api/products/:id]: a soft delete. *)
Definition deleteProduct (id : Id) : Handler unit :=
  fun s =>
  match products s !! id with
  | None => (Err NotFound, s)
  | Some existing =>
      (Ok tt, with_products s (<[id := set_isActive existing false]> (products s)))
  end.

(** The fields of the body of [PUT /api/products/:id] that the model
    keeps; [None] is a field left [undefined]. *)
Record ProductPatch := {
  patch_name : option string;
  patch_price : option double;
  patch_stock : option Z;
  patch_isActive : option bool
}.

Definition apply_patch (patch : ProductPatch) (p : Product) : Product :=
  {| p_name := default (p_name p) (patch_name patch);
     p_price := default (p_price p) (patch_price patch);
     p_stock := default (p_stock p) (patch_stock patch);
     p_isActive := default (p_isActive p) (patch_isActive patch) |}.

(** [PUT /api/products/:id] *)
Definition updateProduct (id : Id) (patch : ProductPatch) : Handler Product :=
  fun s =>
  match products s !! id with
  | None => (Err NotFound, s)
  | Some existing =>
      let product := apply_patch patch existing in
      (Ok product, with_products s (<[id := product]> (products s)))
  end.

(** A review; the table has one row per customer and product, and is
    keyed here by that pair. *)
Record Review := {
  r_rating : Z;
  r_comment : option string
}.

(** [POST /api/products/:id/reviews]: an upsert.  On an existing row a
    comment left [undefined] keeps the stored comment. *)
Definition addReview (u : User) (productId : Id) (rating : option Z)
    (comment : option string) (products : gmap positive Product)
    (reviews : gmap (positive * positive) Review)
    : result Review * gmap (positive * positive) Review :=
  match rating with
  | None => (Err InvalidArgument, reviews)
  | Some rating =>
      if (rating =? 0) || (rating <? 1) || (rating >? 5)
      then (Err InvalidArgument, reviews) else
      match products !! productId with
      | None => (Err NotFound, reviews)
      | Some _ =>
          let review :=
            match reviews !! (userId u, productId) with
            | Some old =>
                {| r_rating := rating;
                   r_comment := match comment with
                                | Some c => Some c
                                | None => r_comment old
                                end |}
            | None => {| r_rating := rating; r_comment := comment |}
            end in
          (Ok review, <[(userId u, productId) := review]> reviews)
      end
  end.

(** The reviews of a product ([include: { reviews }]). *)
Definition product_reviews (reviews : gmap (positive * positive) Review)
    (productId : Id) : list Review :=
  List.map snd
    (List.filter (fun kv => (snd (fst kv) =? productId)%positive) (map_to_list reviews)).

(** [reviews.length > 0 ? reviews.reduce((sum, r) => sum + r.rating, 0) / reviews.length : 0] *)
Definition avgRating (reviews : list Review) : Q :=
  let sum := fold_left (fun sum r => sum + r_rating r) reviews 0 in
  if (0 <? length reviews)%nat
  then (inject_Z sum / inject_Z (Z.of_nat (length reviews)))%Q
  else inject_Z 0.

(** [Math.round(x * 10) / 10] *)
Definition round1 (x : Q) : Q := inject_Z (math_round (x * inject_Z 10)) / inject_Z 10.

Record ProductView := {
  pv_product : Product;
  pv_avgRating : Q;
  pv_reviewCount : Z
}.

(** [GET /api/products/:id] *)
Definition getProductById (id : Id) (products : gmap positive Product)
    (reviews : gmap (positive * positive) Review) : result ProductView :=
  match products !! id with
  | None => Err NotFound
  | Some product =>
      if negb (p_isActive product) then Err NotFound else
      let rs := product_reviews reviews id in
      Ok {| pv_product := product;
            pv_avgRating := round1 (avgRating rs);
            pv_reviewCount := Z.of_nat (length rs) |}
  end.

End ProductController.

(** ** Authentication middleware and the order routes *)

Module Middleware.
Import OrderController.

(** What a middleware does with a request: pass it on, or answer it. *)
Inductive Gate (A : Type) :=
  | Next (a : A)
  | Reject (status : Z).
Arguments Next {A} a.
Arguments Reject {A} status.

(** [s.split(sep)] for a one-character separator. *)
Fixpoint js_split (sep : ascii) (s : string) : list string :=
  match s with
  | EmptyString => [EmptyString]
  | String c r =>
      if Ascii.eqb c sep then EmptyString :: js_split sep r
      else match js_split sep r with
           | [] => [String c EmptyString]
           | part :: parts => String c part :: parts
           end
  end.

(** The token [protect] reads from the [Authorization] header. *)
Definition bearer_token (authorization : option string) : option string :=
  match authorization with
  | Some header =>
      if truthy (Some header) && String.prefix "Bearer" header
      then nth_error (js_split " " header) 1
      else None
  | None => None
  end.

Definition role_eqb (a b : Role) : bool :=
  match a, b with
  | USER, USER | ADMIN, ADMIN => true
  | _, _ => false
  end.

(** [authorize(...roles)] *)
Definition authorize (roles : list Role) (user : option User) : Gate User :=
  match user with
  | None => Reject 401
  | Some u => if existsb (role_eqb (role u)) roles then Next u else Reject 403
  end.

(** What a route answers: a refusal by a middleware, or the handler's
    response. *)
Inductive Response (A : Type) :=
  | Refused (status : Z)
  | Handled (r : result A).
Arguments Refused {A} status.
Arguments Handled {A} r.

Definition guard {A} (g : Gate User) (h : User -> Handler A)
    : Store -> Response A * Store :=
  fun s => match g with
           | Reject status => (Refused status, s)
           | Next u => let '(r, s') := h u s in (Handled r, s')
           end.

Section Routes.

(** [jwt.verify(token, secret)] followed by the construction of
    [req.user]; [None] when it throws. *)
Variable jwt_verify : string -> option User.

(** [protect] *)
Definition protect (authorization : option string) : Gate User :=
  let token := bearer_token authorization in
  if negb (truthy token) then Reject 401 else
  match jwt_verify (default EmptyString token) with
  | Some u => Next u
  | None => Reject 401
  end.

(** [protect, authorize('ADMIN')] *)
Definition admin_only (authorization : option string) : Gate User :=
  match protect authorization with
  | Reject status => Reject status
  | Next u => authorize [ADMIN] (Some u)
  end.

(** [router.put('/admin/:id/status', protect, authorize('ADMIN'), updateOrderStatus)] *)
Definition route_updateOrderStatus (authorization : option string) (id : Id)
    (status paymentStatus : option string) : Store -> Response Order * Store :=
  guard (admin_only authorization) (fun _ => updateOrderStatus id status paymentStatus).

(** [router.post('/', protect, placeOrder)] *)
Definition route_placeOrder (authorization : option string) (body : PlaceOrderBody)
    : Store -> Response (Id * Order) * Store :=
  guard (protect authorization) (fun u => placeOrder u body).

(** [router.get('/:id', protect, getOrderById)] *)
Definition route_getOrderById (authorization : option string) (id : Id)
    : Store -> Response Order * Store :=
  guard (protect authorization) (fun u => getOrderById u id).

(** [router.put('/:id/cancel', protect, cancelOrder)] *)
Definition route_cancelOrder (authorization : option string) (id : Id)
    : Store -> Response unit * Store :=
  guard (protect authorization) (fun u => cancelOrder u id).

End Routes.

End Middleware.

(** ** Sequences of requests *)

Module Api.
Import CartController OrderController ProductController.

(** A request to one of the handlers that write to the store.  The
    quantity of [AddToCart] and [UpdateCartItem] is a whole number; that
    of [AddToCartNumber] is any number. *)
Inductive Op :=
  | AddToCart (u : User) (productId : option Id) (quantity : option Z)
              (customDesign : option string)
  | UpdateCartItem (u : User) (itemId : Id) (quantity : option Z)
  | RemoveFromCart (u : User) (itemId : Id)
  | ClearCart (u : User)
  | GetCart (u : User)
  | PlaceOrder (u : User) (body : PlaceOrderBody)
  | CancelOrder (u : User) (id : Id)
  | UpdateOrderStatus (id : Id) (status paymentStatus : option string)
  | DeleteProduct (id : Id)
  | UpdateProduct (id : Id) (patch : ProductPatch)
  | AddToCartNumber (u : User) (productId : option Id) (quantity : option double)
                    (customDesign : option string).

Definition error_of {A} (r : result A) : option Error :=
  match r with Ok _ => None | Err e => Some e end.

(** The error a request is answered with, if any, and the store it
    leaves. *)
Definition run_op (op : Op) (s : Store) : option Error * Store :=
  match op with
  | AddToCart u p q d => let '(r, s') := addToCart u p q d s in (error_of r, s')
  | UpdateCartItem u i q => let '(r, s') := updateCartItem u i q s in (error_of r, s')
  | RemoveFromCart u i => let '(r, s') := removeFromCart u i s in (error_of r, s')
  | ClearCart u => let '(r, s') := clearCart u s in (error_of r, s')
  | GetCart u => let '(r, s') := getCart u s in (error_of r, s')
  | PlaceOrder u b => let '(r, s') := placeOrder u b s in (error_of r, s')
  | CancelOrder u i => let '(r, s') := cancelOrder u i s in (error_of r, s')
  | UpdateOrderStatus i st ps =>
      let '(r, s') := updateOrderStatus i st ps s in (error_of r, s')
  | DeleteProduct i => let '(r, s') := deleteProduct i s in (error_of r, s')
  | UpdateProduct i patch => let '(r, s') := updateProduct i patch s in (error_of r, s')
  | AddToCartNumber u p q d => let '(r, s') := addToCart_number u p q d s in (error_of r, s')
  end.

(** The customer a request acts for; [None] for the administrator's
    requests on orders and products. *)
Definition actor (op : Op) : option User :=
  match op with
  | AddToCart u _ _ _ | UpdateCartItem u _ _ | RemoveFromCart u _ | ClearCart u
  | GetCart u | PlaceOrder u _ | CancelOrder u _ | AddToCartNumber u _ _ _ => Some u
  | UpdateOrderStatus _ _ _ | DeleteProduct _ | UpdateProduct _ _ => None
  end.

(** The store after a sequence of requests. *)
Definition run_ops (ops : list Op) (s : Store) : Store :=
  fold_left (fun s op => snd (run_op op s)) ops s.

End Api.

(** ** Quantities used by the statements *)

(** The total quantity that the lines [l] carry for product [p]; [pid]
    and [qty] read a line's product and quantity. *)
Fixpoint line_qty {A} (pid : A -> Id) (qty : A -> Z) (l : list A) (p : Id) : Z :=
  match l with
  | [] => 0
  | x :: rest =>
      (if (pid x =? p)%positive then qty x else 0) + line_qty pid qty rest p
  end.

Definition cart_qty : list CartItem -> Id -> Z := line_qty ci_productId ci_quantity.
Definition order_qty : list OrderItem -> Id -> Z := line_qty oi_productId oi_quantity.

(** The sum of unit price times quantity over the lines of an order,
    added up in doubles from the first line to the last. *)
Definition lines_total (l : list OrderItem) : double :=
  fold_left (fun sum x => Double.add sum (Double.mul (oi_price x)
                                                     (Double.of_Z (oi_quantity x))))
            l (Double.of_Z 0).

(** [r] is [x] in hundredths as doubles give it: for the whole number
    [n] nearest to the double product of [x] and 100, halves up, [r] is
    the double nearest to [n / 100] (a negative zero when the product is
    negative and [n] is 0). *)
Definition rounded_to_cents (x r : double) : Prop :=
  exists n : Z,
    (inject_Z n - (1 # 2) <= Double.to_Q (Double.mul x (Double.of_Z 100)))%Q /\
    (Double.to_Q (Double.mul x (Double.of_Z 100)) < inject_Z n + (1 # 2))%Q /\
    (r = Double.decimal n 100 \/ n = 0 /\ r = S754_zero true).

(** The specification's total before rounding: the sum of unit price
    times quantity over the lines of an order, as the exact number. *)
Fixpoint spec_total (l : list OrderItem) : Q :=
  match l with
  | [] => 0
  | x :: rest => (Double.to_Q (oi_price x) * inject_Z (oi_quantity x) + spec_total rest)%Q
  end.

(** The specification's rounding: [r] is the double for [x] rounded to
    two decimal places, that is, [x] is at most half a hundredth from
    the whole number [n] of hundredths (a tie may go either way), and
    [r] is the double nearest to [n / 100]. *)
Definition spec_two_decimals (x : Q) (r : double) : Prop :=
  exists n : Z,
    (inject_Z n - (1 # 2) <= x * inject_Z 100)%Q /\
    (x * inject_Z 100 <= inject_Z n + (1 # 2))%Q /\
    r = Double.decimal n 100.

(** The stock of a product, when it exists. *)
Definition stock_of (s : Store) (p : Id) : option Z :=
  p_stock <$> products s !! p.

(** The stock counters are non-negative. *)
Definition stock_nonneg (s : Store) : Prop :=
  forall id p, products s !! id = Some p -> 0 <= p_stock p.

(** Every cart line has a strictly positive quantity. *)
Definition cart_positive (s : Store) : Prop :=
  Forall (fun it => 0 < ci_quantity it) (cartItems s).

(** The requester may act on the order: the owner, or an administrator. *)
Definition authorized (u : User) (o : Order) : Prop :=
  o_userId o = userId u \/ role u = ADMIN.

(** The cart has no line for the product without a custom design. *)
Definition no_plain_line (s : Store) (cartId productId : Id) : Prop :=
  forall it, In it (cartItems s) -> ci_cartId it = cartId ->
             ci_productId it = productId -> ci_customDesign it <> None.

(** The order line [oi] is a copy of the cart line [it] taken in store
    [s]: same product, quantity and custom design, and the price the
    product has in [s]. *)
Definition copies_line (s : Store) (it : CartItem) (oi : OrderItem) : Prop :=
  oi_productId oi = ci_productId it /\
  oi_quantity oi = ci_quantity it /\
  oi_customDesign oi = ci_customDesign it /\
  p_price <$> products s !! ci_productId it = Some (oi_price oi).

(** A cart line that passes the checks of order placement in store [s]:
    its product exists, is active, and has at least the line's quantity
    in stock. *)
Definition line_in_stock (s : Store) (it : CartItem) : Prop :=
  exists p, products s !! ci_productId it = Some p /\
            p_isActive p = true /\ ci_quantity it <= p_stock p.

(** The name of a status in the enumerated set. *)
Definition status_name (st : OrderStatus) : string :=
  match st with
  | PENDING => "PENDING" | CONFIRMED => "CONFIRMED" | PROCESSING => "PROCESSING"
  | SHIPPED => "SHIPPED" | DELIVERED => "DELIVERED" | CANCELLED => "CANCELLED"
  | REFUNDED => "REFUNDED"
  end.

(** A cart line whose product has been deactivated in store [s]. *)
Definition line_inactive (s : Store) (it : CartItem) : Prop :=
  exists p, products s !! ci_productId it = Some p /\ p_isActive p = false.

(** A cart line that asks for more than its product's stock in [s]. *)
Definition line_short (s : Store) (it : CartItem) : Prop :=
  exists p, products s !! ci_productId it = Some p /\ p_stock p < ci_quantity it.

(** *** Well-formed stores *)

(** The ids of the cart lines are pairwise different. *)
Definition ids_unique (s : Store) : Prop :=
  NoDup (List.map ci_id (cartItems s)).

(** A line without a custom design. *)
Definition is_plain (it : CartItem) : bool := is_null (ci_customDesign it).

(** A cart holds at most one plain line per product. *)
Definition plain_unique (s : Store) : Prop :=
  NoDup (List.map (fun it => (ci_cartId it, ci_productId it))
                  (List.filter is_plain (cartItems s))).

(** Every cart line references a product of the product table. *)
Definition lines_resolve (s : Store) : Prop :=
  Forall (fun it => is_Some (products s !! ci_productId it)) (cartItems s).

(** Every line of every order references a product of the product
    table. *)
Definition orders_resolve (s : Store) : Prop :=
  forall id o, orders s !! id = Some o ->
    Forall (fun oi => is_Some (products s !! oi_productId oi)) (o_items o).

(** The row a quantity update writes. *)
Definition requantify (id : Id) (q : Z) (it : CartItem) : CartItem :=
  if (ci_id it =? id)%positive then set_quantity it q else it.

(** The ways a request changes the table of cart lines: not at all, by
    deleting rows, by rewriting the quantity of the rows with one id, or
    by appending a row with a new id for an existing product, which is
    plain only if its cart has no plain line for that product. *)
Inductive items_step (prods : gmap positive Product) (l : list CartItem)
    : list CartItem -> Prop :=
  | step_same : items_step prods l l
  | step_filter (P : CartItem -> bool) : items_step prods l (List.filter P l)
  | step_requantify (id : Id) (q : Z) : items_step prods l (List.map (requantify id q) l)
  | step_append (it : CartItem) :
      (forall x, In x l -> ci_id x <> ci_id it) ->
      is_Some (prods !! ci_productId it) ->
      (ci_customDesign it = None ->
       forall x, In x l -> ci_cartId x = ci_cartId it ->
                 ci_productId x = ci_productId it -> ci_customDesign x <> None) ->
      items_step prods l (l ++ [it]).

(** The rows of the pages 1 to [n] of a listing, one page after the
    other. *)
Definition pages_concat {A} (rows : list A) (limit : Z) (n : nat) : list A :=
  flat_map (fun k => match OrderController.list_page rows (Z.of_nat k) limit with
                     | Ok pg => OrderController.pg_rows pg
                     | Err _ => []
                     end)
           (seq 1 n).

(** The string contains the character. *)
Fixpoint has_char (c : ascii) (s : string) : bool :=
  match s with
  | EmptyString => false
  | String a r => Ascii.eqb a c || has_char c r
  end.

(** The sum of the ratings of a list of reviews. *)
Definition rating_sum (reviews : list ProductController.Review) : Z :=
  fold_right (fun r acc => ProductController.r_rating r + acc) 0 reviews.

(** ** Sample data *)

Module Sample.
Import OrderController.

Definition shirt : Product :=
  {| p_name := "shirt"; p_price := Double.decimal 1999 100; p_stock := 5; p_isActive := true |}.

Definition last_mug : Product :=
  {| p_name := "mug"; p_price := Double.of_Z 7; p_stock := 1; p_isActive := true |}.

Definition alice : User := {| userId := 10; role := USER |}.
Definition bob : User := {| userId := 11; role := USER |}.

Definition checkout : PlaceOrderBody :=
  {| shippingAddress := Some "12 Mill Lane"; paymentMethod := None; notes := None |}.

(** A shop with five shirts and nothing else. *)
Definition shop : Store :=
  {| products := {[ 1%positive := shirt ]}; carts := ∅; cartItems := []; orders := ∅ |}.

(** Alice's cart (id 20) holds one plain line of [q] shirts. *)
Definition shop_with_line (q : Z) : Store :=
  {| products := {[ 1%positive := shirt ]};
     carts := {[ 10%positive := 20%positive ]};
     cartItems := [ {| ci_id := 30; ci_cartId := 20; ci_productId := 1;
                       ci_quantity := q; ci_customDesign := None |} ];
     orders := ∅ |}.

(** The store after Alice has ordered her five shirts, the order's id
    and the order. *)
Definition shop_after_order : Store :=
  snd (placeOrder alice checkout (shop_with_line 5)).

Definition placed_id : Id := new_id (shop_with_line 5).

Definition placed_order : Order :=
  {| o_userId := 10; o_total := round2 (cart_total [(
         {| ci_id := 30; ci_cartId := 20; ci_productId := 1;
            ci_quantity := 5; ci_customDesign := None |}, shirt)]);
     o_status := PENDING; o_paymentStatus := None;
     o_shippingAddress := "12 Mill Lane"; o_paymentMethod := "cod";
     o_notes := None;
     o_items := [ {| oi_productId := 1; oi_quantity := 5;
                     oi_price := Double.decimal 1999 100; oi_customDesign := None |} ] |}.

(** The store after Alice has cancelled that order. *)
Definition shop_after_cancel : Store :=
  snd (cancelOrder alice placed_id shop_after_order).

(** Alice has ordered two of the five shirts, and the shirt has then
    been deleted from the catalog: the store, the order's id and the
    order. *)
Definition shop_shirt_deleted : Store :=
  snd (ProductController.deleteProduct 1
         (snd (placeOrder alice checkout (shop_with_line 2)))).

Definition deleted_shirt_order : Id := new_id (shop_with_line 2).

Definition shirt_order : Order :=
  {| o_userId := 10; o_total := Double.decimal 3998 100; o_status := PENDING;
     o_paymentStatus := None; o_shippingAddress := "12 Mill Lane";
     o_paymentMethod := "cod"; o_notes := None;
     o_items := [ {| oi_productId := 1; oi_quantity := 2;
                     oi_price := Double.decimal 1999 100; oi_customDesign := None |} ] |}.

(** A sticker at 0.235, and Alice's cart (20) with one of them. *)
Definition sticker : Product :=
  {| p_name := "sticker"; p_price := Double.decimal 235 1000; p_stock := 1;
     p_isActive := true |}.

Definition sticker_shop : Store :=
  {| products := {[ 3%positive := sticker ]};
     carts := {[ 10%positive := 20%positive ]};
     cartItems := [ {| ci_id := 30; ci_cartId := 20; ci_productId := 3;
                       ci_quantity := 1; ci_customDesign := None |} ];
     orders := ∅ |}.

(** Alice's cart after she has added three plain shirts and three shirts
    with a logo. *)
Definition shop_two_lines : Store :=
  {| products := {[ 1%positive := shirt ]};
     carts := {[ 10%positive := 2%positive ]};
     cartItems := [ {| ci_id := 3; ci_cartId := 2; ci_productId := 1;
                       ci_quantity := 3; ci_customDesign := None |};
                    {| ci_id := 4; ci_cartId := 2; ci_productId := 1;
                       ci_quantity := 3; ci_customDesign := Some "logo" |} ];
     orders := ∅ |}.

(** One mug left; Alice's cart (20) and Bob's cart (21) each hold a line
    for it. *)
Definition mug_shop : Store :=
  {| products := {[ 2%positive := last_mug ]};
     carts := {[ 10%positive := 20%positive; 11%positive := 21%positive ]};
     cartItems := [ {| ci_id := 30; ci_cartId := 20; ci_productId := 2;
                       ci_quantity := 1; ci_customDesign := None |};
                    {| ci_id := 31; ci_cartId := 21; ci_productId := 2;
                       ci_quantity := 1; ci_customDesign := None |} ];
     orders := ∅ |}.

(** A token verifier that knows two tokens: Alice's, and the
    administrator's. *)
Definition root : User := {| userId := 1; role := ADMIN |}.

Definition sample_verify (token : string) : option User :=
  if String.eqb token "alice-token" then Some alice
  else if String.eqb token "root-token" then Some root
  else None.

(** A session: Alice adds two shirts, then one more, then one with a
    logo, changes the first line to four, orders, the shirt is deleted
    from the catalog, and she cancels. *)
Definition session : list Api.Op :=
  [ Api.AddToCart alice (Some 1%positive) (Some 2) None;
    Api.AddToCart alice (Some 1%positive) (Some 1) None;
    Api.AddToCart alice (Some 1%positive) (Some 1) (Some "logo"%string);
    Api.UpdateCartItem alice 3 (Some 4);
    Api.GetCart alice;
    Api.PlaceOrder alice checkout;
    Api.DeleteProduct 1;
    Api.CancelOrder alice 5 ].

End Sample.

(** * Properties *)

Import CartController OrderController ProductController.

(** ** Rounding *)

(** On a finite double [Math.round] gives the nearest integer, halves
    up. *)
Lemma round_nearest (y : double) :
  Double.is_finite y = true ->
  exists n : Z,
    (inject_Z n - (1 # 2) <= Double.to_Q y)%Q /\
    (Double.to_Q y < inject_Z n + (1 # 2))%Q /\
    (Double.round y = Double.of_Z n \/ n = 0 /\ Double.round y = S754_zero true).
Proof.
  destruct y as [sgn|sgn| |sgn m e]; try discriminate; intros _.
  - exists 0. split; [done|]. split; [done|].
    destruct sgn; [right|left]; done.
  - cbn [Double.round].
    set (q := Double.to_Q (S754_finite sgn m e)).
    pose proof (Qfloor_le (q + (1 # 2))) as Hle.
    pose proof (Qlt_floor (q + (1 # 2))) as Hlt.
    set (k := Qfloor (q + (1 # 2))) in *.
    rewrite inject_Z_plus in Hlt. change (inject_Z 1) with 1%Q in Hlt.
    exists k. split; [clearbody k q; lra|]. split; [clearbody k q; lra|].
    destruct (Z.eqb_spec k 0) as [Hk|Hk]; [|by left].
    destruct sgn; [by right|left]. by rewrite Hk.
Qed.

Lemma round2_rounded (x : double) :
  Double.is_finite (Double.mul x (Double.of_Z 100)) = true ->
  rounded_to_cents x (round2 x).
Proof.
  intros Hfin. destruct (round_nearest _ Hfin) as (n & Hlo & Hhi & Hr).
  exists n. split; [done|]. split; [done|]. unfold round2.
  destruct Hr as [Hr|[Hn Hr]]; rewrite Hr; [by left|by right].
Qed.

Lemma cart_total_acc (items : list (CartItem * Product)) (acc : double) :
  fold_left (fun sum '(item, product) =>
               Double.add sum (Double.mul (p_price product)
                                          (Double.of_Z (ci_quantity item)))) items acc
  = fold_left (fun sum x => Double.add sum (Double.mul (oi_price x)
                                                       (Double.of_Z (oi_quantity x))))
              (List.map order_line items) acc.
Proof.
  revert acc. induction items as [|[it p] rest IH]; intros acc; simpl; [done|].
  apply IH.
Qed.

Lemma cart_total_lines (items : list (CartItem * Product)) :
  cart_total items = lines_total (List.map order_line items).
Proof. apply cart_total_acc. Qed.

(** ** The stock loops *)

Lemma set_stock_id (p : Product) : set_stock p (p_stock p) = p.
Proof. now destruct p. Qed.

Lemma set_stock_set_stock (p : Product) (a b : Z) :
  set_stock (set_stock p a) b = set_stock p b.
Proof. reflexivity. Qed.

(** Whatever a stock loop does, it writes to the product table only and
    never adds or removes a product. *)
Lemma stock_loop_frame {A} (pid : A -> Id) (f : A -> Z -> Z) (l : list A) (s s' : Store) :
  tx_for l (fun x => product_update_stock (pid x) (f x)) s = Ok (tt, s') ->
  carts s' = carts s /\ cartItems s' = cartItems s /\ orders s' = orders s /\
  dom (products s') = dom (products s).
Proof.
  revert s. induction l as [|x rest IH]; intros s; simpl.
  - unfold tx_ret. intros H. by inversion H.
  - unfold tx_bind, product_update_stock at 1.
    destruct (products s !! pid x) as [pr|] eqn:Hpr; [|discriminate].
    intros H. apply IH in H. simpl in H.
    destruct H as (Hc & Hci & Ho & Hd). repeat (split; [done|]).
    rewrite Hd, dom_insert_L.
    apply elem_of_dom_2 in Hpr. apply subseteq_union_1_L.
    by apply singleton_subseteq_l.
Qed.

Section StockLoop.
Context {A : Type} (pid : A -> Id) (qty : A -> Z) (f : A -> Z -> Z).
Hypothesis f_adds : forall x n, f x n = n + qty x.

Let body (x : A) : Tx unit := product_update_stock (pid x) (f x).

(** When every line's product exists the loop runs to its end, touches
    the product table only, and moves each product's stock by the
    total of its lines. *)
Lemma stock_loop_ok (l : list A) (s : Store) :
  Forall (fun x => is_Some (products s !! pid x)) l ->
  exists s',
    tx_for l body s = Ok (tt, s') /\
    carts s' = carts s /\ cartItems s' = cartItems s /\ orders s' = orders s /\
    forall p, products s' !! p =
              (fun pr => set_stock pr (p_stock pr + line_qty pid qty l p))
                <$> products s !! p.
Proof.
  revert s. induction l as [|x rest IH]; intros s Hall.
  - exists s. repeat split; try reflexivity.
    intros p. simpl. destruct (products s !! p) as [pr|]; simpl; [|done].
    by rewrite Z.add_0_r, set_stock_id.
  - inversion Hall as [|? ? [pr Hpr] Hrest]; subst.
    simpl. unfold tx_bind, body at 1, product_update_stock. rewrite Hpr.
    set (s1 := with_products s _).
    destruct (IH s1) as (s' & Hrun & Hc & Hci & Ho & Hp).
    { eapply Forall_impl; [exact Hrest|]. intros y [py Hy]. simpl.
      destruct (decide (pid x = pid y)) as [->|Hne].
      - rewrite lookup_insert_eq. eauto.
      - rewrite lookup_insert_ne by done. eauto. }
    exists s'. split; [exact Hrun|]. repeat split; try done.
    intros p. rewrite Hp. subst s1. simpl.
    destruct (Pos.eqb_spec (pid x) p) as [Heq|Hne].
    + rewrite <- Heq, lookup_insert_eq, Hpr. simpl.
      rewrite set_stock_set_stock, f_adds. f_equal. f_equal. lia.
    + rewrite lookup_insert_ne by done.
      destruct (products s !! p); simpl; [|done]. by rewrite Z.add_0_l.
Qed.

(** A line whose product is gone makes the loop throw. *)
Lemma stock_loop_missing (l : list A) (s : Store) :
  Exists (fun x => products s !! pid x = None) l ->
  tx_for l body s = Err RecordNotFound.
Proof.
  revert s. induction l as [|x rest IH]; intros s Hex.
  - inversion Hex.
  - simpl. unfold tx_bind, body at 1, product_update_stock.
    destruct (products s !! pid x) as [pr|] eqn:Hpr; [|done].
    inversion Hex as [? ? Hx|? ? Hrest]; subst; [congruence|].
    apply IH. eapply Exists_impl; [exact Hrest|].
    intros y Hy. simpl in *.
    destruct (decide (pid x = pid y)) as [Heq|Hne].
    + rewrite Heq in Hpr. congruence.
    + by rewrite lookup_insert_ne.
Qed.
End StockLoop.

(** ** Fresh identifiers *)

Lemma new_id_fresh (s : Store) : new_id s ∉ used_ids s.
Proof. unfold new_id. apply is_fresh. Qed.

Lemma new_id_orders (s : Store) : orders s !! new_id s = None.
Proof.
  apply not_elem_of_dom. pose proof (new_id_fresh s) as H.
  unfold used_ids in H. set_solver.
Qed.

Lemma new_id_not_item_id (s : Store) (it : CartItem) :
  In it (cartItems s) -> ci_id it <> new_id s.
Proof.
  intros Hin Heq. apply (new_id_fresh s). unfold used_ids.
  apply elem_of_union_l, elem_of_union_r, elem_of_list_to_set.
  rewrite <- Heq. apply list_elem_of_fmap. exists it. split; [done|].
  by apply list_elem_of_In.
Qed.

Lemma new_id_not_cart_id (s : Store) (it : CartItem) :
  In it (cartItems s) -> ci_cartId it <> new_id s.
Proof.
  intros Hin Heq. apply (new_id_fresh s). unfold used_ids.
  apply elem_of_union_r, elem_of_list_to_set.
  rewrite <- Heq. apply list_elem_of_fmap. exists it. split; [done|].
  by apply list_elem_of_In.
Qed.

(** ** Reading a cart *)

Lemma include_product_fst (m : gmap positive Product) (l : list CartItem)
    (items : list (CartItem * Product)) :
  include_product m l = Some items ->
  List.map fst items = l /\
  Forall (fun ip => m !! ci_productId (fst ip) = Some (snd ip)) items.
Proof.
  revert items. induction l as [|it rest IH]; intros items H; simpl in H.
  - inversion H. by split.
  - destruct (m !! ci_productId it) as [p|] eqn:Hp; [|done].
    destruct (include_product m rest) as [r|]; [|done].
    inversion H; subst. destruct (IH r eq_refl) as [Hf Hall].
    split; simpl; [by rewrite Hf|]. by constructor.
Qed.

Lemma include_product_total (m : gmap positive Product) (l : list CartItem) :
  Forall (fun it => is_Some (m !! ci_productId it)) l ->
  exists items, include_product m l = Some items.
Proof.
  induction 1 as [|it rest [p Hp] _ [r Hr]]; simpl; [by eexists|].
  rewrite Hp, Hr. by eexists.
Qed.

Lemma validate_stock_pass (items : list (CartItem * Product)) :
  Forall (fun ip => p_isActive (snd ip) = true /\
                    ci_quantity (fst ip) <= p_stock (snd ip)) items ->
  validate_stock items = None.
Proof.
  induction 1 as [|[it p] rest [Ha Hq] _ IH]; simpl in *; [done|].
  rewrite Ha. simpl.
  destruct (Z.ltb_spec (p_stock p) (ci_quantity it)); [lia|done].
Qed.

Lemma line_qty_map {A B} (g : A -> B) (pid : B -> Id) (qty : B -> Z)
    (l : list A) (p : Id) :
  line_qty pid qty (List.map g l) p = line_qty (fun x => pid (g x)) (fun x => qty (g x)) l p.
Proof. induction l as [|x rest IH]; simpl; [done|]. by rewrite IH. Qed.

Lemma line_qty_opp {A} (pid : A -> Id) (qty : A -> Z) (l : list A) (p : Id) :
  line_qty pid (fun x => - qty x) l p = - line_qty pid qty l p.
Proof.
  induction l as [|x rest IH]; simpl; [done|]. rewrite IH.
  destruct (pid x =? p)%positive; lia.
Qed.

Lemma cart_items_deleteMany (l : list CartItem) (c : Id) :
  List.filter (fun it => (ci_cartId it =? c)%positive)
    (List.filter (fun it => negb (ci_cartId it =? c)%positive) l) = [].
Proof.
  induction l as [|it rest IH]; simpl; [done|].
  destruct (ci_cartId it =? c)%positive eqn:E; simpl; [done|]. by rewrite E.
Qed.

Lemma cart_items_deleteMany_other (l : list CartItem) (c c' : Id) :
  c' <> c ->
  List.filter (fun it => (ci_cartId it =? c')%positive)
    (List.filter (fun it => negb (ci_cartId it =? c)%positive) l)
  = List.filter (fun it => (ci_cartId it =? c')%positive) l.
Proof.
  intros Hne. induction l as [|it rest IH]; simpl; [done|].
  destruct (Pos.eqb_spec (ci_cartId it) c) as [Hc|Hc]; simpl.
  - destruct (Pos.eqb_spec (ci_cartId it) c'); [congruence|done].
  - by rewrite IH.
Qed.

(** ** Order placement *)

(** The transaction of [placeOrder] commits whenever every line's product
    still exists; it does not look at the stock it decrements. *)
Lemma placeOrder_tx_ok (u : User) (body : PlaceOrderBody) (snap : Snapshot) (s : Store) :
  Forall (fun ip => is_Some (products s !! ci_productId (fst ip))) (snap_items snap) ->
  exists order s',
    placeOrder_tx u body snap s = Ok ((new_id s, order), s') /\
    o_userId order = userId u /\ o_status order = PENDING /\
    o_items order = List.map order_line (snap_items snap) /\
    o_total order = round2 (cart_total (snap_items snap)) /\
    orders s' = <[new_id s := order]> (orders s) /\
    carts s' = carts s /\
    cartItems s' = List.filter (fun it => negb (ci_cartId it =? snap_cartId snap)%positive)
                               (cartItems s) /\
    forall p, products s' !! p =
              (fun pr => set_stock pr
                 (p_stock pr - cart_qty (List.map fst (snap_items snap)) p))
                <$> products s !! p.
Proof.
  intros Hall.
  unfold placeOrder_tx, tx_bind at 1, order_create.
  set (order := Build_Order _ _ _ _ _ _ _ _).
  set (s1 := with_orders s _).
  destruct (stock_loop_ok (fun ip : CartItem * Product => ci_productId (fst ip))
              (fun ip => - ci_quantity (fst ip))
              (fun ip => decrement (ci_quantity (fst ip)))
              (fun ip n => eq_refl) (snap_items snap) s1 Hall)
    as (s2 & Hrun & Hc & Hci & Ho & Hp).
  exists order, (with_cartItems s2
     (List.filter (fun it => negb (ci_cartId it =? snap_cartId snap)%positive) (cartItems s2))).
  unfold tx_bind. rewrite Hrun. simpl.
  repeat split; try done.
  - by rewrite Hci.
  - intros p. rewrite Hp. simpl.
    unfold cart_qty. rewrite line_qty_map, line_qty_opp.
    by destruct (products s !! p).
Qed.

(** The checks of [placeOrder] pass on a non-empty cart whose lines are
    all in stock, and hand the cart's lines to the transaction. *)
Lemma placeOrder_validate_ok (u : User) (body : PlaceOrderBody) (s : Store) (cartId : Id) :
  truthy (shippingAddress body) = true ->
  carts s !! userId u = Some cartId ->
  cart_items s cartId <> [] ->
  Forall (line_in_stock s) (cart_items s cartId) ->
  exists snap,
    placeOrder_validate u body s = Ok snap /\
    snap_cartId snap = cartId /\
    List.map fst (snap_items snap) = cart_items s cartId /\
    Forall (fun ip => products s !! ci_productId (fst ip) = Some (snd ip)) (snap_items snap).
Proof.
  intros Haddr Hcart Hne Hstock.
  unfold placeOrder_validate.
  destruct (shippingAddress body) as [[|a r]|]; try discriminate.
  rewrite Hcart.
  destruct (include_product_total (products s) (cart_items s cartId)) as [items Hitems].
  { eapply Forall_impl; [exact Hstock|]. intros it (p & Hp & _). eauto. }
  rewrite Hitems.
  destruct (include_product_fst _ _ _ Hitems) as [Hfst Hjoin].
  destruct items as [|ip items'] eqn:Eitems.
  { simpl in Hfst. congruence. }
  rewrite <- Eitems in *. 
  replace (length items =? 0)%nat with false by (by rewrite Eitems).
  rewrite validate_stock_pass.
  - eexists. split; [reflexivity|]. by simpl.
  - rewrite <- Hfst in Hstock. clear -Hstock Hjoin.
    induction items as [|[it p] rest IH]; [constructor|].
    inversion Hstock as [|? ? (p' & Hp' & Ha & Hq) Hrest]; subst.
    inversion Hjoin as [|? ? Hp Hj]; subst. simpl in *.
    constructor; [|by apply IH].
    simpl. assert (p' = p) by congruence. by subst.
Qed.

(** C2, on the code.  A sticker costs 0.235 (the double nearest to it,
    which lies below 0.235) and Alice orders one.  The sum of price times
    quantity is that price, and rounded to two decimal places it is
    0.23; the order's total is 0.24, because the double product of the
    price and 100 is 23.5. *)
Lemma placeOrder_total_counterexample :
  exists id order s',
    placeOrder Sample.alice Sample.checkout Sample.sticker_shop = (Ok (id, order), s') /\
    (spec_total (o_items order) < 235 # 1000)%Q /\
    Double.mul (lines_total (o_items order)) (Double.of_Z 100) = Double.decimal 235 10 /\
    o_total order = Double.decimal 24 100 /\
    ~ spec_two_decimals (spec_total (o_items order)) (o_total order).
Proof.
  eexists _, _, _. split; [by vm_compute|]. split; [by vm_compute|].
  split; [by vm_compute|]. split; [by vm_compute|].
  intros (n & Hlo & Hhi & Hr).
  assert (n = 23) as ->.
  { unfold Qle in Hlo, Hhi. vm_compute spec_total in Hlo, Hhi.
    cbn in Hlo, Hhi. lia. }
  vm_compute in Hr. discriminate.
Qed.

(** C2 (as amended).  When the customer's cart exists and is not empty,
    every line's product is active and stocked for the line's quantity,
    and a shipping address is given, [placeOrder] succeeds.  Afterwards a
    new order of the customer exists with status PENDING; its lines copy
    the cart lines with the prices of that instant; its total is
    [Math.round(sum * 100) / 100] in double arithmetic, [sum] being the
    double sum of unit price times quantity over its lines, so that,
    when the double product of [sum] and 100 is finite, the total is the
    double nearest to [n / 100] for the whole number [n] nearest to that
    product, halves up; every product's stock is lowered by the quantity
    ordered of it; the cart row is still there and has no lines, and no
    other cart changed. *)
Theorem placeOrder_success (u : User) (body : PlaceOrderBody) (s : Store) (cartId : Id) :
  truthy (shippingAddress body) = true ->
  carts s !! userId u = Some cartId ->
  cart_items s cartId <> [] ->
  Forall (line_in_stock s) (cart_items s cartId) ->
  exists id order s',
    placeOrder u body s = (Ok (id, order), s') /\
    orders s !! id = None /\
    orders s' = <[id := order]> (orders s) /\
    o_userId order = userId u /\
    o_status order = PENDING /\
    Forall2 (copies_line s) (cart_items s cartId) (o_items order) /\
    o_total order = round2 (lines_total (o_items order)) /\
    (Double.is_finite (Double.mul (lines_total (o_items order)) (Double.of_Z 100)) = true ->
     rounded_to_cents (lines_total (o_items order)) (o_total order)) /\
    (forall p, products s' !! p =
               (fun pr => set_stock pr (p_stock pr - cart_qty (cart_items s cartId) p))
                 <$> products s !! p) /\
    (forall p, stock_of s' p =
               (fun n => n - cart_qty (cart_items s cartId) p) <$> stock_of s p) /\
    carts s' = carts s /\
    cart_items s' cartId = [] /\
    (forall c, c <> cartId -> cart_items s' c = cart_items s c).
Proof.
  intros Haddr Hcart Hne Hstock.
  destruct (placeOrder_validate_ok u body s cartId Haddr Hcart Hne Hstock)
    as (snap & Hval & Hcid & Hfst & Hjoin).
  destruct (placeOrder_tx_ok u body snap s)
    as (order & s' & Htx & Hu & Hst & Hitems & Htot & Hord & Hcarts & Hci & Hprod).
  { eapply Forall_impl; [exact Hjoin|]. intros ip Hip. simpl in Hip. eauto. }
  exists (new_id s), order, s'.
  split. { unfold placeOrder, transaction. by rewrite Hval, Htx. }
  split; [apply new_id_orders|].
  repeat (split; [done|]).
  split.
  { rewrite Hitems, <- Hfst. clear -Hjoin.
    induction (snap_items snap) as [|[it p] rest IH]; simpl; [constructor|].
    inversion Hjoin as [|? ? Hp Hj]; subst. constructor; [|by apply IH].
    unfold copies_line. simpl in *. by rewrite Hp. }
  assert (Htotal : o_total order = round2 (lines_total (o_items order))).
  { by rewrite Htot, Hitems, cart_total_lines. }
  split; [exact Htotal|].
  split. { intros Hfin. rewrite Htotal. by apply round2_rounded. }
  split. { intros p. rewrite Hprod. by rewrite Hfst. }
  split.
  { intros p. unfold stock_of. rewrite Hprod, Hfst.
    by destruct (products s !! p). }
  split; [done|].
  unfold cart_items. rewrite Hci, Hcid. split.
  - apply cart_items_deleteMany.
  - intros c Hc. by apply cart_items_deleteMany_other.
Qed.

(** Stock 5 and one line of 5: the order is placed, the stock becomes 0,
    the cart is emptied and the total is five times the price. *)
Lemma placeOrder_success_witness :
  exists id order s',
    placeOrder Sample.alice Sample.checkout (Sample.shop_with_line 5) = (Ok (id, order), s') /\
    orders (Sample.shop_with_line 5) !! id = None /\
    orders s' = <[id := order]> (orders (Sample.shop_with_line 5)) /\
    o_userId order = userId Sample.alice /\
    o_status order = PENDING /\
    Forall2 (copies_line (Sample.shop_with_line 5))
            (cart_items (Sample.shop_with_line 5) 20) (o_items order) /\
    o_total order = round2 (lines_total (o_items order)) /\
    (Double.is_finite (Double.mul (lines_total (o_items order)) (Double.of_Z 100)) = true ->
     rounded_to_cents (lines_total (o_items order)) (o_total order)) /\
    (forall p, products s' !! p =
               (fun pr => set_stock pr
                  (p_stock pr - cart_qty (cart_items (Sample.shop_with_line 5) 20) p))
                 <$> products (Sample.shop_with_line 5) !! p) /\
    (forall p, stock_of s' p =
               (fun n => n - cart_qty (cart_items (Sample.shop_with_line 5) 20) p)
                 <$> stock_of (Sample.shop_with_line 5) p) /\
    carts s' = carts (Sample.shop_with_line 5) /\
    cart_items s' 20 = [] /\
    (forall c, c <> 20%positive -> cart_items s' c = cart_items (Sample.shop_with_line 5) c).
Proof.
  apply (placeOrder_success Sample.alice Sample.checkout (Sample.shop_with_line 5) 20).
  - reflexivity.
  - reflexivity.
  - discriminate.
  - constructor; [|constructor].
    exists Sample.shirt. split; [reflexivity|]. split; [reflexivity|]. simpl. lia.
Defined.

(** Five shirts at 19.99 come to 99.95; a price of 1.005 (the double
    nearest to it) comes to 1, not 1.01. *)
Example placeOrder_last_units :
  let '(r, s') := placeOrder Sample.alice Sample.checkout (Sample.shop_with_line 5) in
  (exists id order, r = Ok (id, order) /\ o_total order = Double.decimal 9995 100) /\
  stock_of s' 1 = Some 0 /\ cartItems s' = [] /\
  round2 (Double.decimal 1005 1000) = Double.of_Z 1.
Proof. vm_compute. split; [|done]. by eexists _, _. Qed.

Lemma validate_stock_fail (items : list (CartItem * Product)) :
  Exists (fun ip => p_isActive (snd ip) = false \/
                    p_stock (snd ip) < ci_quantity (fst ip)) items ->
  exists ip, In ip items /\
    (validate_stock items = Some (ProductUnavailable (p_name (snd ip))) /\
       p_isActive (snd ip) = false
     \/ validate_stock items = Some (InsufficientStock (p_stock (snd ip))) /\
        p_stock (snd ip) < ci_quantity (fst ip)).
Proof.
  induction items as [|[it p] rest IH]; intros Hex; [inversion Hex|].
  simpl. destruct (p_isActive p) eqn:Ha; simpl.
  - destruct (Z.ltb_spec (p_stock p) (ci_quantity it)) as [Hlt|Hge].
    + exists (it, p). split; [by left|]. right. by split.
    + inversion Hex as [? ? [Hx|Hx]|? ? Hrest]; subst; simpl in *.
      * congruence.
      * lia.
      * destruct (IH Hrest) as (ip & Hin & Hres). exists ip. split; [by right|done].
  - exists (it, p). split; [by left|]. left. by split.
Qed.

(** C3.  When some line of the cart asks for more than its product's
    stock, or some line's product is inactive, [placeOrder] fails and the
    store it leaves is the store it was given: stocks, cart lines and
    orders are untouched.  The error is the one of the first offending
    line: ProductUnavailable for an inactive product, InsufficientStock
    (with the available quantity) for a short one; so it is
    InsufficientStock when every product is active, and
    ProductUnavailable when no line is short. *)
Theorem placeOrder_rejects (u : User) (body : PlaceOrderBody) (s : Store) (cartId : Id) :
  truthy (shippingAddress body) = true ->
  carts s !! userId u = Some cartId ->
  Forall (fun it => is_Some (products s !! ci_productId it)) (cart_items s cartId) ->
  Exists (fun it => line_short s it \/ line_inactive s it) (cart_items s cartId) ->
  snd (placeOrder u body s) = s /\
  (exists it p,
      In it (cart_items s cartId) /\ products s !! ci_productId it = Some p /\
      (fst (placeOrder u body s) = Err (ProductUnavailable (p_name p)) /\
         p_isActive p = false
       \/ fst (placeOrder u body s) = Err (InsufficientStock (p_stock p)) /\
          p_stock p < ci_quantity it)) /\
  (Forall (fun it => ~ line_inactive s it) (cart_items s cartId) ->
   exists available, fst (placeOrder u body s) = Err (InsufficientStock available)) /\
  (Forall (fun it => ~ line_short s it) (cart_items s cartId) ->
   exists name, fst (placeOrder u body s) = Err (ProductUnavailable name)).
Proof.
  intros Haddr Hcart Hfk Hbad.
  assert (exists e it p,
             placeOrder u body s = (Err e, s) /\
             In it (cart_items s cartId) /\ products s !! ci_productId it = Some p /\
             (e = ProductUnavailable (p_name p) /\ p_isActive p = false
              \/ e = InsufficientStock (p_stock p) /\ p_stock p < ci_quantity it))
    as (e & it & p & Hrun & Hin & Hp & Hcase).
  { unfold placeOrder, placeOrder_validate.
    destruct (shippingAddress body) as [[|a r]|]; try discriminate.
    rewrite Hcart.
    destruct (include_product_total _ _ Hfk) as [items Hitems].
    rewrite Hitems.
    destruct (include_product_fst _ _ _ Hitems) as [Hfst Hjoin].
    destruct (validate_stock_fail items) as ([it p] & Hin & Hres).
    { rewrite <- Hfst in Hbad. clear -Hbad Hjoin.
      induction items as [|[it p] rest IH]; simpl in *; [inversion Hbad|].
      inversion Hjoin as [|? ? Hp Hj]; subst. simpl in Hp.
      inversion Hbad as [? ? Hx|? ? Hrest]; subst.
      - left. simpl.
        destruct Hx as [(p' & Hp' & Hs)|(p' & Hp' & Hi)];
          assert (p' = p) by congruence; subst; auto.
      - right. by apply IH. }
    assert (Hlen : (length items =? 0)%nat = false)
      by (destruct items; [destruct Hin|done]).
    rewrite Hlen.
    assert (Hit : In it (cart_items s cartId)).
    { rewrite <- Hfst. apply (in_map fst) in Hin. exact Hin. }
    assert (Hlook : products s !! ci_productId it = Some p).
    { apply Forall_forall with (x := (it, p)) in Hjoin; [exact Hjoin|].
      by apply list_elem_of_In. }
    simpl in Hres.
    destruct Hres as [[-> Hi]|[-> Hs]].
    - exists (ProductUnavailable (p_name p)), it, p. repeat (split; [done|]). by left.
    - exists (InsufficientStock (p_stock p)), it, p. repeat (split; [done|]). by right. }
  rewrite Hrun. simpl. split; [done|]. split.
  { exists it, p. repeat (split; [done|]).
    destruct Hcase as [[-> Hi]|[-> Hs]]; auto. }
  split.
  - intros Hact. destruct Hcase as [[-> Hi]|[-> Hs]]; [|eauto].
    exfalso. apply Forall_forall with (x := it) in Hact.
    + apply Hact. exists p. auto.
    + by apply list_elem_of_In.
  - intros Hfull. destruct Hcase as [[-> Hi]|[-> Hs]]; [eauto|].
    exfalso. apply Forall_forall with (x := it) in Hfull.
    + apply Hfull. exists p. auto.
    + by apply list_elem_of_In.
Qed.

(** Stock 5 and one line of 6: InsufficientStock, the stock stays 5 and
    the line stays in the cart with quantity 6. *)
Lemma placeOrder_rejects_witness :
  snd (placeOrder Sample.alice Sample.checkout (Sample.shop_with_line 6))
    = Sample.shop_with_line 6 /\
  exists available,
    fst (placeOrder Sample.alice Sample.checkout (Sample.shop_with_line 6))
      = Err (InsufficientStock available).
Proof.
  destruct (placeOrder_rejects Sample.alice Sample.checkout (Sample.shop_with_line 6) 20)
    as (Hsame & _ & Hshort & _).
  - reflexivity.
  - reflexivity.
  - constructor; [|constructor]. exists Sample.shirt. reflexivity.
  - constructor. left. exists Sample.shirt. split; [reflexivity|]. simpl. lia.
  - split; [exact Hsame|]. apply Hshort.
    constructor; [|constructor]. intros (p & Hp & Hi). vm_compute in Hp.
    inversion Hp; subst. discriminate.
Defined.

Example placeOrder_short_line :
  placeOrder Sample.alice Sample.checkout (Sample.shop_with_line 6)
  = (Err (InsufficientStock 5), Sample.shop_with_line 6).
Proof. reflexivity. Qed.

Lemma validate_stock_none (items : list (CartItem * Product)) :
  validate_stock items = None ->
  Forall (fun ip => p_isActive (snd ip) = true /\
                    ci_quantity (fst ip) <= p_stock (snd ip)) items.
Proof.
  induction items as [|[it p] rest IH]; simpl; [constructor|].
  destruct (p_isActive p) eqn:Ha; simpl; [|discriminate].
  destruct (Z.ltb_spec (p_stock p) (ci_quantity it)) as [|Hge]; [discriminate|].
  intros Hrest. constructor; [by split|by apply IH].
Qed.

(** What a successful [placeOrder] tells about the store it started
    from. *)
Lemma placeOrder_inv (u : User) (body : PlaceOrderBody) (s0 s : Store)
    (id : Id) (order : Order) :
  placeOrder u body s0 = (Ok (id, order), s) ->
  exists cartId items,
    carts s0 !! userId u = Some cartId /\
    List.map fst items = cart_items s0 cartId /\
    Forall (fun ip => products s0 !! ci_productId (fst ip) = Some (snd ip)) items /\
    Forall (fun ip => p_isActive (snd ip) = true /\
                      ci_quantity (fst ip) <= p_stock (snd ip)) items /\
    o_items order = List.map order_line items /\
    o_status order = PENDING /\ o_userId order = userId u /\
    orders s = <[id := order]> (orders s0) /\
    forall p, products s !! p =
              (fun pr => set_stock pr (p_stock pr - cart_qty (List.map fst items) p))
                <$> products s0 !! p.
Proof.
  unfold placeOrder. destruct (placeOrder_validate u body s0) as [snap|e] eqn:Hval;
    [|discriminate].
  unfold placeOrder_validate in Hval.
  destruct (shippingAddress body) as [[|a r]|]; try discriminate.
  destruct (carts s0 !! userId u) as [cartId|]; [|discriminate].
  destruct (include_product _ _) as [items|] eqn:Hitems; [|discriminate].
  destruct (length items =? 0)%nat; [discriminate|].
  destruct (validate_stock items) eqn:Hcheck; [discriminate|].
  inversion Hval; subst snap. clear Hval.
  destruct (include_product_fst _ _ _ Hitems) as [Hfst Hj].
  set (snap := Build_Snapshot cartId items (String a r)).
  assert (Hjoin : Forall (fun ip => is_Some (products s0 !! ci_productId (fst ip)))
                         (snap_items snap)).
  { eapply Forall_impl; [exact Hj|]. intros ip Hip. simpl in Hip. eauto. }
  destruct (placeOrder_tx_ok u body snap s0 Hjoin)
    as (order' & s' & Htx & Hu & Hst & Hlines & _ & Hord & _ & _ & Hprod).
  unfold transaction. rewrite Htx. intros Hres. inversion Hres; subst.
  exists cartId, items. repeat (split; [done|]).
  split; [by apply validate_stock_none|]. by repeat split.
Qed.

Lemma order_qty_lines (items : list (CartItem * Product)) (p : Id) :
  order_qty (List.map order_line items) p = cart_qty (List.map fst items) p.
Proof.
  unfold order_qty, cart_qty. by rewrite !line_qty_map.
Qed.

(** ** Cancellation *)

Lemma authorized_check (u : User) (o : Order) :
  authorized u o ->
  negb (o_userId o =? userId u)%positive && negb (is_admin (role u)) = false.
Proof.
  intros [Ho | Hr].
  - by rewrite Ho, Pos.eqb_refl.
  - rewrite Hr. apply andb_false_r.
Qed.

(** C4.  For an order in status PENDING or CONFIRMED whose products all
    still exist, [cancelOrder] by the owner (or an administrator)
    succeeds: the order's status becomes CANCELLED, every product's
    stock rises by exactly the quantity the order's lines carry for it,
    and nothing else changes.  If the order was just placed, the product
    table is back to what it was before placement: per product, the
    stock delta of placement followed by cancellation is zero. *)
Theorem cancelOrder_restores (u : User) (id : Id) (order : Order) (s : Store) :
  orders s !! id = Some order ->
  authorized u order ->
  cancellable (o_status order) = true ->
  Forall (fun oi => is_Some (products s !! oi_productId oi)) (o_items order) ->
  exists s',
    cancelOrder u id s = (Ok tt, s') /\
    orders s' = <[id := set_status order CANCELLED]> (orders s) /\
    (exists cancelled,
        orders s' !! id = Some cancelled /\ o_status cancelled = CANCELLED /\
        o_items cancelled = o_items order /\ o_userId cancelled = o_userId order /\
        o_total cancelled = o_total order) /\
    (forall p, products s' !! p =
               (fun pr => set_stock pr (p_stock pr + order_qty (o_items order) p))
                 <$> products s !! p) /\
    (forall p, stock_of s' p = (fun n => n + order_qty (o_items order) p) <$> stock_of s p) /\
    carts s' = carts s /\ cartItems s' = cartItems s /\
    (forall v body s0, placeOrder v body s0 = (Ok (id, order), s) ->
                       products s' = products s0).
Proof.
  intros Hord Hauth Hcan Hprod.
  destruct (stock_loop_ok oi_productId oi_quantity
              (fun oi => increment (oi_quantity oi)) (fun oi n => eq_refl)
              (o_items order) s Hprod)
    as (s1 & Hrun & Hc & Hci & Ho & Hp).
  exists (with_orders s1 (<[id := set_status order CANCELLED]> (orders s1))).
  split.
  { unfold cancelOrder. rewrite Hord, (authorized_check _ _ Hauth), Hcan. simpl.
    unfold transaction, cancelOrder_tx, tx_bind. rewrite Hrun.
    unfold order_update_status. by rewrite Ho, Hord. }
  simpl. split; [by rewrite Ho|].
  split. { exists (set_status order CANCELLED). by rewrite lookup_insert_eq. }
  split; [exact Hp|].
  split. { intros p. unfold stock_of. simpl. rewrite Hp. by destruct (products s !! p). }
  repeat (split; [done|]).
  intros v body s0 Hplace.
  destruct (placeOrder_inv _ _ _ _ _ _ Hplace)
    as (_ & items & _ & _ & _ & _ & Hitems & _ & _ & _ & Hdec).
  apply map_eq. intros p. rewrite Hp, Hdec, Hitems, order_qty_lines.
  destruct (products s0 !! p) as [pr|]; simpl; [|done].
  rewrite set_stock_set_stock. f_equal.
  replace (p_stock pr - cart_qty (List.map fst items) p + cart_qty (List.map fst items) p)
    with (p_stock pr) by lia.
  apply set_stock_id.
Qed.

(** Five shirts are ordered (stock 5 to 0) and the order is cancelled:
    the stock is 5 again and the order is CANCELLED. *)
Lemma cancelOrder_restores_witness :
  exists s',
    cancelOrder Sample.alice Sample.placed_id Sample.shop_after_order = (Ok tt, s') /\
    orders s' = <[Sample.placed_id := set_status Sample.placed_order CANCELLED]>
                  (orders Sample.shop_after_order) /\
    (exists cancelled,
        orders s' !! Sample.placed_id = Some cancelled /\ o_status cancelled = CANCELLED /\
        o_items cancelled = o_items Sample.placed_order /\
        o_userId cancelled = o_userId Sample.placed_order /\
        o_total cancelled = o_total Sample.placed_order) /\
    (forall p, products s' !! p =
               (fun pr => set_stock pr
                  (p_stock pr + order_qty (o_items Sample.placed_order) p))
                 <$> products Sample.shop_after_order !! p) /\
    (forall p, stock_of s' p = (fun n => n + order_qty (o_items Sample.placed_order) p)
                                 <$> stock_of Sample.shop_after_order p) /\
    carts s' = carts Sample.shop_after_order /\
    cartItems s' = cartItems Sample.shop_after_order /\
    (forall v body s0,
        placeOrder v body s0 = (Ok (Sample.placed_id, Sample.placed_order),
                                Sample.shop_after_order) ->
        products s' = products s0).
Proof.
  apply (cancelOrder_restores Sample.alice Sample.placed_id Sample.placed_order
           Sample.shop_after_order).
  - reflexivity.
  - left. reflexivity.
  - reflexivity.
  - constructor; [|constructor]. exists (set_stock Sample.shirt 0). reflexivity.
Defined.

Example place_then_cancel :
  placeOrder Sample.alice Sample.checkout (Sample.shop_with_line 5)
    = (Ok (Sample.placed_id, Sample.placed_order), Sample.shop_after_order) /\
  stock_of Sample.shop_after_order 1 = Some 0 /\
  let s' := snd (cancelOrder Sample.alice Sample.placed_id Sample.shop_after_order) in
  stock_of s' 1 = Some 5 /\
  o_status <$> orders s' !! Sample.placed_id = Some CANCELLED /\
  cancelOrder Sample.alice Sample.placed_id s' = (Err InvalidState, s').
Proof. vm_compute. repeat split. Qed.

Lemma unauthorized_check (u : User) (o : Order) :
  ~ authorized u o ->
  negb (o_userId o =? userId u)%positive && negb (is_admin (role u)) = true.
Proof.
  unfold authorized. intros Hno.
  destruct (Pos.eqb_spec (o_userId o) (userId u)) as [Heq|Hne]; [tauto|].
  destruct (role u); simpl; [done|tauto].
Qed.

(** An order that is not cancellable is refused before anything is
    written. *)
Lemma cancelOrder_refused (u : User) (id : Id) (order : Order) (s : Store) :
  orders s !! id = Some order ->
  authorized u order ->
  cancellable (o_status order) = false ->
  cancelOrder u id s = (Err InvalidState, s).
Proof.
  intros Hord Hauth Hcan. unfold cancelOrder.
  by rewrite Hord, (authorized_check _ _ Hauth), Hcan.
Qed.

(** C5.  For an order whose status is neither PENDING nor CONFIRMED,
    [cancelOrder] leaves the store as it was, so neither the order's
    status nor any stock changes; the owner or an administrator is
    answered InvalidState (anyone else is answered Forbidden, as for any
    order). *)
Theorem cancelOrder_invalid_state (u : User) (id : Id) (order : Order) (s : Store) :
  orders s !! id = Some order ->
  cancellable (o_status order) = false ->
  snd (cancelOrder u id s) = s /\
  (authorized u order -> fst (cancelOrder u id s) = Err InvalidState) /\
  (~ authorized u order -> fst (cancelOrder u id s) = Err Forbidden).
Proof.
  intros Hord Hcan. split; [|split].
  - unfold cancelOrder. rewrite Hord, Hcan. simpl.
    by destruct (negb (o_userId order =? userId u)%positive && negb (is_admin (role u))).
  - intros Hauth. by rewrite (cancelOrder_refused u id order s).
  - intros Hno. unfold cancelOrder. by rewrite Hord, (unauthorized_check _ _ Hno).
Qed.

(** A second cancellation of the order cancelled above: InvalidState,
    and the store, with its stock of 5, is unchanged. *)
Lemma cancelOrder_invalid_state_witness :
  snd (cancelOrder Sample.alice Sample.placed_id Sample.shop_after_cancel)
    = Sample.shop_after_cancel /\
  fst (cancelOrder Sample.alice Sample.placed_id Sample.shop_after_cancel)
    = Err InvalidState.
Proof.
  destruct (cancelOrder_invalid_state Sample.alice Sample.placed_id
              (set_status Sample.placed_order CANCELLED) Sample.shop_after_cancel)
    as (Hsame & Hown & _).
  - reflexivity.
  - reflexivity.
  - split; [exact Hsame|]. apply Hown. left. reflexivity.
Defined.

(** Cancelling twice: whenever a cancellation has succeeded, the next
    attempt by the same requester is refused with InvalidState and
    changes nothing, so the stock is credited once. *)
Lemma cancelOrder_twice (u : User) (id : Id) (s s' : Store) :
  cancelOrder u id s = (Ok tt, s') ->
  cancelOrder u id s' = (Err InvalidState, s').
Proof.
  unfold cancelOrder at 1.
  destruct (orders s !! id) as [order|] eqn:Hord; [|discriminate].
  destruct (negb (o_userId order =? userId u)%positive && negb (is_admin (role u)))
    eqn:Hauth; [discriminate|].
  destruct (negb (cancellable (o_status order))); [discriminate|].
  unfold transaction, cancelOrder_tx, tx_bind.
  destruct (tx_for _ _ s) as [[[] s1]|e] eqn:Hloop; [|discriminate].
  apply stock_loop_frame in Hloop. destruct Hloop as (_ & _ & Ho & _).
  unfold order_update_status. rewrite Ho, Hord.
  intros H. inversion H; subst. clear H.
  unfold cancelOrder. simpl. rewrite lookup_insert_eq. simpl.
  by rewrite Hauth.
Qed.

(** A product row that is absent makes the stock update throw, and the
    transaction is rolled back.  No sequence of requests leads to such a
    store: the handlers never remove a product row. *)
Lemma cancelOrder_absent_row (u : User) (id : Id) (order : Order) (s : Store) :
  orders s !! id = Some order ->
  authorized u order ->
  cancellable (o_status order) = true ->
  Exists (fun oi => products s !! oi_productId oi = None) (o_items order) ->
  cancelOrder u id s = (Err RecordNotFound, s).
Proof.
  intros Hord Hauth Hcan Hgone.
  unfold cancelOrder. rewrite Hord, (authorized_check _ _ Hauth), Hcan. simpl.
  unfold transaction, cancelOrder_tx, tx_bind.
  by rewrite (stock_loop_missing oi_productId _ _ s Hgone).
Qed.

(** ** The cart *)

Lemma find_none_iff {A} (P : A -> bool) (l : list A) :
  (forall x, In x l -> P x = false) -> List.find P l = None.
Proof.
  induction l as [|x rest IH]; intros H; simpl; [done|].
  rewrite (H x) by (by left). apply IH. intros y Hy. apply H. by right.
Qed.

Lemma find_app_last {A} (P : A -> bool) (l : list A) (x : A) :
  (forall y, In y l -> P y = false) -> P x = true ->
  List.find P (l ++ [x]) = Some x.
Proof.
  intros Hl Hx. induction l as [|y rest IH]; simpl.
  - by rewrite Hx.
  - rewrite (Hl y) by (by left). apply IH. intros z Hz. apply Hl. by right.
Qed.

Lemma update_app_last (id : Id) (q : Z) (l : list CartItem) (x : CartItem) :
  (forall y, In y l -> ci_id y <> id) -> ci_id x = id ->
  List.map (fun it => if (ci_id it =? id)%positive then set_quantity it q else it)
           (l ++ [x])
  = l ++ [set_quantity x q].
Proof.
  intros Hl Hx. rewrite map_app. simpl. rewrite Hx, Pos.eqb_refl. f_equal.
  induction l as [|y rest IH]; simpl; [done|].
  destruct (Pos.eqb_spec (ci_id y) id) as [Heq|_].
  - exfalso. by apply (Hl y); [left|].
  - f_equal. apply IH. intros z Hz. apply Hl. by right.
Qed.

(** What [ensure_cart] returns: the customer's cart, in a store that
    differs from the given one at most by that cart's row. *)
Lemma ensure_cart_spec (u : User) (s : Store) :
  carts (snd (ensure_cart u s)) !! userId u = Some (fst (ensure_cart u s)) /\
  products (snd (ensure_cart u s)) = products s /\
  cartItems (snd (ensure_cart u s)) = cartItems s /\
  orders (snd (ensure_cart u s)) = orders s /\
  (carts s !! userId u = None ->
   forall it, In it (cartItems s) -> ci_cartId it <> fst (ensure_cart u s)).
Proof.
  unfold ensure_cart.
  destruct (carts s !! userId u) as [cartId|] eqn:Hc; simpl.
  - repeat (split; [done|]). intros H. discriminate.
  - split; [by rewrite lookup_insert_eq|]. repeat (split; [done|]).
    intros _ it Hin. by apply new_id_not_cart_id.
Qed.

Lemma ensure_cart_existing (u : User) (s : Store) (cartId : Id) :
  carts s !! userId u = Some cartId -> ensure_cart u s = (cartId, s).
Proof. intros H. unfold ensure_cart. by rewrite H. Qed.

(** The cart operations and strictly positive quantities. *)

Lemma cartItem_update_positive (id : Id) (q : Z) (s : Store) :
  0 < q -> cart_positive s -> cart_positive (snd (cartItem_update id q s)).
Proof.
  intros Hq Hpos. unfold cartItem_update.
  destruct (List.find _ (cartItems s)); [|done].
  unfold cart_positive in *. simpl.
  induction Hpos as [|it rest Hit _ IH]; simpl; [constructor|].
  constructor; [|exact IH]. by destruct (ci_id it =? id)%positive.
Qed.

Lemma filter_positive (P : CartItem -> bool) (l : list CartItem) :
  Forall (fun it => 0 < ci_quantity it) l ->
  Forall (fun it => 0 < ci_quantity it) (List.filter P l).
Proof.
  induction 1 as [|it rest Hit _ IH]; simpl; [constructor|].
  destruct (P it); [by constructor|done].
Qed.

Lemma updateCartItem_positive (u : User) (itemId : Id) (quantity : option Z) (s : Store) :
  cart_positive s -> cart_positive (snd (updateCartItem u itemId quantity s)).
Proof.
  intros Hpos. unfold updateCartItem.
  destruct quantity as [q|]; [|done].
  destruct (Z.eqb_spec q 0); [done|]. simpl.
  destruct (Z.ltb_spec q 1); [done|].
  destruct (carts s !! userId u); [|done].
  destruct (cartItem_findFirst _ s) as [it|]; [|done].
  destruct (products s !! ci_productId it) as [product|]; [|done].
  destruct (q >? p_stock product); [done|].
  apply cartItem_update_positive; [lia|done].
Qed.

Lemma removeFromCart_positive (u : User) (itemId : Id) (s : Store) :
  cart_positive s -> cart_positive (snd (removeFromCart u itemId s)).
Proof.
  intros Hpos. unfold removeFromCart.
  destruct (carts s !! userId u); [|done].
  destruct (cartItem_findFirst _ s); [|done].
  unfold cartItem_delete. destruct (List.find _ (cartItems s)); [|done].
  by apply filter_positive.
Qed.

Lemma clearCart_positive (u : User) (s : Store) :
  cart_positive s -> cart_positive (snd (clearCart u s)).
Proof.
  intros Hpos. unfold clearCart.
  destruct (carts s !! userId u); [|done].
  by apply filter_positive.
Qed.

(** [addToCart] keeps the quantities positive when the requested
    quantity is at least 1; it never checks that it is. *)
Lemma addToCart_positive (u : User) (productId : option Id) (quantity : option Z)
    (customDesign : option string) (s : Store) :
  0 < default 1 quantity ->
  cart_positive s ->
  cart_positive (snd (addToCart u productId quantity customDesign s)).
Proof.
  intros Hq Hpos. unfold addToCart.
  destruct productId as [pid|]; [|done].
  destruct (products s !! pid) as [p|]; [|done].
  destruct (negb (p_isActive p)); [done|].
  destruct (p_stock p <? default 1 quantity); [done|].
  destruct (ensure_cart_spec u s) as (_ & _ & Hci & _ & _).
  destruct (ensure_cart u s) as [cartId s0]. simpl in Hci.
  assert (Hpos0 : cart_positive s0) by (unfold cart_positive; by rewrite Hci).
  match goal with
  | |- context [match ?e with Some _ => _ | None => _ end] =>
      destruct e as [ex|] eqn:Hex
  end.
  - destruct (ci_quantity ex + default 1 quantity >? p_stock p); [done|].
    apply cartItem_update_positive; [|done].
    assert (Hin : In ex (cartItems s0)).
    { destruct (negb (truthy customDesign)); [|discriminate].
      unfold cartItem_findFirst in Hex. by apply find_some in Hex as [Hin _]. }
    unfold cart_positive in Hpos0.
    apply Forall_forall with (x := ex) in Hpos0; [lia|by apply list_elem_of_In].
  - simpl. unfold cart_positive. simpl. apply Forall_app. split; [done|].
    by constructor.
Qed.

(** C7, on the code: [addToCart] accepts a requested quantity of 0 (or
    less) and stores it, although [updateCartItem] refuses such a
    quantity.  In a shop with five shirts and no carts, a request for 0
    shirts and a request for -2 shirts each create a cart line with that
    quantity, and raising a line of 2 by -5 leaves it at -3. *)
Theorem addToCart_nonpositive_quantity :
  (exists it s',
      addToCart Sample.alice (Some 1%positive) (Some 0) None Sample.shop = (Ok it, s') /\
      ci_quantity it = 0 /\ In it (cartItems s') /\ ~ cart_positive s') /\
  (exists it s',
      addToCart Sample.alice (Some 1%positive) (Some (-2)) None Sample.shop = (Ok it, s') /\
      ci_quantity it = -2 /\ In it (cartItems s')) /\
  (exists it s',
      cart_positive (Sample.shop_with_line 2) /\
      addToCart Sample.alice (Some 1%positive) (Some (-5)) None (Sample.shop_with_line 2)
        = (Ok it, s') /\
      ci_quantity it = -3 /\ cartItems s' = [it]) /\
  updateCartItem Sample.alice 30 (Some 0) (Sample.shop_with_line 2)
    = (Err InvalidArgument, Sample.shop_with_line 2).
Proof.
  split; [|split; [|split]].
  - eexists _, _. split; [reflexivity|]. split; [reflexivity|].
    split; [by left|]. intros H. inversion H as [|? ? Hq _]. simpl in Hq. lia.
  - eexists _, _. split; [reflexivity|]. split; [reflexivity|]. by left.
  - eexists _, _. split.
    { constructor; [simpl; lia|constructor]. }
    split; [reflexivity|]. by split.
  - reflexivity.
Qed.

(** [addToCart] appends a new line when a custom design is given, or
    when the cart has no plain line for the product. *)
Lemma addToCart_new_line (u : User) (pid : Id) (product : Product) (q : Z)
    (design : option string) (s : Store) :
  products s !! pid = Some product ->
  p_isActive product = true ->
  q <= p_stock product ->
  truthy design = true \/
    (forall cartId, carts s !! userId u = Some cartId -> no_plain_line s cartId pid) ->
  exists it s',
    addToCart u (Some pid) (Some q) design s = (Ok it, s') /\
    cartItems s' = cartItems s ++ [it] /\
    products s' = products s /\
    carts s' !! userId u = Some (ci_cartId it) /\
    (forall cartId, carts s !! userId u = Some cartId -> ci_cartId it = cartId) /\
    (carts s !! userId u = None ->
     forall x, In x (cartItems s) -> ci_cartId x <> ci_cartId it) /\
    (forall x, In x (cartItems s) -> ci_id x <> ci_id it) /\
    ci_productId it = pid /\ ci_quantity it = q /\ ci_customDesign it = or_null design.
Proof.
  intros Hp Ha Hq Hnew. unfold addToCart. rewrite Hp, Ha. simpl.
  destruct (Z.ltb_spec (p_stock product) q) as [|_]; [lia|].
  destruct (ensure_cart_spec u s) as (Hc & Hpr & Hci & _ & Hfresh).
  assert (Hsame : forall cartId, carts s !! userId u = Some cartId ->
                                 fst (ensure_cart u s) = cartId).
  { intros cartId H. by rewrite (ensure_cart_existing _ _ _ H). }
  destruct (ensure_cart u s) as [cid s0]. simpl in *.
  assert (Hnone : (if negb (truthy design)
                   then cartItem_findFirst
                          (fun it => (ci_cartId it =? cid)%positive
                                     && (ci_productId it =? pid)%positive
                                     && is_null (ci_customDesign it)) s0
                   else None) = None).
  { destruct (truthy design) eqn:Ht; [done|]. simpl.
    destruct Hnew as [|Hplain]; [discriminate|].
    unfold cartItem_findFirst. rewrite Hci. apply find_none_iff. intros x Hx.
    destruct (Pos.eqb_spec (ci_cartId x) cid) as [Hxc|]; [|done].
    destruct (Pos.eqb_spec (ci_productId x) pid) as [Hxp|]; [|done]. simpl.
    destruct (carts s !! userId u) as [cartId|] eqn:Hcart.
    - assert (Hcid : cid = cartId) by (by apply Hsame).
      rewrite Hcid in Hxc.
      specialize (Hplain cartId eq_refl x Hx Hxc Hxp).
      by destruct (ci_customDesign x).
    - exfalso. by apply (Hfresh eq_refl x Hx). }
  rewrite Hnone. simpl.
  eexists _, _. split; [reflexivity|]. simpl.
  rewrite Hci. split; [done|]. split; [done|]. split; [done|].
  split; [exact Hsame|]. split; [exact Hfresh|]. split; [|done].
  intros x Hx. apply new_id_not_item_id. by rewrite Hci.
Qed.

(** [addToCart] without a custom design, when the cart's only plain line
    for the product is the last row [it1] of the table: the request is
    added to that line, or refused when the sum exceeds the stock. *)
Lemma addToCart_merge_line (u : User) (pid : Id) (product : Product) (q2 : Z)
    (l : list CartItem) (it1 : CartItem) (s1 : Store) :
  products s1 !! pid = Some product ->
  p_isActive product = true ->
  carts s1 !! userId u = Some (ci_cartId it1) ->
  cartItems s1 = l ++ [it1] ->
  ci_productId it1 = pid -> ci_customDesign it1 = None ->
  (forall y, In y l -> ci_id y <> ci_id it1) ->
  no_plain_line (with_cartItems s1 l) (ci_cartId it1) pid ->
  (q2 <= p_stock product -> ci_quantity it1 + q2 <= p_stock product ->
   addToCart u (Some pid) (Some q2) None s1
   = (Ok (set_quantity it1 (ci_quantity it1 + q2)),
      with_cartItems s1 (l ++ [set_quantity it1 (ci_quantity it1 + q2)]))) /\
  (p_stock product < ci_quantity it1 + q2 ->
   addToCart u (Some pid) (Some q2) None s1 = (Err (InsufficientStock (p_stock product)), s1)).
Proof.
  intros Hp Ha Hcart Hitems Hpid Hplain Hids Hnone.
  assert (Hfind : cartItem_findFirst
                    (fun it => (ci_cartId it =? ci_cartId it1)%positive
                               && (ci_productId it =? pid)%positive
                               && is_null (ci_customDesign it)) s1 = Some it1).
  { unfold cartItem_findFirst. rewrite Hitems. apply find_app_last.
    - intros y Hy.
      destruct (Pos.eqb_spec (ci_cartId y) (ci_cartId it1)) as [Hyc|]; [|done].
      destruct (Pos.eqb_spec (ci_productId y) pid) as [Hyp|]; [|done]. simpl.
      specialize (Hnone y Hy Hyc Hyp). by destruct (ci_customDesign y).
    - by rewrite Hpid, Hplain, !Pos.eqb_refl. }
  assert (Hrun : forall (Hq : q2 <= p_stock product),
             addToCart u (Some pid) (Some q2) None s1
             = if ci_quantity it1 + q2 >? p_stock product
               then (Err (InsufficientStock (p_stock product)), s1)
               else cartItem_update (ci_id it1) (ci_quantity it1 + q2) s1).
  { intros Hq. unfold addToCart. rewrite Hp, Ha. simpl.
    destruct (Z.ltb_spec (p_stock product) q2) as [|_]; [lia|].
    rewrite (ensure_cart_existing _ _ _ Hcart). simpl. by rewrite Hfind. }
  split.
  - intros Hq Hsum. rewrite (Hrun Hq), Z.gtb_ltb.
    destruct (Z.ltb_spec (p_stock product) (ci_quantity it1 + q2)) as [|_]; [lia|].
    unfold cartItem_update. rewrite Hitems.
    rewrite (find_app_last _ l it1).
    + by rewrite update_app_last.
    + intros y Hy. apply Pos.eqb_neq. by apply Hids.
    + apply Pos.eqb_refl.
  - intros Hsum. destruct (Z.le_gt_cases q2 (p_stock product)) as [Hq|Hq].
    + rewrite (Hrun Hq), Z.gtb_ltb.
      by destruct (Z.ltb_spec (p_stock product) (ci_quantity it1 + q2)) as [_|]; [|lia].
    + unfold addToCart. rewrite Hp, Ha. simpl.
      by destruct (Z.ltb_spec (p_stock product) q2) as [_|]; [|lia].
Qed.

(** C8.  For a customer and an active product, starting from a cart
    without a plain (uncustomized) line for the product:
    - adding the product twice without a custom design leaves one new
      line, whose quantity is the sum of the two requests; the second
      request is refused with InsufficientStock when that sum exceeds
      the stock, and the first line then stays as it was;
    - adding it once with a custom design and once without, in either
      order, leaves two new lines with different ids, one carrying the
      design and one plain, each with its own quantity: a customized
      line is never merged. *)
Theorem addToCart_merges (u : User) (pid : Id) (product : Product) (q1 q2 : Z)
    (design : option string) (s : Store) :
  products s !! pid = Some product ->
  p_isActive product = true ->
  q1 <= p_stock product ->
  truthy design = true ->
  (forall cartId, carts s !! userId u = Some cartId -> no_plain_line s cartId pid) ->
  (exists it1 s1,
      addToCart u (Some pid) (Some q1) None s = (Ok it1, s1) /\
      cartItems s1 = cartItems s ++ [it1] /\
      ci_productId it1 = pid /\ ci_quantity it1 = q1 /\ ci_customDesign it1 = None /\
      (q2 <= p_stock product -> q1 + q2 <= p_stock product ->
       exists merged s2,
         addToCart u (Some pid) (Some q2) None s1 = (Ok merged, s2) /\
         merged = set_quantity it1 (q1 + q2) /\
         ci_quantity merged = q1 + q2 /\
         ci_id merged = ci_id it1 /\ ci_cartId merged = ci_cartId it1 /\
         ci_productId merged = pid /\ ci_customDesign merged = None /\
         cartItems s2 = cartItems s ++ [merged]) /\
      (p_stock product < q1 + q2 ->
       addToCart u (Some pid) (Some q2) None s1
       = (Err (InsufficientStock (p_stock product)), s1))) /\
  (q2 <= p_stock product ->
   forall d1 d2, (d1 = design /\ d2 = None) \/ (d1 = None /\ d2 = design) ->
   exists it1 s1 it2 s2,
     addToCart u (Some pid) (Some q1) d1 s = (Ok it1, s1) /\
     addToCart u (Some pid) (Some q2) d2 s1 = (Ok it2, s2) /\
     cartItems s2 = cartItems s ++ [it1; it2] /\
     ci_id it1 <> ci_id it2 /\
     ci_cartId it1 = ci_cartId it2 /\
     ci_productId it1 = pid /\ ci_productId it2 = pid /\
     ci_quantity it1 = q1 /\ ci_quantity it2 = q2 /\
     ci_customDesign it1 = d1 /\ ci_customDesign it2 = d2).
Proof.
  intros Hp Ha Hq1 Hdesign Hnone.
  assert (Hnull : or_null design = design) by (unfold or_null; by rewrite Hdesign).
  assert (Hsome : design <> None) by (by destruct design).
  split.
  - destruct (addToCart_new_line u pid product q1 None s Hp Ha Hq1 (or_intror Hnone))
      as (it1 & s1 & Hrun & Hci & Hpr & Hc & Hold & Hfresh & Hids & Hpid & Hqty & Hcd).
    simpl in Hcd.
    exists it1, s1. repeat (split; [done|]).
    destruct (addToCart_merge_line u pid product q2 (cartItems s) it1 s1) as [Hmerge Hfull];
      try done.
    { by rewrite Hpr. }
    { intros y Hy Hyc Hyp. simpl in Hy.
      destruct (carts s !! userId u) as [cartId|] eqn:Hcart.
      - apply (Hnone cartId eq_refl y Hy); [|done]. by rewrite Hyc, (Hold cartId eq_refl).
      - exfalso. by apply (Hfresh eq_refl y Hy). }
    rewrite Hqty in *. split.
    + intros Hq2 Hsum. eexists _, _. split; [by apply Hmerge|].
      split; [reflexivity|]. cbn [ci_quantity ci_id ci_cartId ci_productId
                                   ci_customDesign set_quantity].
      by repeat split.
    + exact Hfull.
  - intros Hq2 d1 d2 Horder.
    assert (Hnew1 : truthy d1 = true \/
              (forall cartId, carts s !! userId u = Some cartId -> no_plain_line s cartId pid)).
    { destruct Horder as [[-> _]|_]; [by left|by right]. }
    destruct (addToCart_new_line u pid product q1 d1 s Hp Ha Hq1 Hnew1)
      as (it1 & s1 & Hrun1 & Hci1 & Hpr1 & Hc1 & Hold & Hfresh & Hids1 & Hpid1 & Hqty1 & Hcd1).
    assert (Hp1 : products s1 !! pid = Some product) by (by rewrite Hpr1).
    assert (Hnew2 : truthy d2 = true \/
              (forall cartId, carts s1 !! userId u = Some cartId -> no_plain_line s1 cartId pid)).
    { destruct Horder as [[Hd1 Hd2]|[Hd1 Hd2]]; subst d1 d2; [right|by left].
      intros cartId Hcart y Hy Hyc Hyp.
      assert (Hcid : cartId = ci_cartId it1) by congruence. rewrite Hcid in Hyc.
      rewrite Hci1 in Hy. apply in_app_or in Hy as [Hy|[<-|[]]].
      - destruct (carts s !! userId u) as [cart0|] eqn:Hcart0.
        + apply (Hnone cart0 eq_refl y Hy); [|done]. by rewrite Hyc, (Hold cart0 eq_refl).
        + exfalso. by apply (Hfresh eq_refl y Hy).
      - by rewrite Hcd1, Hnull. }
    destruct (addToCart_new_line u pid product q2 d2 s1 Hp1 Ha Hq2 Hnew2)
      as (it2 & s2 & Hrun2 & Hci2 & _ & _ & Hold2 & _ & Hids2 & Hpid2 & Hqty2 & Hcd2).
    exists it1, s1, it2, s2. repeat (split; [done|]).
    split. { rewrite Hci2, Hci1. by rewrite <- app_assoc. }
    split. { apply Hids2. rewrite Hci1. apply in_or_app. right. by left. }
    split. { symmetry. by apply Hold2. }
    repeat (split; [done|]).
    destruct Horder as [[Hd1 Hd2]|[Hd1 Hd2]]; subst d1 d2; simpl in *;
      rewrite ?Hnull in *; by split.
Qed.

(** Five shirts in stock: 2 and then 3 plain shirts make one line of 5;
    2 shirts with a logo and 3 plain ones make two lines. *)
Lemma addToCart_merges_witness :
  (exists it1 s1 merged s2,
      addToCart Sample.alice (Some 1%positive) (Some 2) None Sample.shop = (Ok it1, s1) /\
      addToCart Sample.alice (Some 1%positive) (Some 3) None s1 = (Ok merged, s2) /\
      ci_quantity merged = 5 /\ ci_id merged = ci_id it1 /\
      cartItems s2 = [merged]) /\
  (exists it1 s1 it2 s2,
      addToCart Sample.alice (Some 1%positive) (Some 2) (Some "logo"%string) Sample.shop
        = (Ok it1, s1) /\
      addToCart Sample.alice (Some 1%positive) (Some 3) None s1 = (Ok it2, s2) /\
      cartItems s2 = [it1; it2] /\ ci_id it1 <> ci_id it2).
Proof.
  destruct (addToCart_merges Sample.alice 1 Sample.shirt 2 3 (Some "logo"%string) Sample.shop)
    as [(it1 & s1 & Hrun1 & _ & _ & _ & _ & Hmerge & _) Htwo].
  - reflexivity.
  - reflexivity.
  - simpl. lia.
  - reflexivity.
  - intros cartId H. vm_compute in H. discriminate.
  - split.
    + destruct Hmerge as (merged & s2 & Hrun2 & _ & Hq & Hid & _ & _ & _ & Hci2);
        [simpl; lia | simpl; lia |].
      exists it1, s1, merged, s2. repeat split; assumption.
    + destruct (Htwo ltac:(simpl; lia) (Some "logo"%string) None)
        as (a & sa & b & sb & Ha & Hb & Hci & Hne & _).
      { left. split; reflexivity. }
      exists a, sa, b, sb. repeat split; assumption.
Defined.

Example addToCart_twice :
  let s1 := snd (addToCart Sample.alice (Some 1%positive) (Some 2) None Sample.shop) in
  let s2 := snd (addToCart Sample.alice (Some 1%positive) (Some 3) None s1) in
  List.map ci_quantity (cartItems s2) = [5] /\
  addToCart Sample.alice (Some 1%positive) (Some 1) None s2 = (Err (InsufficientStock 5), s2).
Proof. split; reflexivity. Qed.

(** ** The administrator's status update *)

Lemma status_name_valid (st : OrderStatus) :
  includes validStatuses (status_name st) = true /\
  status_of_string (status_name st) = Some st.
Proof. by destruct st. Qed.

(** Whatever it is asked, [updateOrderStatus] writes to the order table
    only. *)
Lemma updateOrderStatus_frame (id : Id) (status paymentStatus : option string) (s : Store) :
  products (snd (updateOrderStatus id status paymentStatus s)) = products s /\
  carts (snd (updateOrderStatus id status paymentStatus s)) = carts s /\
  cartItems (snd (updateOrderStatus id status paymentStatus s)) = cartItems s.
Proof.
  unfold updateOrderStatus, order_update.
  destruct (truthy status && _); [done|].
  destruct (orders s !! id) as [order|]; [|done].
  destruct (truthy status); simpl.
  - destruct (status_of_string _); simpl; [|done].
    by destruct (truthy paymentStatus), paymentStatus.
  - by destruct (truthy paymentStatus), paymentStatus.
Qed.

(** C10.  For an existing order and a target status of the enumerated
    set, named in any letter case, [updateOrderStatus] succeeds; the
    stored order differs from the old one in its status, which becomes
    the target, and in its payment status when one is given; no other
    order, no cart and no product changes.  In particular no stock is
    restored when the target is CANCELLED. *)
Theorem updateOrderStatus_only_status (id : Id) (order : Order) (st : OrderStatus)
    (x : string) (paymentStatus : option string) (s : Store) :
  orders s !! id = Some order ->
  toUpperCase x = status_name st ->
  let updated :=
    set_paymentStatus (set_status order st)
      (if truthy paymentStatus then paymentStatus else o_paymentStatus order) in
  let s' := snd (updateOrderStatus id (Some x) paymentStatus s) in
  fst (updateOrderStatus id (Some x) paymentStatus s) = Ok updated /\
  orders s' = <[id := updated]> (orders s) /\
  products s' = products s /\ carts s' = carts s /\ cartItems s' = cartItems s /\
  (forall p, stock_of s' p = stock_of s p).
Proof.
  intros Hord Hname updated s'.
  destruct (status_name_valid st) as [Hin Hdec].
  assert (Htruthy : truthy (Some x) = true).
  { destruct x; [by destruct st|done]. }
  assert (Hrun : updateOrderStatus id (Some x) paymentStatus s
                 = (Ok updated, with_orders s (<[id := updated]> (orders s)))).
  { unfold updateOrderStatus. rewrite Htruthy. simpl default.
    rewrite Hname, Hin. simpl. rewrite Hord.
    unfold order_update. rewrite Hord, Hdec. simpl.
    subst updated. destruct (truthy paymentStatus) eqn:Hps; [|done].
    by destruct paymentStatus. }
  subst s'. rewrite Hrun. simpl. by repeat split.
Qed.

(** The administrator sets Alice's pending order to cancelled: the
    order is CANCELLED and the stock stays at 0. *)
Lemma updateOrderStatus_only_status_witness :
  fst (updateOrderStatus Sample.placed_id (Some "cancelled"%string) None
         Sample.shop_after_order)
    = Ok (set_status Sample.placed_order CANCELLED) /\
  stock_of (snd (updateOrderStatus Sample.placed_id (Some "cancelled"%string) None
                   Sample.shop_after_order)) 1 = Some 0.
Proof.
  destruct (updateOrderStatus_only_status Sample.placed_id Sample.placed_order CANCELLED
              "cancelled" None Sample.shop_after_order)
    as (Hres & _ & _ & _ & _ & Hstock).
  - reflexivity.
  - reflexivity.
  - split; [exact Hres|]. rewrite Hstock. reflexivity.
Defined.

(** ** Stock below zero *)

Lemma sample_shop_nonneg : stock_nonneg Sample.shop /\ stock_nonneg Sample.shop_two_lines.
Proof.
  split; intros id p H; simpl in H;
    apply lookup_singleton_Some in H as [_ <-]; simpl; lia.
Qed.

Lemma line_qty_nodup {A} (pid : A -> Id) (qty : A -> Z) (l : list A) (p : Id) :
  NoDup (List.map pid l) ->
  line_qty pid qty l p = 0 \/
  exists x, In x l /\ pid x = p /\ line_qty pid qty l p = qty x.
Proof.
  induction l as [|x rest IH]; simpl; intros Hnd; [by left|].
  apply NoDup_cons in Hnd as [Hx Hrest].
  destruct (Pos.eqb_spec (pid x) p) as [Heq|Hne].
  - right. exists x. split; [by left|]. split; [done|].
    destruct (IH Hrest) as [->|(y & Hy & Hyp & _)]; [lia|].
    exfalso. apply Hx. rewrite Heq, <- Hyp.
    apply list_elem_of_fmap. exists y. split; [done|]. by apply list_elem_of_In.
  - destruct (IH Hrest) as [->|(y & Hy & Hyp & Hq)]; [by left|].
    right. exists y. split; [by right|]. split; [done|]. by rewrite Hq.
Qed.

(** Where the stock does stay non-negative: an order placed on its own
    from a cart whose lines are for pairwise different products. *)
Lemma placeOrder_nonneg_distinct (u : User) (body : PlaceOrderBody) (s : Store) :
  stock_nonneg s ->
  (forall cartId, carts s !! userId u = Some cartId ->
                  NoDup (List.map ci_productId (cart_items s cartId))) ->
  stock_nonneg (snd (placeOrder u body s)).
Proof.
  intros Hnn Hdistinct.
  destruct (placeOrder u body s) as [[[id order]|e] s'] eqn:Hrun; simpl.
  - destruct (placeOrder_inv _ _ _ _ _ _ Hrun)
      as (cartId & items & Hcart & Hfst & Hjoin & Hok & _ & _ & _ & _ & Hprod).
    intros p pr' Hp. rewrite Hprod in Hp.
    destruct (products s !! p) as [pr|] eqn:Hpr; [|discriminate].
    simpl in Hp. inversion Hp; subst pr'. simpl. clear Hp.
    specialize (Hnn p pr Hpr).
    unfold cart_qty. rewrite line_qty_map.
    destruct (line_qty_nodup (fun ip : CartItem * Product => ci_productId (fst ip))
                (fun ip => ci_quantity (fst ip)) items p) as [->|(ip & Hin & Hpid & ->)].
    + specialize (Hdistinct cartId Hcart). rewrite <- Hfst, List.map_map in Hdistinct.
      exact Hdistinct.
    + lia.
    + apply list_elem_of_In in Hin.
      pose proof (proj1 (Forall_forall _ _) Hjoin ip Hin) as Hlook.
      pose proof (proj1 (Forall_forall _ _) Hok ip Hin) as [_ Hq].
      simpl in Hlook. rewrite Hpid, Hpr in Hlook. inversion Hlook; subst pr. lia.
  - unfold placeOrder in Hrun.
    destruct (placeOrder_validate u body s) as [snap|e0].
    + unfold transaction in Hrun.
      destruct (placeOrder_tx u body snap s) as [[? ?]|?]; inversion Hrun; by subst.
    + inversion Hrun; by subst.
Qed.

(** C1, on the code: the validation loop compares each line with the
    stock on its own.  With five shirts in stock, a plain line of 3 and
    a customized line of 3 are both accepted by [addToCart] and by the
    checks of [placeOrder]; the order is placed and the stock of shirts
    is -1. *)
Theorem placeOrder_oversells_shared_product :
  stock_nonneg Sample.shop /\
  (exists it1 s1 it2,
      addToCart Sample.alice (Some 1%positive) (Some 3) None Sample.shop = (Ok it1, s1) /\
      addToCart Sample.alice (Some 1%positive) (Some 3) (Some "logo"%string) s1
        = (Ok it2, Sample.shop_two_lines)) /\
  stock_nonneg Sample.shop_two_lines /\
  (exists id order s3,
      placeOrder Sample.alice Sample.checkout Sample.shop_two_lines = (Ok (id, order), s3) /\
      List.map oi_quantity (o_items order) = [3; 3] /\
      stock_of s3 1 = Some (-1) /\
      ~ stock_nonneg s3).
Proof.
  split; [apply sample_shop_nonneg|].
  split. { eexists _, _, _. split; reflexivity. }
  split; [apply sample_shop_nonneg|].
  eexists _, _, _.
  split; [reflexivity|]. split; [reflexivity|]. split; [reflexivity|].
  intros Hnn. specialize (Hnn 1%positive (set_stock Sample.shirt (-1)) eq_refl).
  simpl in Hnn. lia.
Qed.

(** ** Two orders for the last unit *)

(** A handler run alone is the two steps of a request in a row. *)
Lemma placeOrder_steps (u : User) (body : PlaceOrderBody) (s : Store) :
  let '(r1, s1) := placeOrder_step u body Received s in
  let '(r2, s2) := placeOrder_step u body r1 s1 in
  (r2, s2) = (Answered (fst (placeOrder u body s)), snd (placeOrder u body s)).
Proof.
  unfold placeOrder, placeOrder_step.
  destruct (placeOrder_validate u body s) as [snap|e]; [|done].
  by destruct (transaction (placeOrder_tx u body snap) s).
Qed.

(** C9, on the code: the stock is checked before the transaction
    starts.  With one mug left and a line for it in Alice's cart and in
    Bob's, when both requests have read their cart before either
    commits, both orders are placed and the stock of mugs is -1.  Run
    one after the other, the second request is refused with
    InsufficientStock and the stock is 0. *)
Theorem placeOrder_race_oversells :
  (exists o1 o2 s',
      run_schedule Sample.alice Sample.bob Sample.checkout Sample.checkout
        [First; Second; First; Second] Received Received Sample.mug_shop
      = (Answered (Ok o1), Answered (Ok o2), s') /\
      stock_of s' 2 = Some (-1)) /\
  (exists o1 s',
      run_schedule Sample.alice Sample.bob Sample.checkout Sample.checkout
        [First; First; Second; Second] Received Received Sample.mug_shop
      = (Answered (Ok o1), Answered (Err (InsufficientStock 0)), s') /\
      stock_of s' 2 = Some 0).
Proof.
  split.
  - eexists _, _, _. split; reflexivity.
  - eexists _, _. split; reflexivity.
Qed.

(** * The rest of the controllers *)

Import ProductController Middleware Api.

(** ** Requests that fail *)

Lemma find_by_id_some (l : list CartItem) (ex : CartItem) :
  In ex l ->
  exists it, List.find (fun it => (ci_id it =? ci_id ex)%positive) l = Some it.
Proof.
  induction l as [|y rest IH]; intros Hin; [destruct Hin|]. simpl.
  destruct (Pos.eqb_spec (ci_id y) (ci_id ex)) as [_|Hne]; [by eexists|].
  destruct Hin as [->|Hin]; [done|]. by apply IH.
Qed.

Lemma filter_none {A} (P : A -> bool) (l : list A) :
  (forall x, In x l -> P x = false) -> List.filter P l = [].
Proof.
  induction l as [|x rest IH]; intros H; simpl; [done|].
  rewrite (H x) by (by left). apply IH. intros y Hy. apply H. by right.
Qed.

Lemma ensure_cart_cases (u : User) (s : Store) :
  (exists cartId, carts s !! userId u = Some cartId /\ ensure_cart u s = (cartId, s)) \/
  (carts s !! userId u = None /\
   ensure_cart u s = (new_id s, with_carts s (<[userId u := new_id s]> (carts s))) /\
   cart_items s (new_id s) = []).
Proof.
  unfold ensure_cart. destruct (carts s !! userId u) as [cartId|] eqn:Hc.
  - left. by exists cartId.
  - right. split; [done|]. split; [done|].
    apply filter_none. intros x Hx. apply Pos.eqb_neq. by apply new_id_not_cart_id.
Qed.



Lemma transaction_error {A} (body : Tx A) (s : Store) (e : Error) :
  fst (transaction body s) = Err e -> snd (transaction body s) = s.
Proof. unfold transaction. by destruct (body s) as [[a s']|e']. Qed.

Lemma placeOrder_error (u : User) (body : PlaceOrderBody) (s : Store) (e : Error) :
  fst (placeOrder u body s) = Err e -> snd (placeOrder u body s) = s.
Proof.
  unfold placeOrder. destruct (placeOrder_validate u body s); [|done].
  apply transaction_error.
Qed.








Example addToCart_fraction :
  addToCart_number Sample.alice (Some 1%positive) (Some (Double.decimal 3 2)) None Sample.shop
    = (Err InternalError, with_carts Sample.shop {[ 10%positive := new_id Sample.shop ]}) /\
  addToCart_number Sample.alice (Some 1%positive) (Some (Double.of_Z 4)) None
    (Sample.shop_with_line 2)
    = (Err (InsufficientStock 5), Sample.shop_with_line 2) /\
  addToCart_number Sample.alice (Some 1%positive) (Some (Double.of_Z 3)) None
    (Sample.shop_with_line 2)
    = addToCart Sample.alice (Some 1%positive) (Some 3) None (Sample.shop_with_line 2).
Proof. by vm_compute. Qed.

(** ** What one request does to the tables *)

Lemma or_null_none (d : option string) : or_null d = None -> truthy d = false.
Proof. unfold or_null. destruct (truthy d) eqn:Ht; [|done]. by destruct d as [[|]|]. Qed.

Lemma cartItem_update_step (id : Id) (q : Z) (s : Store) :
  products (snd (cartItem_update id q s)) = products s /\
  carts (snd (cartItem_update id q s)) = carts s /\
  orders (snd (cartItem_update id q s)) = orders s /\
  (cartItems (snd (cartItem_update id q s)) = cartItems s \/
   cartItems (snd (cartItem_update id q s)) = List.map (requantify id q) (cartItems s)).
Proof.
  unfold cartItem_update. destruct (List.find _ (cartItems s)); simpl; auto.
Qed.

Lemma addToCart_step (u : User) (productId : option Id) (quantity : option Z)
    (customDesign : option string) (s : Store) :
  products (snd (addToCart u productId quantity customDesign s)) = products s /\
  orders (snd (addToCart u productId quantity customDesign s)) = orders s /\
  items_step (products s) (cartItems s)
             (cartItems (snd (addToCart u productId quantity customDesign s))).
Proof.
  unfold addToCart.
  destruct productId as [pid|]; [|by repeat split; constructor].
  destruct (products s !! pid) as [product|] eqn:Hp; [|by repeat split; constructor].
  destruct (negb (p_isActive product)); [by repeat split; constructor|].
  destruct (p_stock product <? default 1 quantity); [by repeat split; constructor|].
  destruct (ensure_cart_spec u s) as (_ & Hpr & Hci & Ho & _).
  destruct (ensure_cart u s) as [cartId s0]. simpl in Hpr, Hci, Ho.
  destruct (if negb (truthy customDesign) then _ else None) as [ex|] eqn:Hex.
  - destruct (ci_quantity ex + default 1 quantity >? p_stock product).
    + simpl. rewrite Hci, Hpr, Ho. by repeat split; constructor.
    + destruct (cartItem_update_step (ci_id ex) (ci_quantity ex + default 1 quantity) s0)
        as (Hp' & _ & Ho' & [Hsame|Hmap]).
      * rewrite Hp', Ho', Hsame, Hci, Hpr, Ho. by repeat split; constructor.
      * rewrite Hp', Ho', Hmap, Hci, Hpr, Ho. by repeat split; constructor.
  - simpl. rewrite Hci, Hpr, Ho. repeat (split; [done|]).
    apply step_append; simpl.
    + intros x Hx. apply new_id_not_item_id. by rewrite Hci.
    + by rewrite Hp.
    + intros Hnull x Hx Hxc Hxp. apply or_null_none in Hnull.
      rewrite Hnull in Hex. simpl in Hex. unfold cartItem_findFirst in Hex.
      rewrite Hci in Hex.
      pose proof (find_none _ _ Hex x Hx) as Hf. simpl in Hf.
      rewrite Hxc, Hxp, !Pos.eqb_refl in Hf. simpl in Hf.
      by destruct (ci_customDesign x).
Qed.

Lemma addToCart_number_step (u : User) (productId : option Id) (quantity : option double)
    (customDesign : option string) (s : Store) :
  products (snd (addToCart_number u productId quantity customDesign s)) = products s /\
  orders (snd (addToCart_number u productId quantity customDesign s)) = orders s /\
  items_step (products s) (cartItems s)
             (cartItems (snd (addToCart_number u productId quantity customDesign s))).
Proof.
  unfold addToCart_number.
  destruct productId as [pid|]; [|by repeat split; constructor].
  destruct (products s !! pid) as [product|] eqn:Hp; [|by repeat split; constructor].
  destruct (negb (p_isActive product)); [by repeat split; constructor|].
  destruct (Double.ltb _ (default (Double.of_Z 1) quantity));
    [by repeat split; constructor|].
  destruct (ensure_cart_spec u s) as (_ & Hpr & Hci & Ho & _).
  destruct (ensure_cart u s) as [cartId s0]. simpl in Hpr, Hci, Ho.
  destruct (if negb (truthy customDesign) then _ else None) as [ex|] eqn:Hex.
  - destruct (Double.ltb _ _).
    { simpl. rewrite Hci, Hpr, Ho. by repeat split; constructor. }
    destruct (Double.to_Z _) as [q|].
    + destruct (cartItem_update_step (ci_id ex) q s0) as (Hp' & _ & Ho' & [Hsame|Hmap]).
      * rewrite Hp', Ho', Hsame, Hci, Hpr, Ho. by repeat split; constructor.
      * rewrite Hp', Ho', Hmap, Hci, Hpr, Ho. by repeat split; constructor.
    + simpl. rewrite Hci, Hpr, Ho. by repeat split; constructor.
  - destruct (Double.to_Z _) as [q|].
    + simpl. rewrite Hci, Hpr, Ho. repeat (split; [done|]).
      apply step_append; simpl.
      * intros x Hx. apply new_id_not_item_id. by rewrite Hci.
      * by rewrite Hp.
      * intros Hnull x Hx Hxc Hxp. apply or_null_none in Hnull.
        rewrite Hnull in Hex. simpl in Hex. unfold cartItem_findFirst in Hex.
        rewrite Hci in Hex.
        pose proof (find_none _ _ Hex x Hx) as Hf. simpl in Hf.
        rewrite Hxc, Hxp, !Pos.eqb_refl in Hf. simpl in Hf.
        by destruct (ci_customDesign x).
    + simpl. rewrite Hci, Hpr, Ho. by repeat split; constructor.
Qed.

Lemma updateCartItem_step (u : User) (itemId : Id) (quantity : option Z) (s : Store) :
  products (snd (updateCartItem u itemId quantity s)) = products s /\
  carts (snd (updateCartItem u itemId quantity s)) = carts s /\
  orders (snd (updateCartItem u itemId quantity s)) = orders s /\
  items_step (products s) (cartItems s)
             (cartItems (snd (updateCartItem u itemId quantity s))).
Proof.
  unfold updateCartItem.
  destruct quantity as [q|]; [|by repeat split; constructor].
  destruct ((q =? 0) || (q <? 1)); [by repeat split; constructor|].
  destruct (carts s !! userId u); [|by repeat split; constructor].
  destruct (cartItem_findFirst _ s) as [it|]; [|by repeat split; constructor].
  destruct (products s !! ci_productId it) as [product|]; [|by repeat split; constructor].
  destruct (q >? p_stock product); [by repeat split; constructor|].
  destruct (cartItem_update_step itemId q s) as (Hp & Hc & Ho & [Hsame|Hmap]).
  - rewrite Hp, Hc, Ho, Hsame. by repeat split; constructor.
  - rewrite Hp, Hc, Ho, Hmap. by repeat split; constructor.
Qed.

Lemma removeFromCart_step (u : User) (itemId : Id) (s : Store) :
  products (snd (removeFromCart u itemId s)) = products s /\
  carts (snd (removeFromCart u itemId s)) = carts s /\
  orders (snd (removeFromCart u itemId s)) = orders s /\
  items_step (products s) (cartItems s) (cartItems (snd (removeFromCart u itemId s))).
Proof.
  unfold removeFromCart.
  destruct (carts s !! userId u); [|by repeat split; constructor].
  destruct (cartItem_findFirst _ s); [|by repeat split; constructor].
  unfold cartItem_delete.
  destruct (List.find _ (cartItems s)); simpl; by repeat split; constructor.
Qed.

Lemma clearCart_step (u : User) (s : Store) :
  products (snd (clearCart u s)) = products s /\
  carts (snd (clearCart u s)) = carts s /\
  orders (snd (clearCart u s)) = orders s /\
  items_step (products s) (cartItems s) (cartItems (snd (clearCart u s))).
Proof.
  unfold clearCart.
  destruct (carts s !! userId u); simpl; by repeat split; constructor.
Qed.

Lemma getCart_step (u : User) (s : Store) :
  products (snd (getCart u s)) = products s /\
  orders (snd (getCart u s)) = orders s /\
  cartItems (snd (getCart u s)) = cartItems s.
Proof.
  unfold getCart.
  destruct (ensure_cart_spec u s) as (_ & Hpr & Hci & Ho & _).
  destruct (ensure_cart u s) as [cartId s0]. simpl in *.
  by destruct (include_product _ _).
Qed.

(** The transaction of [placeOrder], when it commits. *)
Lemma placeOrder_tx_inv (u : User) (body : PlaceOrderBody) (snap : Snapshot)
    (s s' : Store) (r : Id * Order) :
  placeOrder_tx u body snap s = Ok (r, s') ->
  fst r = new_id s /\
  o_items (snd r) = List.map order_line (snap_items snap) /\
  o_userId (snd r) = userId u /\
  orders s' = <[new_id s := snd r]> (orders s) /\
  carts s' = carts s /\
  dom (products s') = dom (products s) /\
  cartItems s' = List.filter (fun it => negb (ci_cartId it =? snap_cartId snap)%positive)
                             (cartItems s).
Proof.
  unfold placeOrder_tx, tx_bind at 1, order_create.
  set (order := Build_Order _ _ _ _ _ _ _ _).
  set (s1 := with_orders s _).
  unfold tx_bind at 1.
  destruct (tx_for _ _ s1) as [[[] s2]|e] eqn:Hloop; [|discriminate].
  apply stock_loop_frame in Hloop. destruct Hloop as (Hc & Hci & Ho & Hd).
  unfold tx_bind, cartItem_deleteMany, tx_ret. intros H. inversion H; subst. simpl.
  rewrite Ho, Hc, Hd, Hci. by repeat split.
Qed.

Lemma placeOrder_validate_inv (u : User) (body : PlaceOrderBody) (s : Store)
    (snap : Snapshot) :
  placeOrder_validate u body s = Ok snap ->
  carts s !! userId u = Some (snap_cartId snap) /\
  include_product (products s) (cart_items s (snap_cartId snap)) = Some (snap_items snap) /\
  snap_items snap <> [] /\
  validate_stock (snap_items snap) = None /\
  shippingAddress body = Some (snap_address snap) /\
  truthy (shippingAddress body) = true.
Proof.
  unfold placeOrder_validate.
  destruct (shippingAddress body) as [[|a r]|]; try discriminate.
  destruct (carts s !! userId u) as [cartId|]; [|discriminate].
  destruct (include_product _ _) as [items|] eqn:Hitems; [|discriminate].
  destruct (length items =? 0)%nat eqn:Hlen; [discriminate|].
  destruct (validate_stock items) eqn:Hv; [discriminate|].
  intros H. inversion H; subst. simpl. repeat split; try done.
  intros ->. discriminate.
Qed.

Lemma placeOrder_step (u : User) (body : PlaceOrderBody) (s : Store) :
  carts (snd (placeOrder u body s)) = carts s /\
  dom (products (snd (placeOrder u body s))) = dom (products s) /\
  items_step (products s) (cartItems s) (cartItems (snd (placeOrder u body s))) /\
  (orders (snd (placeOrder u body s)) = orders s \/
   exists order,
     orders s !! new_id s = None /\
     orders (snd (placeOrder u body s)) = <[new_id s := order]> (orders s) /\
     Forall (fun oi => is_Some (products s !! oi_productId oi)) (o_items order)).
Proof.
  unfold placeOrder.
  destruct (placeOrder_validate u body s) as [snap|e] eqn:Hval;
    [|simpl; repeat split; [constructor|by left]].
  unfold transaction.
  destruct (placeOrder_tx u body snap s) as [[r s']|e] eqn:Htx;
    [|simpl; repeat split; [constructor|by left]].
  destruct (placeOrder_tx_inv _ _ _ _ _ _ Htx) as (_ & Hitems & _ & Ho & Hc & Hd & Hci).
  simpl. rewrite Hci. repeat (split; [done|]). split; [constructor|].
  right. exists (snd r). split; [apply new_id_orders|]. split; [done|].
  rewrite Hitems.
  destruct (placeOrder_validate_inv _ _ _ _ Hval) as (_ & Hinc & _).
  destruct (include_product_fst _ _ _ Hinc) as [_ Hjoin].
  clear -Hjoin. induction Hjoin as [|ip rest Hip _ IH]; simpl; [constructor|].
  constructor; [|exact IH]. simpl. rewrite Hip. eauto.
Qed.

Lemma cancelOrder_step (u : User) (id : Id) (s : Store) :
  carts (snd (cancelOrder u id s)) = carts s /\
  cartItems (snd (cancelOrder u id s)) = cartItems s /\
  dom (products (snd (cancelOrder u id s))) = dom (products s) /\
  (orders (snd (cancelOrder u id s)) = orders s \/
   exists o, orders s !! id = Some o /\
             orders (snd (cancelOrder u id s)) = <[id := set_status o CANCELLED]> (orders s)).
Proof.
  unfold cancelOrder. destruct (orders s !! id) as [order|] eqn:Hord;
    [|simpl; repeat split; by left].
  destruct (negb (o_userId order =? userId u)%positive && negb (is_admin (role u)));
    [simpl; repeat split; by left|].
  destruct (negb (cancellable (o_status order))); [simpl; repeat split; by left|].
  unfold transaction, cancelOrder_tx, tx_bind.
  destruct (tx_for _ _ s) as [[[] s1]|e] eqn:Hloop; [|simpl; repeat split; by left].
  apply stock_loop_frame in Hloop. destruct Hloop as (Hc & Hci & Ho & Hd).
  unfold order_update_status. cbv beta iota. rewrite Ho, Hord. simpl.
  repeat (split; [done|]). right. by exists order.
Qed.

Lemma updateOrderStatus_step (id : Id) (status paymentStatus : option string) (s : Store) :
  orders (snd (updateOrderStatus id status paymentStatus s)) = orders s \/
  exists o o', orders s !! id = Some o /\
    orders (snd (updateOrderStatus id status paymentStatus s)) = <[id := o']> (orders s) /\
    o_items o' = o_items o /\ o_userId o' = o_userId o /\ o_total o' = o_total o.
Proof.
  unfold updateOrderStatus, order_update.
  destruct (truthy status && _); [by left|].
  destruct (orders s !! id) as [order|] eqn:Hord; [|by left].
  destruct (truthy status); simpl.
  - destruct (status_of_string _) as [st|]; simpl; [|by left].
    right. exists order. eexists. split; [done|]. split; [reflexivity|].
    by destruct (truthy paymentStatus), paymentStatus.
  - right. exists order. eexists. split; [done|]. split; [reflexivity|].
    by destruct (truthy paymentStatus), paymentStatus.
Qed.

Lemma dom_insert_existing {V} (m : gmap positive V) (id : positive) (v w : V) :
  m !! id = Some v -> dom (<[id := w]> m) = dom m.
Proof.
  intros H. rewrite dom_insert_L. apply elem_of_dom_2 in H.
  apply subseteq_union_1_L. by apply singleton_subseteq_l.
Qed.

(** What any request does: the set of products stays the same; the
    cart-line table changes in one of the four ways of [items_step]; and
    every order of the new store either was there with the same lines,
    or is new with lines for existing products. *)
Lemma run_op_summary (op : Op) (s : Store) :
  dom (products (snd (run_op op s))) = dom (products s) /\
  items_step (products s) (cartItems s) (cartItems (snd (run_op op s))) /\
  (forall id o', orders (snd (run_op op s)) !! id = Some o' ->
     (exists o, orders s !! id = Some o /\ o_items o' = o_items o) \/
     Forall (fun oi => is_Some (products s !! oi_productId oi)) (o_items o')).
Proof.
  assert (Hsame : forall s' : Store, orders s' = orders s ->
            forall id o', orders s' !! id = Some o' ->
              (exists o, orders s !! id = Some o /\ o_items o' = o_items o) \/
              Forall (fun oi => is_Some (products s !! oi_productId oi)) (o_items o')).
  { intros s' -> id o' H. left. by exists o'. }
  destruct op as [u p q d|u i q|u i|u|u|u b|u i|i st ps|i|i patch|u p q d]; simpl.
  - destruct (addToCart_step u p q d s) as (Hp & Ho & Hi).
    destruct (addToCart u p q d s) as [r s']; simpl in *.
    rewrite Hp. split; [done|]. split; [done|]. by apply Hsame.
  - destruct (updateCartItem_step u i q s) as (Hp & _ & Ho & Hi).
    destruct (updateCartItem u i q s) as [r s']; simpl in *.
    rewrite Hp. split; [done|]. split; [done|]. by apply Hsame.
  - destruct (removeFromCart_step u i s) as (Hp & _ & Ho & Hi).
    destruct (removeFromCart u i s) as [r s']; simpl in *.
    rewrite Hp. split; [done|]. split; [done|]. by apply Hsame.
  - destruct (clearCart_step u s) as (Hp & _ & Ho & Hi).
    destruct (clearCart u s) as [r s']; simpl in *.
    rewrite Hp. split; [done|]. split; [done|]. by apply Hsame.
  - destruct (getCart_step u s) as (Hp & Ho & Hi).
    destruct (getCart u s) as [r s']; simpl in *.
    rewrite Hp, Hi. split; [done|]. split; [constructor|]. by apply Hsame.
  - destruct (placeOrder_step u b s) as (_ & Hd & Hi & Ho).
    destruct (placeOrder u b s) as [r s']; simpl in *.
    split; [done|]. split; [done|].
    destruct Ho as [Ho|(order & Hfresh & Ho & Hres)]; [by apply Hsame|].
    intros id o' H. rewrite Ho in H.
    destruct (decide (new_id s = id)) as [<-|Hne].
    + rewrite lookup_insert_eq in H. inversion H; subst. by right.
    + rewrite lookup_insert_ne in H by done. left. by exists o'.
  - destruct (cancelOrder_step u i s) as (_ & Hi & Hd & Ho).
    destruct (cancelOrder u i s) as [r s']; simpl in *.
    rewrite Hi. split; [done|]. split; [constructor|].
    destruct Ho as [Ho|(o & Hlook & Ho)]; [by apply Hsame|].
    intros id o' H. rewrite Ho in H. left.
    destruct (decide (i = id)) as [<-|Hne].
    + rewrite lookup_insert_eq in H. inversion H; subst. by exists o.
    + rewrite lookup_insert_ne in H by done. by exists o'.
  - destruct (updateOrderStatus_frame i st ps s) as (Hp & _ & Hi).
    destruct (updateOrderStatus_step i st ps s) as [Ho|(o & o1 & Hlook & Ho & Hit & _)];
      destruct (updateOrderStatus i st ps s) as [r s']; simpl in *;
      rewrite Hp, Hi; (split; [done|]); (split; [constructor|]).
    + by apply Hsame.
    + intros id o' H. rewrite Ho in H. left.
      destruct (decide (i = id)) as [<-|Hne].
      * rewrite lookup_insert_eq in H. inversion H; subst. by exists o.
      * rewrite lookup_insert_ne in H by done. by exists o'.
  - unfold deleteProduct. destruct (products s !! i) as [p|] eqn:Hp; simpl.
    + split; [by eapply dom_insert_existing|]. split; [constructor|]. by apply Hsame.
    + split; [done|]. split; [constructor|]. by apply Hsame.
  - unfold updateProduct. destruct (products s !! i) as [p|] eqn:Hp; simpl.
    + split; [by eapply dom_insert_existing|]. split; [constructor|]. by apply Hsame.
    + split; [done|]. split; [constructor|]. by apply Hsame.
  - destruct (addToCart_number_step u p q d s) as (Hp & Ho & Hi).
    destruct (addToCart_number u p q d s) as [r s']; simpl in *.
    rewrite Hp. split; [done|]. split; [done|]. by apply Hsame.
Qed.

(** ** Invariants of the tables *)

Lemma NoDup_map_filter {A B} (f : A -> B) (P : A -> bool) (l : list A) :
  NoDup (List.map f l) -> NoDup (List.map f (List.filter P l)).
Proof.
  induction l as [|x rest IH]; simpl; intros Hnd; [done|].
  apply NoDup_cons in Hnd as [Hx Hrest].
  destruct (P x); simpl; [|by apply IH].
  apply NoDup_cons. split; [|by apply IH].
  intros Hin. apply Hx. apply list_elem_of_In in Hin. apply in_map_iff in Hin.
  destruct Hin as (y & Hy & Hin). apply filter_In in Hin as [Hin _].
  apply list_elem_of_In, in_map_iff. by exists y.
Qed.

Lemma requantify_fields (id : Id) (q : Z) (it : CartItem) :
  ci_id (requantify id q it) = ci_id it /\
  ci_cartId (requantify id q it) = ci_cartId it /\
  ci_productId (requantify id q it) = ci_productId it /\
  ci_customDesign (requantify id q it) = ci_customDesign it.
Proof. unfold requantify. by destruct (ci_id it =? id)%positive. Qed.

Lemma is_Some_dom {V} (m m' : gmap positive V) (k : positive) :
  dom m' = dom m -> is_Some (m !! k) -> is_Some (m' !! k).
Proof. intros Hd H. apply elem_of_dom. rewrite Hd. by apply elem_of_dom. Qed.

Lemma items_step_resolve (prods prods' : gmap positive Product) (l l' : list CartItem) :
  items_step prods l l' -> dom prods' = dom prods ->
  Forall (fun it => is_Some (prods !! ci_productId it)) l ->
  Forall (fun it => is_Some (prods' !! ci_productId it)) l'.
Proof.
  intros Hstep Hd Hall.
  assert (Hall' : Forall (fun it => is_Some (prods' !! ci_productId it)) l).
  { eapply Forall_impl; [exact Hall|]. intros it. by apply is_Some_dom. }
  destruct Hstep as [|P|id q|it Hfresh Hprod Hplain].
  - done.
  - apply Forall_forall. intros x Hx. apply list_elem_of_In, filter_In in Hx as [Hx _].
    apply (proj1 (Forall_forall _ _) Hall'). by apply list_elem_of_In.
  - apply Forall_forall. intros x Hx. apply list_elem_of_In, in_map_iff in Hx.
    destruct Hx as (y & <- & Hy).
    destruct (requantify_fields id q y) as (_ & _ & -> & _).
    apply (proj1 (Forall_forall _ _) Hall'). by apply list_elem_of_In.
  - apply Forall_app. split; [done|]. constructor; [|constructor].
    by apply (is_Some_dom prods).
Qed.

Lemma items_step_ids (prods : gmap positive Product) (l l' : list CartItem) :
  items_step prods l l' ->
  NoDup (List.map ci_id l) -> NoDup (List.map ci_id l').
Proof.
  intros Hstep Hnd. destruct Hstep as [|P|id q|it Hfresh Hprod Hplain].
  - done.
  - by apply NoDup_map_filter.
  - rewrite List.map_map.
    erewrite map_ext; [exact Hnd|]. intros y. apply requantify_fields.
  - rewrite map_app. simpl. apply NoDup_app. split; [done|].
    split; [|apply NoDup_singleton].
    intros x Hx Hin. apply list_elem_of_singleton in Hin. subst x.
    apply list_elem_of_In, in_map_iff in Hx. destruct Hx as (y & Hy & Hin).
    by apply (Hfresh y Hin).
Qed.

Lemma filter_plain_requantify (id : Id) (q : Z) (l : list CartItem) :
  List.map (fun it => (ci_cartId it, ci_productId it))
           (List.filter is_plain (List.map (requantify id q) l))
  = List.map (fun it => (ci_cartId it, ci_productId it)) (List.filter is_plain l).
Proof.
  induction l as [|x rest IH]; simpl; [done|].
  destruct (requantify_fields id q x) as (_ & Hc & Hp & Hd).
  unfold is_plain at 1. rewrite Hd. fold (is_plain x).
  destruct (is_plain x); simpl; [|done]. by rewrite Hc, Hp, IH.
Qed.

Lemma filter_filter_comm {A} (P Q : A -> bool) (l : list A) :
  List.filter P (List.filter Q l) = List.filter Q (List.filter P l).
Proof.
  induction l as [|x rest IH]; simpl; [done|].
  destruct (P x) eqn:HP, (Q x) eqn:HQ; simpl; rewrite ?HP, ?HQ, ?IH; done.
Qed.

Lemma items_step_plain (prods : gmap positive Product) (l l' : list CartItem) :
  items_step prods l l' ->
  NoDup (List.map (fun it => (ci_cartId it, ci_productId it)) (List.filter is_plain l)) ->
  NoDup (List.map (fun it => (ci_cartId it, ci_productId it)) (List.filter is_plain l')).
Proof.
  intros Hstep Hnd. destruct Hstep as [|P|id q|it Hfresh Hprod Hplain].
  - done.
  - rewrite filter_filter_comm. by apply NoDup_map_filter.
  - by rewrite filter_plain_requantify.
  - rewrite List.filter_app. simpl. destruct (is_plain it) eqn:Hit.
    + rewrite map_app. simpl. apply NoDup_app. split; [done|].
      split; [|apply NoDup_singleton].
      intros k Hk Hin. apply list_elem_of_singleton in Hin. subst k.
      apply list_elem_of_In, in_map_iff in Hk. destruct Hk as (y & Hy & Hin).
      apply filter_In in Hin as [Hin Hyplain]. inversion Hy as [[Hyc Hyp]].
      assert (Hnull : ci_customDesign it = None).
      { unfold is_plain in Hit. by destruct (ci_customDesign it). }
      specialize (Hplain Hnull y Hin Hyc Hyp).
      unfold is_plain in Hyplain. by destruct (ci_customDesign y).
    + by rewrite app_nil_r.
Qed.

Lemma run_ops_snoc (ops : list Op) (op : Op) (s : Store) :
  run_ops (ops ++ [op]) s = snd (run_op op (run_ops ops s)).
Proof. unfold run_ops. by rewrite fold_left_app. Qed.

(** X2.  Referential integrity is kept by every sequence of requests:
    if every cart line and every order line references a product of the
    product table, this still holds after any sequence of requests to the
    cart, order and product handlers.  No handler removes a product row
    (deletion is a soft delete), and lines are only created for products
    that exist. *)
Theorem run_ops_resolve (ops : list Op) (s : Store) :
  lines_resolve s -> orders_resolve s ->
  dom (products (run_ops ops s)) = dom (products s) /\
  lines_resolve (run_ops ops s) /\ orders_resolve (run_ops ops s).
Proof.
  intros Hl Ho. induction ops as [|op ops IH] using rev_ind; [by repeat split|].
  destruct IH as (Hd & Hl' & Ho'). rewrite run_ops_snoc.
  set (s1 := run_ops ops s) in *.
  destruct (run_op_summary op s1) as (Hd1 & Hstep & Hord).
  split; [by rewrite Hd1|]. split.
  - unfold lines_resolve in *. by eapply items_step_resolve.
  - intros id o' Hlook. destruct (Hord id o' Hlook) as [(o & Hlook0 & ->)|Hnew].
    + eapply Forall_impl; [exact (Ho' id o Hlook0)|].
      intros oi. by apply is_Some_dom.
    + eapply Forall_impl; [exact Hnew|]. intros oi. by apply is_Some_dom.
Qed.

(** X3.  A cart never holds two plain (uncustomized) lines for the same
    product: if this holds in a store, it holds after any sequence of
    requests. *)
Theorem run_ops_plain_unique (ops : list Op) (s : Store) :
  plain_unique s -> plain_unique (run_ops ops s).
Proof.
  intros H. induction ops as [|op ops IH] using rev_ind; [done|].
  rewrite run_ops_snoc.
  destruct (run_op_summary op (run_ops ops s)) as (_ & Hstep & _).
  unfold plain_unique in *. by eapply items_step_plain.
Qed.

(** The ids of the cart lines stay pairwise different. *)
Lemma run_ops_ids_unique (ops : list Op) (s : Store) :
  ids_unique s -> ids_unique (run_ops ops s).
Proof.
  intros H. induction ops as [|op ops IH] using rev_ind; [done|].
  rewrite run_ops_snoc.
  destruct (run_op_summary op (run_ops ops s)) as (_ & Hstep & _).
  unfold ids_unique in *. by eapply items_step_ids.
Qed.

Lemma sample_shop_wf :
  lines_resolve Sample.shop /\ orders_resolve Sample.shop /\
  plain_unique Sample.shop /\ ids_unique Sample.shop.
Proof.
  split; [constructor|]. split; [|split; constructor].
  intros id o H. simpl in H. by rewrite lookup_empty in H.
Qed.

Lemma run_ops_resolve_witness :
  dom (products (run_ops Sample.session Sample.shop)) = dom (products Sample.shop) /\
  lines_resolve (run_ops Sample.session Sample.shop) /\
  orders_resolve (run_ops Sample.session Sample.shop).
Proof.
  apply (run_ops_resolve Sample.session Sample.shop).
  - constructor.
  - intros id o H. vm_compute in H. discriminate.
Defined.

Lemma run_ops_plain_unique_witness :
  plain_unique (run_ops Sample.session Sample.shop).
Proof.
  apply (run_ops_plain_unique Sample.session Sample.shop). constructor.
Defined.

Example session_outcome :
  List.map (fun op => fst op)
    [ run_op (CancelOrder Sample.alice 5) (run_ops (removelast Sample.session) Sample.shop) ]
  = [None] /\
  stock_of (run_ops Sample.session Sample.shop) 1 = Some 5 /\
  p_isActive <$> products (run_ops Sample.session Sample.shop) !! 1%positive = Some false.
Proof. vm_compute. by repeat split. Qed.

(** ** Cancelling an order for a deleted product *)

(** One request keeps the references of cart lines and order lines
    intact. *)
Lemma run_op_resolve (op : Op) (s : Store) :
  lines_resolve s -> orders_resolve s ->
  lines_resolve (snd (run_op op s)) /\ orders_resolve (snd (run_op op s)).
Proof.
  intros Hl Ho. destruct (run_op_summary op s) as (Hd & Hstep & Hord). split.
  - unfold lines_resolve in *. by eapply items_step_resolve.
  - intros id o' Hlook. destruct (Hord id o' Hlook) as [(o & Hlook0 & ->)|Hnew].
    + eapply Forall_impl; [exact (Ho id o Hlook0)|]. intros oi. by apply is_Some_dom.
    + eapply Forall_impl; [exact Hnew|]. intros oi. by apply is_Some_dom.
Qed.

(** C6, on the code.  Alice orders two of the five shirts and the shirt
    is then deleted from the catalog: the order is PENDING, its line
    references the deleted shirt, and three shirts are in stock.  The
    cancellation succeeds, and the increment for the deleted shirt is not
    skipped: its stock is 5 afterwards. *)
Lemma cancelOrder_deleted_product_counterexample :
  exists order shirt s',
    run_ops [PlaceOrder Sample.alice Sample.checkout; DeleteProduct 1]
            (Sample.shop_with_line 2) = Sample.shop_shirt_deleted /\
    orders Sample.shop_shirt_deleted !! Sample.deleted_shirt_order = Some order /\
    cancellable (o_status order) = true /\
    Exists (fun oi => oi_productId oi = 1%positive) (o_items order) /\
    products Sample.shop_shirt_deleted !! 1%positive = Some shirt /\
    p_isActive shirt = false /\
    cancelOrder Sample.alice Sample.deleted_shirt_order Sample.shop_shirt_deleted
      = (Ok tt, s') /\
    stock_of Sample.shop_shirt_deleted 1 = Some 3 /\
    stock_of s' 1 = Some 5 /\
    stock_of s' 1 <> stock_of Sample.shop_shirt_deleted 1.
Proof.
  eexists _, _, _. split; [reflexivity|]. split; [by vm_compute|]. split; [reflexivity|].
  split; [left; reflexivity|]. split; [by vm_compute|]. split; [reflexivity|].
  split; [by vm_compute|]. split; [by vm_compute|]. split; [by vm_compute|].
  by vm_compute.
Qed.

(** C6, amended.  For a cancellable order some of whose lines reference
    a product that has been deleted from the catalog, [cancelOrder] by
    the owner or an administrator still succeeds and sets the status to
    CANCELLED, and no increment is skipped.  Whatever requests have been
    served since a store with intact references, deletions of products
    among them, every line of the order still references a product row: a
    deleted product is a row marked inactive.  The stock of every
    referenced product, deleted or not, rises by the quantity the order
    carries for it, and nothing else of a product changes: a deleted
    product stays deleted. *)
Theorem cancelOrder_deleted_product (ops : list Op) (s0 : Store)
    (u : User) (id : Id) (order : Order) :
  lines_resolve s0 -> orders_resolve s0 ->
  orders (run_ops ops s0) !! id = Some order ->
  authorized u order ->
  cancellable (o_status order) = true ->
  Forall (fun oi => is_Some (products (run_ops ops s0) !! oi_productId oi))
         (o_items order) /\
  exists s',
    cancelOrder u id (run_ops ops s0) = (Ok tt, s') /\
    o_status <$> orders s' !! id = Some CANCELLED /\
    dom (products s') = dom (products (run_ops ops s0)) /\
    (forall p pr, products (run_ops ops s0) !! p = Some pr ->
       exists pr', products s' !! p = Some pr' /\
                   p_stock pr' = p_stock pr + order_qty (o_items order) p /\
                   p_isActive pr' = p_isActive pr /\
                   p_name pr' = p_name pr /\ p_price pr' = p_price pr) /\
    Forall (fun oi => forall pr,
              products (run_ops ops s0) !! oi_productId oi = Some pr ->
              p_isActive pr = false ->
              stock_of s' (oi_productId oi)
              = Some (p_stock pr + order_qty (o_items order) (oi_productId oi)))
           (o_items order).
Proof.
  intros Hl0 Ho0.
  assert (Hwf : lines_resolve (run_ops ops s0) /\ orders_resolve (run_ops ops s0)).
  { induction ops as [|op ops IH] using rev_ind; [by split|].
    rewrite run_ops_snoc. destruct IH as [Hl Ho]. by apply run_op_resolve. }
  destruct Hwf as [_ Hwf]. set (s := run_ops ops s0) in *.
  intros Hord Hauth Hcan. split; [exact (Hwf id order Hord)|].
  destruct (stock_loop_ok oi_productId oi_quantity
              (fun oi => increment (oi_quantity oi)) (fun oi n => eq_refl)
              (o_items order) s (Hwf id order Hord))
    as (s1 & Hrun & Hc & Hci & Ho & Hp).
  exists (with_orders s1 (<[id := set_status order CANCELLED]> (orders s1))).
  split.
  { unfold cancelOrder. rewrite Hord, (authorized_check _ _ Hauth), Hcan. simpl.
    unfold transaction, cancelOrder_tx, tx_bind. rewrite Hrun.
    unfold order_update_status. by rewrite Ho, Hord. }
  cbn [orders products with_orders].
  split; [by rewrite lookup_insert_eq|].
  split.
  { apply set_eq. intros p. rewrite !elem_of_dom, Hp.
    by destruct (products s !! p). }
  split.
  { intros p pr Hpr. rewrite Hp, Hpr. by eexists. }
  apply Forall_forall. intros oi _ pr Hpr _.
  unfold stock_of. cbn [products with_orders]. by rewrite Hp, Hpr.
Qed.

Lemma cancelOrder_deleted_product_witness :
  Forall (fun oi => is_Some (products Sample.shop_shirt_deleted !! oi_productId oi))
         (o_items Sample.shirt_order) /\
  exists s',
    cancelOrder Sample.alice Sample.deleted_shirt_order Sample.shop_shirt_deleted
      = (Ok tt, s') /\
    o_status <$> orders s' !! Sample.deleted_shirt_order = Some CANCELLED /\
    dom (products s') = dom (products Sample.shop_shirt_deleted) /\
    (forall p pr, products Sample.shop_shirt_deleted !! p = Some pr ->
       exists pr', products s' !! p = Some pr' /\
                   p_stock pr' = p_stock pr + order_qty (o_items Sample.shirt_order) p /\
                   p_isActive pr' = p_isActive pr /\
                   p_name pr' = p_name pr /\ p_price pr' = p_price pr) /\
    Forall (fun oi => forall pr,
              products Sample.shop_shirt_deleted !! oi_productId oi = Some pr ->
              p_isActive pr = false ->
              stock_of s' (oi_productId oi)
              = Some (p_stock pr + order_qty (o_items Sample.shirt_order) (oi_productId oi)))
           (o_items Sample.shirt_order).
Proof.
  apply (cancelOrder_deleted_product
           [PlaceOrder Sample.alice Sample.checkout; DeleteProduct 1]
           (Sample.shop_with_line 2) Sample.alice Sample.deleted_shirt_order
           Sample.shirt_order).
  - constructor; [|constructor]. by eexists.
  - intros k o Hk. vm_compute in Hk. discriminate.
  - reflexivity.
  - left. reflexivity.
  - reflexivity.
Defined.

(** ** The errors that can occur *)

Lemma validate_stock_errors (items : list (CartItem * Product)) (e : Error) :
  validate_stock items = Some e ->
  (exists name, e = ProductUnavailable name) \/ (exists n, e = InsufficientStock n).
Proof.
  induction items as [|[it p] rest IH]; simpl; [discriminate|].
  destruct (negb (p_isActive p)); [intros H; inversion H; eauto|].
  destruct (p_stock p <? ci_quantity it); [intros H; inversion H; eauto|done].
Qed.

Lemma cart_items_resolve (s : Store) (cartId : Id) :
  lines_resolve s ->
  Forall (fun it => is_Some (products s !! ci_productId it)) (cart_items s cartId).
Proof.
  intros H. apply Forall_forall. intros x Hx.
  apply list_elem_of_In, filter_In in Hx as [Hx _].
  apply (proj1 (Forall_forall _ _) H). by apply list_elem_of_In.
Qed.

Lemma placeOrder_validate_empty (u : User) (body : PlaceOrderBody) (s : Store) (cartId : Id) :
  truthy (shippingAddress body) = true ->
  carts s !! userId u = Some cartId ->
  cart_items s cartId = [] ->
  placeOrder_validate u body s = Err EmptyCart.
Proof.
  intros Haddr Hcart Hempty. unfold placeOrder_validate.
  destruct (shippingAddress body) as [[|a r]|]; try discriminate.
  by rewrite Hcart, Hempty.
Qed.

(** The line that makes the validation loop fail. *)
Lemma validate_stock_cause (items : list (CartItem * Product)) (e : Error) :
  validate_stock items = Some e ->
  exists it p,
    In (it, p) items /\
    (e = ProductUnavailable (p_name p) /\ p_isActive p = false
     \/ e = InsufficientStock (p_stock p) /\ p_isActive p = true /\
        p_stock p < ci_quantity it).
Proof.
  induction items as [|[it p] rest IH]; simpl; [discriminate|].
  destruct (p_isActive p) eqn:Ha; simpl.
  - destruct (Z.ltb_spec (p_stock p) (ci_quantity it)) as [Hlt|Hge].
    + intros H. inversion H. exists it, p. split; [by left|]. right. by repeat split.
    + intros H. destruct (IH H) as (it' & p' & Hin & Hcase).
      exists it', p'. split; [by right|done].
  - intros H. inversion H. exists it, p. split; [by left|]. left. by split.
Qed.

(** X4.  In a store whose cart lines all reference existing products,
    the answer of [placeOrder] is decided as follows, and the store is
    unchanged whenever it is an error.  Without a shipping address:
    InvalidArgument.  With one, and no cart or a cart without lines:
    EmptyCart.  With a cart whose lines are all for active products with
    enough stock: success, the transaction never fails.  Otherwise a line
    of the cart decides: ProductUnavailable with the name of its product,
    which is inactive, or InsufficientStock with the stock of its
    product, which is active and has less than the line asks for.  No
    other error occurs. *)
Theorem placeOrder_errors (u : User) (body : PlaceOrderBody) (s : Store) :
  lines_resolve s ->
  (truthy (shippingAddress body) = false ->
   placeOrder u body s = (Err InvalidArgument, s)) /\
  (truthy (shippingAddress body) = true -> carts s !! userId u = None ->
   placeOrder u body s = (Err EmptyCart, s)) /\
  (forall cartId,
     truthy (shippingAddress body) = true -> carts s !! userId u = Some cartId ->
     (cart_items s cartId = [] -> placeOrder u body s = (Err EmptyCart, s)) /\
     (cart_items s cartId <> [] -> Forall (line_in_stock s) (cart_items s cartId) ->
      exists r s', placeOrder u body s = (Ok r, s')) /\
     (cart_items s cartId <> [] -> ~ Forall (line_in_stock s) (cart_items s cartId) ->
      exists line p,
        In line (cart_items s cartId) /\ products s !! ci_productId line = Some p /\
        (placeOrder u body s = (Err (ProductUnavailable (p_name p)), s) /\
           p_isActive p = false
         \/ placeOrder u body s = (Err (InsufficientStock (p_stock p)), s) /\
            p_isActive p = true /\ p_stock p < ci_quantity line))) /\
  (forall e, fst (placeOrder u body s) = Err e ->
     e = InvalidArgument \/ e = EmptyCart \/
     (exists name, e = ProductUnavailable name) \/ (exists n, e = InsufficientStock n)).
Proof.
  intros Hres. split; [|split; [|split]].
  - intros Haddr. unfold placeOrder, placeOrder_validate.
    by destruct (shippingAddress body) as [[|a r]|].
  - intros Haddr Hcart. unfold placeOrder, placeOrder_validate.
    destruct (shippingAddress body) as [[|a r]|]; try discriminate. by rewrite Hcart.
  - intros cartId Haddr Hcart. split; [|split].
    + intros Hempty. unfold placeOrder.
      by rewrite (placeOrder_validate_empty u body s cartId Haddr Hcart Hempty).
    + intros Hne Hstock.
      destruct (placeOrder_validate_ok u body s cartId Haddr Hcart Hne Hstock)
        as (snap & Hval & _ & _ & Hjoin).
      destruct (placeOrder_tx_ok u body snap s) as (order & s' & Htx & _).
      { eapply Forall_impl; [exact Hjoin|]. intros ip Hip. simpl in Hip. eauto. }
      exists (new_id s, order), s'. unfold placeOrder, transaction. by rewrite Hval, Htx.
    + intros Hne Hbad.
      destruct (include_product_total (products s) (cart_items s cartId)) as [items Hitems];
        [by apply cart_items_resolve|].
      destruct (include_product_fst _ _ _ Hitems) as [Hfst Hjoin].
      assert (Hlen : (length items =? 0)%nat = false).
      { destruct items; [|done]. simpl in Hfst. congruence. }
      assert (Hrun : placeOrder u body s
                     = match validate_stock items with
                       | Some e => (Err e, s)
                       | None => placeOrder u body s
                       end).
      { destruct (validate_stock items) as [e|] eqn:Hv; [|done].
        unfold placeOrder, placeOrder_validate.
        destruct (shippingAddress body) as [[|a r]|]; try discriminate.
        by rewrite Hcart, Hitems, Hlen, Hv. }
      destruct (validate_stock items) as [e|] eqn:Hv.
      * destruct (validate_stock_cause items e Hv) as (it & p & Hin & Hcase).
        exists it, p. split.
        { rewrite <- Hfst. by apply (in_map fst items (it, p)). }
        split.
        { apply (proj1 (Forall_forall _ _) Hjoin (it, p)). by apply list_elem_of_In. }
        rewrite Hrun.
        destruct Hcase as [[-> Ha]|(-> & Ha & Hq)]; [left|right]; done.
      * exfalso. apply Hbad. apply validate_stock_none in Hv.
        rewrite <- Hfst. clear -Hv Hjoin.
        induction items as [|[it p] rest IH]; [constructor|].
        inversion Hv as [|? ? [Ha Hq] Hv']; subst.
        inversion Hjoin as [|? ? Hp Hj]; subst. simpl in *.
        constructor; [|by apply IH]. by exists p.
  - intros e. unfold placeOrder.
    destruct (placeOrder_validate u body s) as [snap|e0] eqn:Hval.
    + destruct (placeOrder_validate_inv _ _ _ _ Hval) as (_ & Hinc & _).
      destruct (include_product_fst _ _ _ Hinc) as [_ Hjoin].
      destruct (placeOrder_tx_ok u body snap s) as (order & s' & Htx & _).
      { eapply Forall_impl; [exact Hjoin|]. intros ip Hip. simpl in Hip. eauto. }
      unfold transaction. rewrite Htx. discriminate.
    + simpl. intros H. inversion H; subst e0. clear H.
      unfold placeOrder_validate in Hval.
      destruct (shippingAddress body) as [[|a r]|]; try (inversion Hval; auto).
      clear H0. destruct (carts s !! userId u) as [cartId|]; [|inversion Hval; auto].
      destruct (include_product_total (products s) (cart_items s cartId)) as [items Hitems];
        [by apply cart_items_resolve|].
      rewrite Hitems in Hval.
      destruct (length items =? 0)%nat; [inversion Hval; auto|].
      destruct (validate_stock items) as [e1|] eqn:Hv; [|discriminate].
      inversion Hval; subst e1. right. right. by apply (validate_stock_errors items).
Qed.

(** Six shirts asked for and five in stock: the line decides, with
    InsufficientStock 5; five asked for: the order is placed. *)
Lemma placeOrder_errors_witness :
  placeOrder Sample.alice Sample.checkout (Sample.shop_with_line 6)
    = (Err (InsufficientStock 5), Sample.shop_with_line 6) /\
  (exists r s', placeOrder Sample.alice Sample.checkout (Sample.shop_with_line 5)
                = (Ok r, s')).
Proof.
  split.
  - destruct (placeOrder_errors Sample.alice Sample.checkout (Sample.shop_with_line 6))
      as (_ & _ & Hcart & _).
    { constructor; [|constructor]. exists Sample.shirt. reflexivity. }
    destruct (Hcart 20%positive eq_refl eq_refl) as (_ & _ & Hbad).
    destruct Hbad as (line & p & Hin & Hp & Hcase).
    { discriminate. }
    { intros H. inversion H as [|? ? (p & Hp & _ & Hq) _]; subst.
      vm_compute in Hp. inversion Hp; subst p. simpl in Hq. lia. }
    destruct Hin as [<-|[]]. vm_compute in Hp. inversion Hp; subst p.
    destruct Hcase as [[_ Ha]|[Hrun _]]; [discriminate|exact Hrun].
  - destruct (placeOrder_errors Sample.alice Sample.checkout (Sample.shop_with_line 5))
      as (_ & _ & Hcart & _).
    { constructor; [|constructor]. exists Sample.shirt. reflexivity. }
    destruct (Hcart 20%positive eq_refl eq_refl) as (_ & Hok & _).
    apply Hok; [discriminate|].
    constructor; [|constructor].
    exists Sample.shirt. split; [reflexivity|]. split; [reflexivity|]. simpl. lia.
Defined.

(** The stock loop of [cancelOrder] and the status update that follows
    it succeed when the order's products exist. *)
Lemma cancelOrder_tx_ok (id : Id) (order : Order) (s : Store) :
  orders s !! id = Some order ->
  Forall (fun oi => is_Some (products s !! oi_productId oi)) (o_items order) ->
  exists s',
    cancelOrder_tx id order s = Ok (tt, s') /\
    orders s' = <[id := set_status order CANCELLED]> (orders s) /\
    carts s' = carts s /\ cartItems s' = cartItems s /\
    forall p, products s' !! p =
              (fun pr => set_stock pr (p_stock pr + order_qty (o_items order) p))
                <$> products s !! p.
Proof.
  intros Hord Hprod.
  destruct (stock_loop_ok oi_productId oi_quantity
              (fun oi => increment (oi_quantity oi)) (fun oi n => eq_refl)
              (o_items order) s Hprod)
    as (s1 & Hrun & Hc & Hci & Ho & Hp).
  exists (with_orders s1 (<[id := set_status order CANCELLED]> (orders s1))).
  split.
  { unfold cancelOrder_tx, tx_bind. rewrite Hrun.
    unfold order_update_status. by rewrite Ho, Hord. }
  simpl. by rewrite Ho.
Qed.

(** X5.  In a store whose order lines all reference existing products,
    the answer of [cancelOrder] is decided as follows, and the store is
    unchanged whenever it is an error.  The order does not exist:
    NotFound.  It exists and the requester is neither its owner nor an
    administrator: Forbidden.  The requester may act and the status is
    neither PENDING nor CONFIRMED: InvalidState.  Otherwise it succeeds:
    the transaction never fails.  No other error occurs. *)
Theorem cancelOrder_errors (u : User) (id : Id) (s : Store) :
  orders_resolve s ->
  (orders s !! id = None -> cancelOrder u id s = (Err NotFound, s)) /\
  (forall order, orders s !! id = Some order ->
     (~ authorized u order -> cancelOrder u id s = (Err Forbidden, s)) /\
     (authorized u order -> cancellable (o_status order) = false ->
      cancelOrder u id s = (Err InvalidState, s)) /\
     (authorized u order -> cancellable (o_status order) = true ->
      exists s', cancelOrder u id s = (Ok tt, s'))) /\
  (forall e, fst (cancelOrder u id s) = Err e ->
     e = NotFound \/ e = Forbidden \/ e = InvalidState).
Proof.
  intros Hres. split; [|split].
  - intros Hnone. unfold cancelOrder. by rewrite Hnone.
  - intros order Hord. split; [|split].
    + intros Hno. unfold cancelOrder. by rewrite Hord, (unauthorized_check _ _ Hno).
    + intros Hauth Hcan. by apply (cancelOrder_refused u id order).
    + intros Hauth Hcan.
      destruct (cancelOrder_tx_ok id order s Hord (Hres id order Hord)) as (s' & Htx & _).
      exists s'. unfold cancelOrder.
      rewrite Hord, (authorized_check _ _ Hauth), Hcan. simpl.
      unfold transaction. by rewrite Htx.
  - intros e. unfold cancelOrder.
    destruct (orders s !! id) as [order|] eqn:Hord; [|intros H; inversion H; auto].
    destruct (negb (o_userId order =? userId u)%positive && negb (is_admin (role u)));
      [intros H; inversion H; auto|].
    destruct (negb (cancellable (o_status order))); [intros H; inversion H; auto|].
    destruct (cancelOrder_tx_ok id order s Hord (Hres id order Hord)) as (s' & Htx & _).
    unfold transaction. rewrite Htx. discriminate.
Qed.

(** Bob asks to cancel Alice's order: Forbidden. *)
Lemma cancelOrder_errors_witness :
  cancelOrder Sample.bob Sample.placed_id Sample.shop_after_order
  = (Err Forbidden, Sample.shop_after_order).
Proof.
  destruct (cancelOrder_errors Sample.bob Sample.placed_id Sample.shop_after_order)
    as (_ & Hcases & _).
  - intros id o H.
    assert (Hmap : orders Sample.shop_after_order
                   = {[ Sample.placed_id := Sample.placed_order ]}) by reflexivity.
    rewrite Hmap in H. apply lookup_singleton_Some in H as [_ <-].
    constructor; [|constructor]. exists (set_stock Sample.shirt 0). reflexivity.
  - destruct (Hcases Sample.placed_order eq_refl) as (Hforbidden & _).
    apply Hforbidden. intros [H|H]; discriminate.
Defined.

(** ** Lines and the stock *)

Lemma unique_id_eq (l : list CartItem) (x y : CartItem) :
  NoDup (List.map ci_id l) -> In x l -> In y l -> ci_id x = ci_id y -> x = y.
Proof.
  induction l as [|z rest IH]; simpl; intros Hnd Hx Hy Heq; [done|].
  apply NoDup_cons in Hnd as [Hz Hrest].
  destruct Hx as [->|Hx], Hy as [->|Hy]; try done.
  - exfalso. apply Hz. rewrite Heq. apply list_elem_of_In, in_map_iff. by exists y.
  - exfalso. apply Hz. rewrite <- Heq. apply list_elem_of_In, in_map_iff. by exists x.
  - by apply IH.
Qed.

Lemma find_by_id_unique (l : list CartItem) (ex : CartItem) :
  NoDup (List.map ci_id l) -> In ex l ->
  List.find (fun it => (ci_id it =? ci_id ex)%positive) l = Some ex.
Proof.
  intros Hnd Hin. destruct (find_by_id_some l ex Hin) as [it Hfind].
  rewrite Hfind. f_equal. apply find_some in Hfind as [Hit Heq].
  apply Pos.eqb_eq in Heq. by apply (unique_id_eq l).
Qed.

(** X6.  A line that [addToCart] has created or raised never asks for
    more than the stock: when [addToCart] succeeds, the line it returns
    is for the requested product, which is active, and its quantity is
    at most the product's stock. *)
Theorem addToCart_within_stock (u : User) (pid : Id) (quantity : option Z)
    (customDesign : option string) (s : Store) (it : CartItem) :
  ids_unique s ->
  fst (addToCart u (Some pid) quantity customDesign s) = Ok it ->
  ci_productId it = pid /\
  In it (cartItems (snd (addToCart u (Some pid) quantity customDesign s))) /\
  exists p, products s !! pid = Some p /\ p_isActive p = true /\
            ci_quantity it <= p_stock p.
Proof.
  intros Hids. unfold addToCart.
  destruct (products s !! pid) as [product|] eqn:Hp; [|discriminate].
  destruct (p_isActive product) eqn:Ha; [|discriminate]. simpl.
  destruct (Z.ltb_spec (p_stock product) (default 1 quantity)) as [|Hq]; [discriminate|].
  destruct (ensure_cart_spec u s) as (_ & _ & Hci & _ & _).
  destruct (ensure_cart u s) as [cartId s0]. simpl in Hci.
  destruct (if negb (truthy customDesign) then _ else None) as [ex|] eqn:Hex.
  - rewrite Z.gtb_ltb.
    destruct (Z.ltb_spec (p_stock product) (ci_quantity ex + default 1 quantity)) as [|Hsum];
      [discriminate|].
    assert (Hfound : In ex (cartItems s0) /\ ci_productId ex = pid).
    { destruct (negb (truthy customDesign)); [|discriminate].
      unfold cartItem_findFirst in Hex. apply find_some in Hex as [Hin Hpred].
      split; [done|]. apply andb_prop in Hpred as [Hpred _].
      apply andb_prop in Hpred as [_ Hpid]. by apply Pos.eqb_eq. }
    destruct Hfound as [Hin Hpid].
    unfold cartItem_update. rewrite find_by_id_unique; [|by rewrite Hci|done].
    simpl. intros H. inversion H; subst it. simpl.
    split; [done|]. split; [|by exists product].
    apply in_map_iff. exists ex. split; [|done]. by rewrite Pos.eqb_refl.
  - simpl. intros H. inversion H; subst it. simpl.
    split; [done|]. split; [|by exists product].
    apply in_or_app. right. by left.
Qed.

Lemma addToCart_within_stock_witness :
  exists it,
    fst (addToCart Sample.alice (Some 1%positive) (Some 3) None (Sample.shop_with_line 2))
      = Ok it /\
    ci_productId it = 1%positive /\
    exists p, products (Sample.shop_with_line 2) !! 1%positive = Some p /\
              p_isActive p = true /\ ci_quantity it <= p_stock p.
Proof.
  eexists. split; [reflexivity|].
  destruct (addToCart_within_stock Sample.alice 1 (Some 3) None (Sample.shop_with_line 2)
              (set_quantity {| ci_id := 30; ci_cartId := 20; ci_productId := 1;
                               ci_quantity := 2; ci_customDesign := None |} 5))
    as (Hpid & _ & Hstock).
  - repeat constructor. intros H. inversion H.
  - reflexivity.
  - by split.
Defined.

Lemma requantify_split (id : Id) (q : Z) (before after : list CartItem) (line : CartItem) :
  NoDup (List.map ci_id (before ++ line :: after)) -> ci_id line = id ->
  List.map (requantify id q) (before ++ line :: after)
  = before ++ set_quantity line q :: after.
Proof.
  intros Hnd Hid.
  assert (Hother : forall y, In y before \/ In y after -> requantify id q y = y).
  { intros y Hy. unfold requantify.
    destruct (Pos.eqb_spec (ci_id y) id) as [Heq|]; [|done]. exfalso.
    rewrite map_app in Hnd. simpl in Hnd.
    apply NoDup_app in Hnd as (_ & Hdisj & Hnd2).
    apply NoDup_cons in Hnd2 as [Hl _].
    destruct Hy as [Hy|Hy].
    - apply (Hdisj (ci_id y)).
      + apply list_elem_of_In, in_map_iff. by exists y.
      + rewrite Heq, <- Hid. by left.
    - apply Hl. rewrite Hid, <- Heq. apply list_elem_of_In, in_map_iff. by exists y. }
  rewrite map_app. simpl. unfold requantify at 2. rewrite Hid, Pos.eqb_refl.
  f_equal; [|f_equal].
  - rewrite <- (map_id before) at 2. apply map_ext_in. intros y Hy. apply Hother. by left.
  - rewrite <- (map_id after) at 2. apply map_ext_in. intros y Hy. apply Hother. by right.
Qed.

(** X7.  When [updateCartItem] succeeds the line was in the requester's
    own cart, the new quantity is at least 1 and at most the stock of
    the line's product, and the table of cart lines is the old one with
    the quantity of that one line replaced. *)
Theorem updateCartItem_success (u : User) (itemId : Id) (quantity : option Z)
    (s : Store) (updated : CartItem) :
  ids_unique s ->
  fst (updateCartItem u itemId quantity s) = Ok updated ->
  exists q line p before after,
    quantity = Some q /\ 1 <= q /\
    ci_id line = itemId /\
    carts s !! userId u = Some (ci_cartId line) /\
    products s !! ci_productId line = Some p /\ q <= p_stock p /\
    updated = set_quantity line q /\
    cartItems s = before ++ line :: after /\
    cartItems (snd (updateCartItem u itemId quantity s)) = before ++ updated :: after.
Proof.
  intros Hids. unfold updateCartItem.
  destruct quantity as [q|]; [|discriminate].
  destruct (Z.eqb_spec q 0) as [|Hq0]; [discriminate|]. simpl.
  destruct (Z.ltb_spec q 1) as [|Hq1]; [discriminate|].
  destruct (carts s !! userId u) as [cartId|] eqn:Hcart; [|discriminate].
  destruct (cartItem_findFirst _ s) as [line|] eqn:Hfind; [|discriminate].
  unfold cartItem_findFirst in Hfind. apply find_some in Hfind as [Hin Hpred].
  apply andb_prop in Hpred as [Hid Hc].
  apply Pos.eqb_eq in Hid. apply Pos.eqb_eq in Hc.
  destruct (products s !! ci_productId line) as [p|] eqn:Hp; [|discriminate].
  rewrite Z.gtb_ltb. destruct (Z.ltb_spec (p_stock p) q) as [|Hstock]; [discriminate|].
  unfold cartItem_update. rewrite <- Hid.
  rewrite find_by_id_unique by done. simpl.
  intros H. inversion H; subst updated. clear H.
  destruct (in_split _ _ Hin) as (before & after & Hsplit).
  exists q, line, p, before, after. rewrite Hc. repeat (split; [done|]).
  unfold ids_unique in Hids. rewrite Hsplit in Hids |- *.
  by apply (requantify_split (ci_id line) q).
Qed.

Lemma updateCartItem_success_witness :
  exists q line p before after,
    Some 4 = Some q /\ 1 <= q /\
    ci_id line = 30%positive /\
    carts (Sample.shop_with_line 2) !! userId Sample.alice = Some (ci_cartId line) /\
    products (Sample.shop_with_line 2) !! ci_productId line = Some p /\ q <= p_stock p /\
    {| ci_id := 30; ci_cartId := 20; ci_productId := 1;
       ci_quantity := 4; ci_customDesign := None |} = set_quantity line q /\
    cartItems (Sample.shop_with_line 2) = before ++ line :: after /\
    cartItems (snd (updateCartItem Sample.alice 30 (Some 4) (Sample.shop_with_line 2)))
      = before ++ {| ci_id := 30; ci_cartId := 20; ci_productId := 1;
                     ci_quantity := 4; ci_customDesign := None |} :: after.
Proof.
  apply (updateCartItem_success Sample.alice 30 (Some 4) (Sample.shop_with_line 2)).
  - repeat constructor. intros H. inversion H.
  - reflexivity.
Defined.

(** ** One customer's requests and the other carts *)

Lemma cart_items_requantify_other (l : list CartItem) (ex : CartItem) (q : Z) (c : Id) :
  NoDup (List.map ci_id l) -> In ex l -> ci_cartId ex <> c ->
  List.filter (fun it => (ci_cartId it =? c)%positive)
              (List.map (requantify (ci_id ex) q) l)
  = List.filter (fun it => (ci_cartId it =? c)%positive) l.
Proof.
  intros Hnd Hin Hc. destruct (in_split _ _ Hin) as (before & after & ->).
  rewrite (requantify_split (ci_id ex) q before after ex Hnd eq_refl).
  rewrite !List.filter_app. simpl.
  apply Pos.eqb_neq in Hc. by rewrite Hc.
Qed.

Lemma filter_all {A} (P : A -> bool) (l : list A) :
  (forall x, In x l -> P x = true) -> List.filter P l = l.
Proof.
  induction l as [|x rest IH]; intros H; simpl; [done|].
  rewrite (H x) by (by left). f_equal. apply IH. intros y Hy. apply H. by right.
Qed.

Lemma cart_items_delete_other (l : list CartItem) (line : CartItem) (c : Id) :
  NoDup (List.map ci_id l) -> In line l -> ci_cartId line <> c ->
  List.filter (fun it => (ci_cartId it =? c)%positive)
              (List.filter (fun it => negb (ci_id it =? ci_id line)%positive) l)
  = List.filter (fun it => (ci_cartId it =? c)%positive) l.
Proof.
  intros Hnd Hin Hc. rewrite filter_filter_comm.
  apply filter_all. intros y Hy. apply filter_In in Hy as [Hy Hyc].
  apply Pos.eqb_eq in Hyc.
  destruct (Pos.eqb_spec (ci_id y) (ci_id line)) as [Heq|]; [|done].
  exfalso. apply Hc. by rewrite <- (unique_id_eq l y line Hnd Hy Hin Heq).
Qed.

Lemma addToCart_other_carts (u : User) (productId : option Id) (quantity : option Z)
    (customDesign : option string) (s : Store) (c : Id) :
  ids_unique s ->
  carts (snd (addToCart u productId quantity customDesign s)) !! userId u <> Some c ->
  cart_items (snd (addToCart u productId quantity customDesign s)) c = cart_items s c.
Proof.
  intros Hids. unfold addToCart.
  destruct productId as [pid|]; [|done].
  destruct (products s !! pid) as [product|]; [|done].
  destruct (negb (p_isActive product)); [done|].
  destruct (p_stock product <? default 1 quantity); [done|].
  destruct (ensure_cart_spec u s) as (Hc & _ & Hci & _ & _).
  destruct (ensure_cart u s) as [cartId s0]. simpl in Hc, Hci.
  assert (Hids0 : NoDup (List.map ci_id (cartItems s0))) by (by rewrite Hci).
  unfold cart_items. rewrite <- Hci.
  destruct (if negb (truthy customDesign) then _ else None) as [ex|] eqn:Hex.
  - destruct (ci_quantity ex + default 1 quantity >? p_stock product); [done|].
    assert (Hfound : In ex (cartItems s0) /\ ci_cartId ex = cartId).
    { destruct (negb (truthy customDesign)); [|discriminate].
      unfold cartItem_findFirst in Hex. apply find_some in Hex as [Hin Hpred].
      split; [done|]. apply andb_prop in Hpred as [Hpred _].
      apply andb_prop in Hpred as [Hcid _]. by apply Pos.eqb_eq. }
    destruct Hfound as [Hin Hcid].
    unfold cartItem_update. rewrite find_by_id_unique by done. simpl.
    intros Hother. apply cart_items_requantify_other; [done|done|].
    rewrite Hcid. intros ->. by apply Hother.
  - simpl. intros Hother. rewrite List.filter_app. simpl.
    destruct (Pos.eqb_spec cartId c) as [->|_]; [by destruct Hother|].
    by rewrite app_nil_r.
Qed.

Lemma addToCart_number_other_carts (u : User) (productId : option Id)
    (quantity : option double) (customDesign : option string) (s : Store) (c : Id) :
  ids_unique s ->
  carts (snd (addToCart_number u productId quantity customDesign s)) !! userId u <> Some c ->
  cart_items (snd (addToCart_number u productId quantity customDesign s)) c = cart_items s c.
Proof.
  intros Hids. unfold addToCart_number.
  destruct productId as [pid|]; [|done].
  destruct (products s !! pid) as [product|]; [|done].
  destruct (negb (p_isActive product)); [done|].
  destruct (Double.ltb _ (default (Double.of_Z 1) quantity)); [done|].
  destruct (ensure_cart_spec u s) as (Hc & _ & Hci & _ & _).
  destruct (ensure_cart u s) as [cartId s0]. simpl in Hc, Hci.
  assert (Hids0 : NoDup (List.map ci_id (cartItems s0))) by (by rewrite Hci).
  unfold cart_items. rewrite <- Hci.
  destruct (if negb (truthy customDesign) then _ else None) as [ex|] eqn:Hex.
  - destruct (Double.ltb _ _); [done|].
    destruct (Double.to_Z _) as [q|]; [|done].
    assert (Hfound : In ex (cartItems s0) /\ ci_cartId ex = cartId).
    { destruct (negb (truthy customDesign)); [|discriminate].
      unfold cartItem_findFirst in Hex. apply find_some in Hex as [Hin Hpred].
      split; [done|]. apply andb_prop in Hpred as [Hpred _].
      apply andb_prop in Hpred as [Hcid _]. by apply Pos.eqb_eq. }
    destruct Hfound as [Hin Hcid].
    unfold cartItem_update. rewrite find_by_id_unique by done. simpl.
    intros Hother. apply cart_items_requantify_other; [done|done|].
    rewrite Hcid. intros ->. by apply Hother.
  - destruct (Double.to_Z _) as [q|]; [|done].
    simpl. intros Hother. rewrite List.filter_app. simpl.
    destruct (Pos.eqb_spec cartId c) as [->|_]; [by destruct Hother|].
    by rewrite app_nil_r.
Qed.

Lemma updateCartItem_other_carts (u : User) (itemId : Id) (quantity : option Z)
    (s : Store) (c : Id) :
  ids_unique s ->
  carts s !! userId u <> Some c ->
  cart_items (snd (updateCartItem u itemId quantity s)) c = cart_items s c.
Proof.
  intros Hids Hother. unfold updateCartItem.
  destruct quantity as [q|]; [|done].
  destruct ((q =? 0) || (q <? 1)); [done|].
  destruct (carts s !! userId u) as [cartId|] eqn:Hcart; [|done].
  destruct (cartItem_findFirst _ s) as [line|] eqn:Hfind; [|done].
  unfold cartItem_findFirst in Hfind. apply find_some in Hfind as [Hin Hpred].
  apply andb_prop in Hpred as [Hid Hc].
  apply Pos.eqb_eq in Hid. apply Pos.eqb_eq in Hc.
  destruct (products s !! ci_productId line) as [p|]; [|done].
  destruct (q >? p_stock p); [done|].
  unfold cartItem_update. rewrite <- Hid. rewrite find_by_id_unique by done. simpl.
  unfold cart_items. simpl.
  apply cart_items_requantify_other; [done|done|].
  rewrite Hc. intros ->. by apply Hother.
Qed.

Lemma removeFromCart_other_carts (u : User) (itemId : Id) (s : Store) (c : Id) :
  ids_unique s ->
  carts s !! userId u <> Some c ->
  cart_items (snd (removeFromCart u itemId s)) c = cart_items s c.
Proof.
  intros Hids Hother. unfold removeFromCart.
  destruct (carts s !! userId u) as [cartId|] eqn:Hcart; [|done].
  destruct (cartItem_findFirst _ s) as [line|] eqn:Hfind; [|done].
  unfold cartItem_findFirst in Hfind. apply find_some in Hfind as [Hin Hpred].
  apply andb_prop in Hpred as [Hid Hc].
  apply Pos.eqb_eq in Hid. apply Pos.eqb_eq in Hc.
  unfold cartItem_delete. rewrite <- Hid. rewrite find_by_id_unique by done. simpl.
  unfold cart_items. simpl.
  apply cart_items_delete_other; [done|done|].
  rewrite Hc. intros ->. by apply Hother.
Qed.

(** X8.  A request changes no cart but the requester's: for every
    request and every cart that is not the cart of the customer the
    request acts for, the lines of that cart are the same before and
    after.  (The ids of the cart lines are pairwise different, as the
    primary key makes them.) *)
Theorem run_op_other_carts (op : Op) (s : Store) (c : Id) :
  ids_unique s ->
  (forall u, actor op = Some u -> carts (snd (run_op op s)) !! userId u <> Some c) ->
  cart_items (snd (run_op op s)) c = cart_items s c.
Proof.
  intros Hids Hother.
  destruct op as [u p q d|u i q|u i|u|u|u b|u i|i st ps|i|i patch|u p q d]; simpl in *.
  - specialize (Hother u eq_refl).
    pose proof (addToCart_other_carts u p q d s c Hids) as H.
    destruct (addToCart u p q d s) as [r s']; simpl in *. by apply H.
  - specialize (Hother u eq_refl).
    destruct (updateCartItem_step u i q s) as (_ & Hc & _).
    pose proof (updateCartItem_other_carts u i q s c Hids) as H.
    destruct (updateCartItem u i q s) as [r s']; simpl in *. apply H. by rewrite <- Hc.
  - specialize (Hother u eq_refl).
    destruct (removeFromCart_step u i s) as (_ & Hc & _).
    pose proof (removeFromCart_other_carts u i s c Hids) as H.
    destruct (removeFromCart u i s) as [r s']; simpl in *. apply H. by rewrite <- Hc.
  - specialize (Hother u eq_refl). unfold clearCart in *.
    destruct (carts s !! userId u) as [cartId|] eqn:Hcart; simpl in *; [|done].
    apply cart_items_deleteMany_other. intros ->. by apply Hother.
  - destruct (getCart_step u s) as (_ & _ & Hi).
    destruct (getCart u s) as [r s']; simpl in *. unfold cart_items. by rewrite Hi.
  - specialize (Hother u eq_refl). unfold placeOrder in *.
    destruct (placeOrder_validate u b s) as [snap|e] eqn:Hval; [|done].
    destruct (placeOrder_validate_inv _ _ _ _ Hval) as (Hcart & _).
    unfold transaction in *.
    destruct (placeOrder_tx u b snap s) as [[r s']|e] eqn:Htx; [|done].
    destruct (placeOrder_tx_inv _ _ _ _ _ _ Htx) as (_ & _ & _ & _ & Hc & _ & Hci).
    simpl in *. unfold cart_items. rewrite Hci.
    apply cart_items_deleteMany_other. intros ->. apply Hother. by rewrite Hc.
  - destruct (cancelOrder_step u i s) as (_ & Hi & _).
    destruct (cancelOrder u i s) as [r s']; simpl in *. unfold cart_items. by rewrite Hi.
  - destruct (updateOrderStatus_frame i st ps s) as (_ & _ & Hi).
    destruct (updateOrderStatus i st ps s) as [r s']; simpl in *.
    unfold cart_items. by rewrite Hi.
  - unfold deleteProduct. by destruct (products s !! i).
  - unfold updateProduct. by destruct (products s !! i).
  - specialize (Hother u eq_refl).
    pose proof (addToCart_number_other_carts u p q d s c Hids) as H.
    destruct (addToCart_number u p q d s) as [r s']; simpl in *. by apply H.
Qed.

Lemma run_op_other_carts_witness :
  cart_items (snd (run_op (ClearCart Sample.alice) Sample.mug_shop)) 21
  = cart_items Sample.mug_shop 21.
Proof.
  apply (run_op_other_carts (ClearCart Sample.alice) Sample.mug_shop 21).
  - apply (bool_decide_unpack _). by vm_compute.
  - intros u Hu. inversion Hu; subst. vm_compute. discriminate.
Defined.

(** ** Removing lines *)

Lemma find_own_line (s : Store) (itemId cartId : Id) :
  (exists line, cartItem_findFirst
                  (fun it => (ci_id it =? itemId)%positive && (ci_cartId it =? cartId)%positive) s
                = Some line /\ In line (cartItems s) /\
                ci_id line = itemId /\ ci_cartId line = cartId) \/
  (cartItem_findFirst
     (fun it => (ci_id it =? itemId)%positive && (ci_cartId it =? cartId)%positive) s = None /\
   forall line, In line (cartItems s) -> ci_id line = itemId -> ci_cartId line <> cartId).
Proof.
  unfold cartItem_findFirst.
  destruct (List.find _ (cartItems s)) as [line|] eqn:Hfind.
  - left. exists line. apply find_some in Hfind as [Hin Hpred].
    apply andb_prop in Hpred as [Hid Hc].
    apply Pos.eqb_eq in Hid. apply Pos.eqb_eq in Hc. by repeat split.
  - right. split; [done|]. intros line Hin Hid Hc.
    pose proof (find_none _ _ Hfind line Hin) as Hf. simpl in Hf.
    by rewrite Hid, Hc, !Pos.eqb_refl in Hf.
Qed.

(** X9.  [removeFromCart] succeeds exactly when the requester's own cart
    holds a line with the given id, and otherwise answers NotFound.
    After a success the table of cart lines is the old one without the
    rows of that id, and asking again to remove the line is answered
    NotFound and changes nothing. *)
Theorem removeFromCart_exact (u : User) (itemId : Id) (s : Store) :
  (fst (removeFromCart u itemId s) = Ok tt <->
   exists line, In line (cartItems s) /\ ci_id line = itemId /\
                carts s !! userId u = Some (ci_cartId line)) /\
  (fst (removeFromCart u itemId s) = Ok tt \/
   removeFromCart u itemId s = (Err NotFound, s)) /\
  (fst (removeFromCart u itemId s) = Ok tt ->
   cartItems (snd (removeFromCart u itemId s))
     = List.filter (fun it => negb (ci_id it =? itemId)%positive) (cartItems s) /\
   removeFromCart u itemId (snd (removeFromCart u itemId s))
     = (Err NotFound, snd (removeFromCart u itemId s))).
Proof.
  destruct (carts s !! userId u) as [cartId|] eqn:Hcart.
  2:{ assert (Hrun : removeFromCart u itemId s = (Err NotFound, s))
        by (unfold removeFromCart; by rewrite Hcart).
      rewrite Hrun. cbn [fst snd]. split; [|split]; [|by right|discriminate].
      split; [discriminate|]. intros (line & _ & _ & H). discriminate. }
  destruct (find_own_line s itemId cartId)
    as [(line & Hfind & Hin & Hid & Hc)|(Hfind & Hnone)].
  - set (s2 := with_cartItems s
                 (List.filter (fun it => negb (ci_id it =? itemId)%positive) (cartItems s))).
    assert (Hrun : removeFromCart u itemId s = (Ok tt, s2)).
    { unfold removeFromCart. rewrite Hcart, Hfind. unfold cartItem_delete. rewrite <- Hid.
      destruct (find_by_id_some _ _ Hin) as [it ->]. by rewrite Hid. }
    rewrite Hrun. cbn [fst snd]. split; [|split]; [|by left|].
    + split; [|done]. intros _. exists line. by rewrite Hc.
    + intros _. split; [done|].
      assert (Hc2 : carts s2 !! userId u = Some cartId) by exact Hcart.
      assert (Hgone : cartItem_findFirst
                (fun it => (ci_id it =? itemId)%positive && (ci_cartId it =? cartId)%positive)
                s2 = None).
      { unfold cartItem_findFirst. simpl. apply find_none_iff. intros x Hx.
        apply filter_In in Hx as [_ Hx]. apply negb_true_iff in Hx. by rewrite Hx. }
      unfold removeFromCart. by rewrite Hc2, Hgone.
  - assert (Hrun : removeFromCart u itemId s = (Err NotFound, s))
      by (unfold removeFromCart; by rewrite Hcart, Hfind).
    rewrite Hrun. cbn [fst snd]. split; [|split]; [|by right|discriminate].
    split; [discriminate|]. intros (line & Hin & Hid & Hc). exfalso.
    apply (Hnone line Hin Hid). congruence.
Qed.

(** X10.  [clearCart] is idempotent: clearing a cart that has just been
    cleared gives the same answer and the same store.  When the customer
    has a cart it succeeds, the cart has no lines afterwards, and the
    cart row, the products and the orders are as before; without a cart
    it answers NotFound. *)
Theorem clearCart_idempotent (u : User) (s : Store) :
  clearCart u (snd (clearCart u s)) = clearCart u s /\
  (forall cartId, carts s !! userId u = Some cartId ->
     fst (clearCart u s) = Ok tt /\
     cart_items (snd (clearCart u s)) cartId = [] /\
     carts (snd (clearCart u s)) = carts s /\
     products (snd (clearCart u s)) = products s /\
     orders (snd (clearCart u s)) = orders s) /\
  (carts s !! userId u = None -> clearCart u s = (Err NotFound, s)).
Proof.
  unfold clearCart.
  destruct (carts s !! userId u) as [cartId|] eqn:Hcart; simpl.
  - rewrite Hcart. simpl. split; [|split; [|discriminate]].
    + f_equal. unfold with_cartItems. simpl. f_equal.
      apply filter_all. intros x Hx. by apply filter_In in Hx as [_ Hx].
    + intros c Hc. inversion Hc; subst c. repeat split.
      apply cart_items_deleteMany.
  - rewrite Hcart. split; [done|]. split; [discriminate|done].
Qed.

(** ** Viewing the cart *)

Lemma item_count_acc (items : list (CartItem * Product)) (acc : Z) :
  fold_left (fun sum ip => sum + ci_quantity (fst ip)) items acc
  = acc + fold_right (fun ip n => ci_quantity (fst ip) + n) 0 items.
Proof.
  revert acc. induction items as [|ip rest IH]; intros acc; simpl; [lia|].
  rewrite IH. lia.
Qed.

(** X11.  In a store whose cart lines reference existing products,
    [getCart] always succeeds.  It creates the customer's cart when there
    is none and otherwise leaves the store as it is; it never changes
    products, cart lines or orders.  The view lists the lines of the
    customer's cart in table order, each with its product; the subtotal
    is [Math.round(sum * 100) / 100] in double arithmetic, [sum] being
    the double sum of price times quantity over the lines: when the
    double product of [sum] and 100 is finite, the double nearest to
    [n / 100] for the whole number [n] nearest to that product, halves
    up; and the item count is the sum of the quantities. *)
Theorem getCart_view (u : User) (s : Store) :
  lines_resolve s ->
  exists view,
    fst (getCart u s) = Ok view /\
    carts (snd (getCart u s)) !! userId u = Some (cv_cartId view) /\
    (forall cartId, carts s !! userId u = Some cartId ->
       cv_cartId view = cartId /\ snd (getCart u s) = s) /\
    (carts s !! userId u = None -> cv_items view = []) /\
    products (snd (getCart u s)) = products s /\
    cartItems (snd (getCart u s)) = cartItems s /\
    orders (snd (getCart u s)) = orders s /\
    List.map fst (cv_items view) = cart_items s (cv_cartId view) /\
    Forall (fun ip => products s !! ci_productId (fst ip) = Some (snd ip)) (cv_items view) /\
    cv_subtotal view = round2 (lines_total (List.map order_line (cv_items view))) /\
    (Double.is_finite (Double.mul (lines_total (List.map order_line (cv_items view)))
                                  (Double.of_Z 100)) = true ->
     rounded_to_cents (lines_total (List.map order_line (cv_items view)))
                      (cv_subtotal view)) /\
    cv_itemCount view = fold_right (fun ip n => ci_quantity (fst ip) + n) 0 (cv_items view).
Proof.
  intros Hres. unfold getCart.
  destruct (ensure_cart_spec u s) as (Hc & Hpr & Hci & Ho & _).
  pose proof (ensure_cart_cases u s) as Hcases.
  destruct (ensure_cart u s) as [cartId s0]. simpl in Hc, Hpr, Hci, Ho.
  assert (Hitems0 : cart_items s0 cartId = cart_items s cartId)
    by (unfold cart_items; by rewrite Hci).
  destruct (include_product_total (products s0) (cart_items s0 cartId)) as [items Hinc].
  { rewrite Hpr, Hitems0. by apply cart_items_resolve. }
  rewrite Hinc. destruct (include_product_fst _ _ _ Hinc) as [Hfst Hjoin].
  exists (cart_view cartId items). cbn [fst snd].
  assert (Hsub : cv_subtotal (cart_view cartId items) = round2 (cart_total items))
    by reflexivity.
  assert (Hcount : cv_itemCount (cart_view cartId items)
                   = fold_left (fun sum ip => sum + ci_quantity (fst ip)) items 0)
    by reflexivity.
  rewrite Hsub, Hcount.
  change (cv_cartId (cart_view cartId items)) with cartId.
  change (cv_items (cart_view cartId items)) with items.
  split; [done|]. split; [done|]. split.
  { intros c Hcart. destruct Hcases as [(c' & Hc' & Heq)|(Hnone & _)]; [|congruence].
    inversion Heq; subst. split; congruence. }
  split.
  { intros Hnone. destruct Hcases as [(c' & Hc' & _)|(_ & Heq & Hempty)]; [congruence|].
    inversion Heq; subst cartId s0. clear Heq.
    unfold cart_items in Hfst. simpl in Hfst. unfold cart_items in Hempty.
    rewrite Hempty in Hfst. by destruct items. }
  repeat (split; [done|]).
  split; [by rewrite Hfst|].
  split; [by rewrite <- Hpr|].
  rewrite cart_total_lines.
  split; [done|]. split; [apply round2_rounded|].
  rewrite item_count_acc. lia.
Qed.

Lemma getCart_view_witness :
  exists view,
    fst (getCart Sample.alice (Sample.shop_with_line 2)) = Ok view /\
    cv_cartId view = 20%positive /\
    cv_subtotal view = Double.decimal 3998 100 /\ cv_itemCount view = 2.
Proof.
  destruct (getCart_view Sample.alice (Sample.shop_with_line 2)) as (view & Hrun & _).
  - constructor; [|constructor]. exists Sample.shirt. reflexivity.
  - exists view. split; [exact Hrun|].
    vm_compute in Hrun. inversion Hrun; subst view. by repeat split.
Defined.

(** X12.  [getCart] is idempotent: asking for the cart a second time
    gives the same answer and leaves the store that the first request
    left. *)
Theorem getCart_idempotent (u : User) (s : Store) :
  getCart u (snd (getCart u s)) = getCart u s.
Proof.
  unfold getCart at 2 3.
  destruct (ensure_cart_cases u s) as [(cartId & Hc & ->)|(Hc & -> & Hempty)].
  - destruct (include_product (products s) (cart_items s cartId)) as [items|] eqn:Hinc;
      cbn [snd]; unfold getCart; by rewrite (ensure_cart_existing _ _ _ Hc), Hinc.
  - set (s1 := with_carts s _).
    assert (Hitems : cart_items s1 (new_id s) = []) by exact Hempty.
    rewrite Hitems. cbn [include_product snd].
    assert (Hc1 : carts s1 !! userId u = Some (new_id s)) by apply lookup_insert_eq.
    unfold getCart. by rewrite (ensure_cart_existing _ _ _ Hc1), Hitems.
Qed.

(** ** Submitting an order twice *)

(** X13.  After a successful [placeOrder], the same request sent again
    is refused with EmptyCart and changes nothing: a repeated submission
    cannot create a second order or decrement the stock again. *)
Theorem placeOrder_twice (u : User) (body : PlaceOrderBody) (s : Store) (r : Id * Order) :
  fst (placeOrder u body s) = Ok r ->
  placeOrder u body (snd (placeOrder u body s))
  = (Err EmptyCart, snd (placeOrder u body s)).
Proof.
  intros Hok.
  destruct (placeOrder u body s) as [res s'] eqn:Hrun. cbn [fst snd] in *. subst res.
  unfold placeOrder in Hrun.
  destruct (placeOrder_validate u body s) as [snap|e] eqn:Hval; [|discriminate].
  destruct (placeOrder_validate_inv _ _ _ _ Hval) as (Hcart & _ & _ & _ & _ & Haddr).
  unfold transaction in Hrun.
  destruct (placeOrder_tx u body snap s) as [[r' s2]|e] eqn:Htx; [|discriminate].
  inversion Hrun; subst r' s2. clear Hrun.
  destruct (placeOrder_tx_inv _ _ _ _ _ _ Htx) as (_ & _ & _ & _ & Hc & _ & Hci).
  assert (Hempty : cart_items s' (snap_cartId snap) = []).
  { unfold cart_items. rewrite Hci. apply cart_items_deleteMany. }
  unfold placeOrder.
  rewrite (placeOrder_validate_empty u body s' (snap_cartId snap)); try done.
  by rewrite Hc.
Qed.

Lemma placeOrder_twice_witness :
  placeOrder Sample.alice Sample.checkout Sample.shop_after_order
  = (Err EmptyCart, Sample.shop_after_order).
Proof.
  apply (placeOrder_twice Sample.alice Sample.checkout (Sample.shop_with_line 5)
           (Sample.placed_id, Sample.placed_order)).
  reflexivity.
Defined.

(** ** Reading an order *)

(** X14.  [getOrderById] never changes the store and returns an order
    exactly when it exists and the requester is its owner or an
    administrator.  A missing order is answered NotFound, and an
    existing order of someone else is answered Forbidden. *)
Theorem getOrderById_access (u : User) (id : Id) (s : Store) :
  snd (getOrderById u id s) = s /\
  (forall order, fst (getOrderById u id s) = Ok order <->
                 orders s !! id = Some order /\ authorized u order) /\
  (orders s !! id = None -> fst (getOrderById u id s) = Err NotFound) /\
  (forall order, orders s !! id = Some order -> ~ authorized u order ->
                 fst (getOrderById u id s) = Err Forbidden).
Proof.
  unfold getOrderById.
  destruct (orders s !! id) as [order|] eqn:Hord.
  - destruct (negb (is_admin (role u)) && negb (o_userId order =? userId u)%positive) eqn:Hc.
    + assert (Hno : ~ authorized u order).
      { apply andb_prop in Hc as [Hadmin Hown]. intros [Heq|Hrole].
        - rewrite Heq, Pos.eqb_refl in Hown. discriminate.
        - rewrite Hrole in Hadmin. discriminate. }
      cbn [fst snd]. split; [done|]. split; [|split; [discriminate|done]].
      intros order'. split; [discriminate|].
      intros [Heq Hauth]. inversion Heq; subst order'. contradiction.
    + assert (Hyes : authorized u order).
      { apply andb_false_iff in Hc as [Hadmin|Hown].
        - right. apply negb_false_iff in Hadmin. by destruct (role u).
        - left. apply negb_false_iff in Hown. by apply Pos.eqb_eq. }
      cbn [fst snd]. split; [done|]. split; [|split; [discriminate|]].
      * intros order'. split.
        -- intros Heq. inversion Heq; subst order'. by split.
        -- intros [Heq _]. by inversion Heq.
      * intros order' Heq Hno. inversion Heq; subst order'. contradiction.
  - cbn [fst snd]. split; [done|]. split; [|split; [done|discriminate]].
    intros order'. split; [discriminate|]. by intros [Heq _].
Qed.

(** ** The administrator's status update, continued *)

Lemma cancelOrder_run (u : User) (id : Id) (order : Order) (s : Store) :
  orders s !! id = Some order ->
  authorized u order ->
  cancellable (o_status order) = true ->
  Forall (fun oi => is_Some (products s !! oi_productId oi)) (o_items order) ->
  exists s',
    cancelOrder u id s = (Ok tt, s') /\
    orders s' = <[id := set_status order CANCELLED]> (orders s) /\
    carts s' = carts s /\ cartItems s' = cartItems s /\
    forall p, products s' !! p =
              (fun pr => set_stock pr (p_stock pr + order_qty (o_items order) p))
                <$> products s !! p.
Proof.
  intros Hord Hauth Hcan Hprod.
  destruct (cancelOrder_tx_ok id order s Hord Hprod) as (s' & Htx & Hrest).
  exists s'. split; [|exact Hrest].
  unfold cancelOrder. rewrite Hord, (authorized_check _ _ Hauth), Hcan. simpl.
  unfold transaction. by rewrite Htx.
Qed.

Lemma updateOrderStatus_run (id : Id) (order : Order) (st : OrderStatus) (x : string)
    (paymentStatus : option string) (s : Store) :
  orders s !! id = Some order ->
  toUpperCase x = status_name st ->
  updateOrderStatus id (Some x) paymentStatus s
  = (Ok (set_paymentStatus (set_status order st)
           (if truthy paymentStatus then paymentStatus else o_paymentStatus order)),
     with_orders s
       (<[id := set_paymentStatus (set_status order st)
                  (if truthy paymentStatus then paymentStatus else o_paymentStatus order)]>
          (orders s))).
Proof.
  intros Hord Hname.
  destruct (status_name_valid st) as [Hin Hdec].
  assert (Htruthy : truthy (Some x) = true) by (destruct x; [by destruct st|done]).
  unfold updateOrderStatus. rewrite Htruthy. simpl default.
  rewrite Hname, Hin. simpl. rewrite Hord.
  unfold order_update. rewrite Hord, Hdec. simpl.
  destruct (truthy paymentStatus) eqn:Hps; [|done]. by destruct paymentStatus.
Qed.

(** X15.  [updateOrderStatus] checks no transition.  An order that
    [cancelOrder] has cancelled can be set back to PENDING (or
    CONFIRMED) by the administrator's route and cancelled again; the
    second cancellation succeeds too, and the stock of every product has
    then been raised by twice the quantity the order carries for it. *)
Theorem cancel_reopen_cancel (u : User) (id : Id) (order : Order) (st : OrderStatus)
    (x : string) (s : Store) :
  orders s !! id = Some order ->
  authorized u order ->
  cancellable (o_status order) = true ->
  Forall (fun oi => is_Some (products s !! oi_productId oi)) (o_items order) ->
  toUpperCase x = status_name st ->
  cancellable st = true ->
  exists s1 s2 s3 reopened,
    cancelOrder u id s = (Ok tt, s1) /\
    updateOrderStatus id (Some x) None s1 = (Ok reopened, s2) /\
    o_status reopened = st /\
    cancelOrder u id s2 = (Ok tt, s3) /\
    o_status <$> orders s3 !! id = Some CANCELLED /\
    (forall p, products s3 !! p =
               (fun pr => set_stock pr (p_stock pr + 2 * order_qty (o_items order) p))
                 <$> products s !! p) /\
    (forall p, stock_of s3 p
               = (fun n => n + 2 * order_qty (o_items order) p) <$> stock_of s p).
Proof.
  intros Hord Hauth Hcan Hprod Hname Hst.
  destruct (cancelOrder_run u id order s Hord Hauth Hcan Hprod)
    as (s1 & Hrun1 & Ho1 & _ & _ & Hp1).
  assert (Hord1 : orders s1 !! id = Some (set_status order CANCELLED))
    by (by rewrite Ho1, lookup_insert_eq).
  pose proof (updateOrderStatus_run id _ st x None s1 Hord1 Hname) as Hrun2.
  simpl in Hrun2.
  set (reopened := set_paymentStatus (set_status (set_status order CANCELLED) st)
                     (o_paymentStatus order)) in *.
  set (s2 := with_orders s1 (<[id := reopened]> (orders s1))) in *.
  assert (Hord2 : orders s2 !! id = Some reopened) by apply lookup_insert_eq.
  destruct (cancelOrder_run u id reopened s2 Hord2) as (s3 & Hrun3 & Ho3 & _ & _ & Hp3).
  { exact Hauth. }
  { exact Hst. }
  { simpl. eapply Forall_impl; [exact Hprod|]. intros oi [pr Hpr].
    rewrite Hp1, Hpr. simpl. eauto. }
  exists s1, s2, s3, reopened. repeat (split; [done|]).
  split. { by rewrite Ho3, lookup_insert_eq. }
  assert (Hp : forall p, products s3 !! p =
               (fun pr => set_stock pr (p_stock pr + 2 * order_qty (o_items order) p))
                 <$> products s !! p).
  { intros p. rewrite Hp3. simpl. rewrite Hp1.
    destruct (products s !! p) as [pr|]; simpl; [|done].
    rewrite set_stock_set_stock. do 2 f_equal. lia. }
  split; [exact Hp|].
  intros p. unfold stock_of. rewrite Hp. by destruct (products s !! p).
Qed.

Lemma cancel_reopen_cancel_witness :
  exists s1 s2 s3 reopened,
    cancelOrder Sample.alice Sample.placed_id Sample.shop_after_order = (Ok tt, s1) /\
    updateOrderStatus Sample.placed_id (Some "pending"%string) None s1 = (Ok reopened, s2) /\
    o_status reopened = PENDING /\
    cancelOrder Sample.alice Sample.placed_id s2 = (Ok tt, s3) /\
    o_status <$> orders s3 !! Sample.placed_id = Some CANCELLED /\
    (forall p, products s3 !! p =
               (fun pr => set_stock pr
                  (p_stock pr + 2 * order_qty (o_items Sample.placed_order) p))
                 <$> products Sample.shop_after_order !! p) /\
    (forall p, stock_of s3 p
               = (fun n => n + 2 * order_qty (o_items Sample.placed_order) p)
                   <$> stock_of Sample.shop_after_order p).
Proof.
  apply (cancel_reopen_cancel Sample.alice Sample.placed_id Sample.placed_order PENDING
           "pending" Sample.shop_after_order).
  - reflexivity.
  - left. reflexivity.
  - reflexivity.
  - constructor; [|constructor]. exists (set_stock Sample.shirt 0). reflexivity.
  - reflexivity.
  - reflexivity.
Defined.

Example reopened_order_credits_twice :
  let s1 := snd (cancelOrder Sample.alice Sample.placed_id Sample.shop_after_order) in
  let s2 := snd (updateOrderStatus Sample.placed_id (Some "pending"%string) None s1) in
  let s3 := snd (cancelOrder Sample.alice Sample.placed_id s2) in
  stock_of Sample.shop_after_order 1 = Some 0 /\ stock_of s1 1 = Some 5 /\
  stock_of s3 1 = Some 10.
Proof. vm_compute. by repeat split. Qed.

Lemma includes_valid (y : string) :
  includes validStatuses y = true -> exists st, y = status_name st.
Proof.
  unfold includes, validStatuses. simpl. intros H.
  apply orb_prop in H as [H|H]; [apply String.eqb_eq in H; by exists PENDING|].
  apply orb_prop in H as [H|H]; [apply String.eqb_eq in H; by exists CONFIRMED|].
  apply orb_prop in H as [H|H]; [apply String.eqb_eq in H; by exists PROCESSING|].
  apply orb_prop in H as [H|H]; [apply String.eqb_eq in H; by exists SHIPPED|].
  apply orb_prop in H as [H|H]; [apply String.eqb_eq in H; by exists DELIVERED|].
  apply orb_prop in H as [H|H]; [apply String.eqb_eq in H; by exists CANCELLED|].
  apply orb_prop in H as [H|H]; [apply String.eqb_eq in H; by exists REFUNDED|].
  discriminate.
Qed.

(** X16.  What [updateOrderStatus] does with the other inputs.  A status
    that, in upper case, is not one of the seven names is refused with
    InvalidArgument before the order is looked up.  An unknown order id
    is answered NotFound.  When no status is given (or an empty one) the
    order keeps its status and every other field, and only a given
    payment status is written. *)
Theorem updateOrderStatus_other_inputs (id : Id) (paymentStatus : option string) (s : Store) :
  (forall x, x <> EmptyString -> (forall st, toUpperCase x <> status_name st) ->
     updateOrderStatus id (Some x) paymentStatus s = (Err InvalidArgument, s)) /\
  (forall status, orders s !! id = None ->
     updateOrderStatus id status paymentStatus s = (Err InvalidArgument, s) \/
     updateOrderStatus id status paymentStatus s = (Err NotFound, s)) /\
  (forall status order, truthy status = false -> orders s !! id = Some order ->
     exists updated,
       updateOrderStatus id status paymentStatus s
       = (Ok updated, with_orders s (<[id := updated]> (orders s))) /\
       o_status updated = o_status order /\
       updated = set_paymentStatus order
                   (if truthy paymentStatus then paymentStatus else o_paymentStatus order) /\
       o_paymentStatus updated
       = (if truthy paymentStatus then paymentStatus else o_paymentStatus order) /\
       o_userId updated = o_userId order /\ o_total updated = o_total order /\
       o_items updated = o_items order /\
       o_shippingAddress updated = o_shippingAddress order /\
       o_paymentMethod updated = o_paymentMethod order /\ o_notes updated = o_notes order).
Proof.
  split; [|split].
  - intros x Hx Hname. unfold updateOrderStatus.
    assert (Htruthy : truthy (Some x) = true) by (by destruct x).
    rewrite Htruthy. simpl default.
    destruct (includes validStatuses (toUpperCase x)) eqn:Hin; [|done].
    destruct (includes_valid _ Hin) as [st Hst]. by destruct (Hname st).
  - intros status Hnone. unfold updateOrderStatus.
    destruct (truthy status && _); [by left|]. rewrite Hnone. by right.
  - intros status order Hfalsy Hord. unfold updateOrderStatus, order_update.
    rewrite Hfalsy. simpl. rewrite Hord.
    destruct (truthy paymentStatus) eqn:Hps.
    + destruct paymentStatus as [ps|]; [|done]. eexists. by repeat split.
    + exists order. repeat split; try done. by destruct order.
Qed.

(** The upper case is Unicode's: shipped spelt with a long s (U+017F),
    pending with a dotless i (U+0131), processing with a sharp s
    (U+00DF) and confirmed with the ligature fi (U+FB01) are taken like
    the plain names. *)
Example status_in_unicode_spelling :
  toUpperCase (String "197" (String "191" "hipped")) = "SHIPPED"%string /\
  toUpperCase (String.append "pend" (String "196" (String "177" "ng"))) = "PENDING"%string /\
  toUpperCase (String.append "proce" (String "195" (String "159" "ing")))
    = "PROCESSING"%string /\
  toUpperCase (String.append "con" (String "239" (String "172" (String "129" "rmed"))))
    = "CONFIRMED"%string /\
  fst (updateOrderStatus Sample.placed_id (Some (String "197" (String "191" "hipped"))) None
         Sample.shop_after_order)
    = Ok (set_status Sample.placed_order SHIPPED).
Proof. by vm_compute. Qed.

(** ** The token and the routes *)

Lemma js_split_no_sep (sep : ascii) (t : string) :
  has_char sep t = false -> js_split sep t = [t].
Proof.
  induction t as [|c r IH]; simpl; [done|].
  intros H. apply orb_false_iff in H as [Hc Hr]. by rewrite Hc, (IH Hr).
Qed.

Lemma js_split_first (sep : ascii) (t rest : string) :
  has_char sep t = false ->
  js_split sep (String.append t (String sep rest)) = t :: js_split sep rest.
Proof.
  induction t as [|c r IH]; simpl.
  - intros _. by rewrite Ascii.eqb_refl.
  - intros H. apply orb_false_iff in H as [Hc Hr]. by rewrite Hc, (IH Hr).
Qed.

Lemma prefix_true (p s : string) :
  String.prefix p s = true -> exists rest, s = String.append p rest.
Proof.
  intros H. apply String.prefix_correct in H.
  revert s H. induction p as [|c p IH]; intros s H; simpl in *.
  - by exists s.
  - destruct s as [|d s]; [discriminate|]. simpl in H.
    inversion H as [[Hd Hs]]. rewrite Hs. destruct (IH s Hs) as [rest Hrest].
    exists rest. by rewrite Hrest at 1.
Qed.

(** X17.  The token [protect] reads from the Authorization header.  For
    a token without a space, the header made of Bearer, a space and the
    token gives the token back, also when more text follows after
    another space.  A header that does not begin with Bearer, or that is
    missing, gives no token; and two spaces after Bearer give the empty
    token, which [protect] refuses. *)
Theorem bearer_token_spec (t rest : string) :
  has_char " " t = false ->
  bearer_token (Some (String.append "Bearer " t)) = Some t /\
  bearer_token (Some (String.append "Bearer " (String.append t (String " " rest)))) = Some t /\
  bearer_token (Some (String.append "Bearer  " t)) = Some EmptyString /\
  bearer_token None = None /\
  (forall header token, bearer_token (Some header) = Some token ->
     exists more, header = String.append "Bearer" more).
Proof.
  intros Ht.
  assert (Hsplit : forall more,
             js_split " " (String.append "Bearer " more) = "Bearer"%string :: js_split " " more).
  { intros more. by apply (js_split_first " " "Bearer" more). }
  assert (Hpre : forall more,
             truthy (Some (String.append "Bearer " more))
             && String.prefix "Bearer" (String.append "Bearer " more) = true).
  { intros more. by vm_compute. }
  split; [|split; [|split; [|split]]].
  - unfold bearer_token. rewrite Hpre, Hsplit, (js_split_no_sep _ _ Ht). reflexivity.
  - unfold bearer_token. rewrite Hpre, Hsplit, (js_split_first _ _ _ Ht). reflexivity.
  - change (String.append "Bearer  " t) with (String.append "Bearer " (String " " t)).
    unfold bearer_token. rewrite Hpre, Hsplit. simpl js_split. reflexivity.
  - reflexivity.
  - intros header token H. unfold bearer_token in H.
    destruct (String.prefix "Bearer" header) eqn:Hp.
    + by apply prefix_true.
    + rewrite andb_false_r in H. discriminate.
Qed.

Lemma bearer_token_spec_witness :
  bearer_token (Some "Bearer alice-token"%string) = Some "alice-token"%string /\
  bearer_token (Some "Bearer alice-token and more"%string) = Some "alice-token"%string.
Proof.
  destruct (bearer_token_spec "alice-token" "and more") as (H1 & H2 & _).
  - reflexivity.
  - split; [exact H1|exact H2].
Defined.

Lemma protect_cases (jwt_verify : string -> option User) (authorization : option string) :
  (protect jwt_verify authorization = Reject 401 /\
   forall token u, bearer_token authorization = Some token -> token <> EmptyString ->
                   jwt_verify token <> Some u) \/
  (exists token u, bearer_token authorization = Some token /\ token <> EmptyString /\
                   jwt_verify token = Some u /\
                   protect jwt_verify authorization = Next u).
Proof.
  unfold protect.
  destruct (bearer_token authorization) as [[|a r]|] eqn:Htok; simpl.
  - left. split; [done|]. intros token u H. by inversion H.
  - destruct (jwt_verify (String a r)) as [u|] eqn:Hv.
    + right. exists (String a r), u. by repeat split.
    + left. split; [done|]. intros token u H _. inversion H; subst. by rewrite Hv.
  - left. split; [done|]. discriminate.
Qed.

(** X18.  The administrator's route to [updateOrderStatus].  Whatever
    the token verifier, the request reaches the handler only when the
    Authorization header carries a non-empty token that verifies to a
    user whose role is ADMIN, and the answer is then the handler's.  In
    every other case the route answers 401 (no token, or a token that
    does not verify) or 403 (a verified user who is not an
    administrator) and the store is unchanged. *)
Theorem route_updateOrderStatus_admin_only (jwt_verify : string -> option User)
    (authorization : option string) (id : Id) (status paymentStatus : option string)
    (s : Store) :
  (exists token admin,
      bearer_token authorization = Some token /\ token <> EmptyString /\
      jwt_verify token = Some admin /\ role admin = ADMIN /\
      route_updateOrderStatus jwt_verify authorization id status paymentStatus s
      = (Handled (fst (updateOrderStatus id status paymentStatus s)),
         snd (updateOrderStatus id status paymentStatus s))) \/
  (route_updateOrderStatus jwt_verify authorization id status paymentStatus s
     = (Refused 401, s) /\
   forall token u, bearer_token authorization = Some token -> token <> EmptyString ->
                   jwt_verify token <> Some u) \/
  (route_updateOrderStatus jwt_verify authorization id status paymentStatus s
     = (Refused 403, s) /\
   exists token u, bearer_token authorization = Some token /\
                   jwt_verify token = Some u /\ role u = USER).
Proof.
  unfold route_updateOrderStatus, admin_only, guard.
  destruct (protect_cases jwt_verify authorization)
    as [[-> Hnone]|(token & u & Htok & Hne & Hv & ->)].
  - right. left. by split.
  - unfold authorize. simpl. destruct (role u) eqn:Hrole; simpl.
    + right. right. split; [done|]. by exists token, u.
    + left. exists token, u. repeat (split; [done|]).
      by destruct (updateOrderStatus id status paymentStatus s).
Qed.

Example alice_cannot_set_status :
  route_updateOrderStatus Sample.sample_verify (Some "Bearer alice-token"%string)
    Sample.placed_id (Some "delivered"%string) None Sample.shop_after_order
    = (Refused 403, Sample.shop_after_order) /\
  route_updateOrderStatus Sample.sample_verify (Some "Bearer forged"%string)
    Sample.placed_id (Some "delivered"%string) None Sample.shop_after_order
    = (Refused 401, Sample.shop_after_order) /\
  o_status <$> orders (snd (route_updateOrderStatus Sample.sample_verify
                              (Some "Bearer root-token"%string)
                              Sample.placed_id (Some "delivered"%string) None
                              Sample.shop_after_order)) !! Sample.placed_id
    = Some DELIVERED.
Proof. vm_compute. by repeat split. Qed.

(** X19.  The customers' routes act for the user of the token.  With a
    token that verifies to a customer (role USER), the routes to
    [cancelOrder] and [getOrderById] on an order of somebody else answer
    Forbidden and change nothing; without a token that verifies, the
    three routes behind [protect] answer 401 and change nothing. *)
Theorem routes_act_for_token_user (jwt_verify : string -> option User)
    (authorization : option string) (id : Id) (body : PlaceOrderBody) (s : Store) :
  (forall token u order,
      bearer_token authorization = Some token -> token <> EmptyString ->
      jwt_verify token = Some u -> role u = USER ->
      orders s !! id = Some order -> o_userId order <> userId u ->
      route_cancelOrder jwt_verify authorization id s = (Handled (Err Forbidden), s) /\
      route_getOrderById jwt_verify authorization id s = (Handled (Err Forbidden), s)) /\
  ((forall token u, bearer_token authorization = Some token -> token <> EmptyString ->
                    jwt_verify token <> Some u) ->
   route_cancelOrder jwt_verify authorization id s = (Refused 401, s) /\
   route_getOrderById jwt_verify authorization id s = (Refused 401, s) /\
   route_placeOrder jwt_verify authorization body s = (Refused 401, s)).
Proof.
  unfold route_cancelOrder, route_getOrderById, route_placeOrder, guard.
  destruct (protect_cases jwt_verify authorization)
    as [[-> Hnone]|(token & u & Htok & Hne & Hv & ->)].
  - split; [|done]. intros token u order Htok Hne Hv. by destruct (Hnone token u Htok Hne).
  - split.
    + intros token' u' order Htok' _ Hv' Hrole Hord Hother.
      assert (token' = token) by congruence. subst token'.
      assert (u' = u) by congruence. subst u'.
      unfold cancelOrder, getOrderById. rewrite Hord, Hrole.
      apply Pos.eqb_neq in Hother. by rewrite Hother.
    + intros Hnone. by destruct (Hnone token u Htok Hne).
Qed.

(** ** Deleting a product *)

(** X20.  [deleteProduct] is a soft delete.  The product row stays in
    the table with its name, price and stock, only marked inactive, and
    carts, cart lines and orders are untouched.  From then on
    [addToCart] for the product is answered NotFound, and [placeOrder]
    cannot succeed for a cart that holds a line for it. *)
Theorem deleteProduct_blocks_sales (id : Id) (p : Product) (s : Store) :
  products s !! id = Some p ->
  exists s',
    deleteProduct id s = (Ok tt, s') /\
    products s' = <[id := set_isActive p false]> (products s) /\
    stock_of s' id = Some (p_stock p) /\
    carts s' = carts s /\ cartItems s' = cartItems s /\ orders s' = orders s /\
    (forall u quantity customDesign,
       addToCart u (Some id) quantity customDesign s' = (Err NotFound, s')) /\
    (forall u body cartId line,
       carts s' !! userId u = Some cartId ->
       In line (cart_items s' cartId) -> ci_productId line = id ->
       exists e, placeOrder u body s' = (Err e, s')).
Proof.
  intros Hp. unfold deleteProduct. rewrite Hp.
  set (s' := with_products s _).
  assert (Hp' : products s' !! id = Some (set_isActive p false)) by apply lookup_insert_eq.
  exists s'. split; [done|]. split; [done|].
  split; [unfold stock_of; by rewrite Hp'|].
  repeat (split; [done|]). split.
  - intros u quantity customDesign. unfold addToCart. by rewrite Hp'.
  - intros u body cartId line Hcart Hin Hline.
    destruct (placeOrder u body s') as [[[oid order]|e] s2] eqn:Hrun.
    + exfalso.
      destruct (placeOrder_inv _ _ _ _ _ _ Hrun)
        as (cartId' & items & Hcart' & Hfst & Hjoin & Hok & _).
      assert (cartId' = cartId) by congruence. subst cartId'.
      rewrite <- Hfst in Hin. apply in_map_iff in Hin as ([it pr] & Heq & Hin).
      simpl in Heq. subst it. apply list_elem_of_In in Hin.
      pose proof (proj1 (Forall_forall _ _) Hjoin _ Hin) as Hlook.
      pose proof (proj1 (Forall_forall _ _) Hok _ Hin) as [Hact _].
      cbn [fst snd] in Hlook, Hact. rewrite Hline, Hp' in Hlook.
      inversion Hlook; subst pr. discriminate.
    + exists e. f_equal. pose proof (placeOrder_error u body s' e) as H.
      rewrite Hrun in H. by apply H.
Qed.

Lemma deleteProduct_blocks_sales_witness :
  exists s',
    deleteProduct 1 (Sample.shop_with_line 2) = (Ok tt, s') /\
    stock_of s' 1 = Some 5 /\
    addToCart Sample.bob (Some 1%positive) (Some 1) None s' = (Err NotFound, s') /\
    exists e, placeOrder Sample.alice Sample.checkout s' = (Err e, s').
Proof.
  destruct (deleteProduct_blocks_sales 1 Sample.shirt (Sample.shop_with_line 2))
    as (s' & Hrun & Hprod & Hstock & Hc & Hci & _ & Hadd & Hplace).
  - reflexivity.
  - exists s'. split; [exact Hrun|]. split; [exact Hstock|]. split; [apply Hadd|].
    apply (Hplace Sample.alice Sample.checkout 20%positive
             {| ci_id := 30; ci_cartId := 20; ci_productId := 1;
                ci_quantity := 2; ci_customDesign := None |}).
    + rewrite Hc. reflexivity.
    + unfold cart_items. rewrite Hci. left. reflexivity.
    + reflexivity.
Defined.

Lemma with_products_same (s : Store) : with_products s (products s) = s.
Proof. by destruct s. Qed.

(** X21.  A soft delete loses nothing: after [deleteProduct] on an
    active product, [updateProduct] with only [isActive: true] answers
    with the product as it was and restores the store exactly. *)
Theorem deleteProduct_undo (id : Id) (p : Product) (s : Store) :
  products s !! id = Some p ->
  p_isActive p = true ->
  updateProduct id {| patch_name := None; patch_price := None;
                      patch_stock := None; patch_isActive := Some true |}
    (snd (deleteProduct id s))
  = (Ok p, s).
Proof.
  intros Hp Ha. unfold deleteProduct. rewrite Hp. cbn [snd].
  unfold updateProduct. cbn [products with_products]. rewrite lookup_insert_eq.
  unfold apply_patch. simpl default.
  assert (Hback : {| p_name := p_name p; p_price := p_price p;
                     p_stock := p_stock p; p_isActive := true |} = p).
  { destruct p. simpl in Ha. by subst. }
  rewrite Hback. f_equal.
  unfold with_products. simpl. rewrite insert_insert_eq, (insert_id _ _ _ Hp).
  by destruct s.
Qed.

Lemma deleteProduct_undo_witness :
  updateProduct 1 {| patch_name := None; patch_price := None;
                     patch_stock := None; patch_isActive := Some true |}
    (snd (deleteProduct 1 Sample.shop))
  = (Ok Sample.shirt, Sample.shop).
Proof.
  apply (deleteProduct_undo 1 Sample.shirt Sample.shop); reflexivity.
Defined.

(** ** Reviews and the average rating *)





Example average_of_three :
  round1 (avgRating [ {| r_rating := 4; r_comment := None |};
                      {| r_rating := 5; r_comment := None |};
                      {| r_rating := 5; r_comment := None |} ]) = (47 # 10)%Q.
Proof. reflexivity. Qed.




Example review_twice :
  let products := products Sample.shop in
  let r1 := snd (addReview Sample.alice 1 (Some 2) (Some "too small"%string) products ∅) in
  let r2 := snd (addReview Sample.alice 1 (Some 5) None products r1) in
  r2 !! (10%positive, 1%positive)
    = Some {| r_rating := 5; r_comment := Some "too small"%string |} /\
  length (product_reviews r2 1) = 1%nat /\
  addReview Sample.alice 1 (Some 6) None products r2 = (Err InvalidArgument, r2).
Proof. vm_compute. by repeat split. Qed.

(** ** Paging *)

Lemma totalPages_pos (total limit : Z) :
  0 < limit -> totalPages total limit = Some (- ((- total) / limit)).
Proof.
  intros Hl. unfold totalPages. destruct limit as [|l|l]; try lia. simpl.
  f_equal. unfold Qceiling, Qfloor, Qdiv, Qmult, Qinv, Qopp, inject_Z. simpl.
  by rewrite Z.mul_1_r.
Qed.

Lemma findMany_window_page {A} (rows : list A) (page limit : Z) :
  1 <= limit -> 1 <= page ->
  findMany_window rows (page_skip page limit) limit
  = Ok (firstn (Z.to_nat limit)
               (skipn ((Z.to_nat page - 1) * Z.to_nat limit) rows)).
Proof.
  intros Hl Hp. unfold findMany_window, page_skip.
  destruct (Z.ltb_spec ((page - 1) * limit) 0) as [Hneg|_]; [nia|].
  destruct (Z.ltb_spec limit 0) as [|_]; [lia|].
  do 3 f_equal. rewrite Z2Nat.inj_mul by lia. f_equal. lia.
Qed.

Lemma windows_concat {A} (L : nat) (n : nat) (rows : list A) :
  (length rows <= n * L)%nat ->
  flat_map (fun k => firstn L (skipn (k * L) rows)) (seq 0 n) = rows.
Proof.
  revert rows. induction n as [|n IH]; intros rows Hlen.
  - simpl in *. destruct rows; [done|simpl in Hlen; lia].
  - cbn [seq flat_map]. rewrite <- seq_shift, flat_map_concat_map, List.map_map.
    rewrite <- flat_map_concat_map.
    rewrite (flat_map_ext _ (fun k => firstn L (skipn (k * L) (skipn L rows)))).
    + rewrite IH.
      * simpl. apply firstn_skipn.
      * rewrite length_skipn. lia.
    + intros k. rewrite List.skipn_skipn. do 2 f_equal. simpl. lia.
Qed.

(** X24.  The paging shared by the list handlers, for whole numbers
    [page] and [limit] with a limit of at least 1.  The number of pages
    [n] is the least one with [n * limit >= total]; the pages 1 to [n],
    one after the other, give every row exactly once and in order; every
    page holds at most [limit] rows, reports the same total and number
    of pages, and a page after the last one is empty. *)
Theorem list_page_tiles {A} (rows : list A) (limit : Z) :
  1 <= limit ->
  exists n : Z,
    totalPages (Z.of_nat (length rows)) limit = Some n /\
    (n - 1) * limit < Z.of_nat (length rows) <= n * limit /\
    pages_concat rows limit (Z.to_nat n) = rows /\
    (forall page, 1 <= page ->
       exists pg, list_page rows page limit = Ok pg /\
                  Z.of_nat (length (pg_rows pg)) <= limit /\
                  pg_total pg = Z.of_nat (length rows) /\
                  pg_totalPages pg = Some n /\
                  (n < page -> pg_rows pg = [])).
Proof.
  intros Hl.
  set (total := Z.of_nat (length rows)).
  set (n := - ((- total) / limit)).
  assert (Htp : totalPages total limit = Some n) by (apply totalPages_pos; lia).
  assert (Hbounds : (n - 1) * limit < total <= n * limit).
  { subst n. pose proof (Z.mul_div_le (- total) limit ltac:(lia)).
    pose proof (Z.mul_succ_div_gt (- total) limit ltac:(lia)). nia. }
  assert (Hn : 0 <= n) by (subst total; nia).
  exists n. split; [done|]. split; [done|]. split.
  - unfold pages_concat.
    rewrite <- seq_shift, flat_map_concat_map, List.map_map, <- flat_map_concat_map.
    rewrite (flat_map_ext _ (fun k => firstn (Z.to_nat limit)
                                        (skipn (k * Z.to_nat limit) rows))).
    + apply windows_concat. subst total. nia.
    + intros k. unfold list_page. rewrite findMany_window_page by lia.
      cbn [pg_rows]. rewrite Nat2Z.id. do 3 f_equal. lia.
  - intros page Hp. unfold list_page. rewrite findMany_window_page by lia.
    eexists. split; [reflexivity|]. cbn [pg_rows pg_total pg_totalPages].
    split. { rewrite length_firstn. lia. }
    split; [done|]. split; [done|].
    intros Hlast. rewrite skipn_all2; [by destruct (Z.to_nat limit)|].
    subst total. nia.
Qed.

Lemma list_page_tiles_witness :
  exists n : Z,
    totalPages (Z.of_nat (length [1; 2; 3; 4; 5]%positive)) 2 = Some n /\
    (n - 1) * 2 < Z.of_nat (length [1; 2; 3; 4; 5]%positive) <= n * 2 /\
    pages_concat [1; 2; 3; 4; 5]%positive 2 (Z.to_nat n) = [1; 2; 3; 4; 5]%positive /\
    (forall page, 1 <= page ->
       exists pg, list_page [1; 2; 3; 4; 5]%positive page 2 = Ok pg /\
                  Z.of_nat (length (pg_rows pg)) <= 2 /\
                  pg_total pg = Z.of_nat (length [1; 2; 3; 4; 5]%positive) /\
                  pg_totalPages pg = Some n /\
                  (n < page -> pg_rows pg = [])).
Proof.
  apply (list_page_tiles [1; 2; 3; 4; 5]%positive 2). lia.
Defined.

(** Five orders in pages of two: three pages, the last with one order. *)
Example five_orders_in_pages_of_two :
  totalPages 5 2 = Some 3 /\
  (exists pg, list_page [1; 2; 3; 4; 5]%positive 3 2 = Ok pg /\
              pg_rows pg = [5]%positive).
Proof.
  split; [by vm_compute|].
  eexists. split; [by vm_compute|]. reflexivity.
Qed.
